(** * Secure notes service: a shallow embedding of [app.py]

    The Flask application of the repository (registration, login, the
    session guard [token_required] and the per-user note endpoints) is
    rendered as pure functions over an explicit database state.

    Conventions of the embedding:
    - Python values that come out of JSON are values of type [json];
      a Python exception is a value of type [exn] carried by [result].
    - A view takes the Flask [request], the per-request inputs that the
      code reads from its surroundings ([env]: the clock, read once or
      twice, the ObjectId drawn for an insert, the salt drawn for a
      password hash) and the database, and returns what escapes the
      Python function (a response or an uncaught exception) together with
      the new database.
    - Text is Latin-1: a character is its code point below 256.
    - Instants are whole seconds since the epoch, the resolution of the
      [exp] claim of a JSON web token.
    - The keyed primitives of the libraries (the password digest of
      werkzeug, HMAC-SHA256 of PyJWT), the validation PyJWT applies to
      claims sets other than the plain ones, and the process
      configuration are the fields of the class [Platform]. *)

From Stdlib Require Import String Ascii List ZArith NArith Bool Lia DecimalString.
From Stdlib Require Import Sorting.Sorted Sorting.Permutation.
Import ListNotations.

Open Scope string_scope.
Open Scope Z_scope.

Set Warnings "-register-all".

(* ================================================================== *)
(** ** Python values, exceptions *)

Inductive exn : Type :=
| TypeError
| AttributeError
| KeyError
| ValueError
| OverflowError
| DuplicateKeyError.

Inductive result (A : Type) : Type :=
| Ok (a : A)
| Raise (e : exn).

Arguments Ok {A} a.
Arguments Raise {A} e.

Definition bind {A B : Type} (c : result A) (k : A -> result B) : result B :=
  match c with
  | Ok a => k a
  | Raise e => Raise e
  end.

Notation "x <- c ;; k" := (bind c (fun x => k))
  (at level 61, c at next level, right associativity).

(** The values [request.get_json()] can return, which are also the values
    a note field can hold once an update has stored one. *)
Inductive json : Type :=
| JNull
| JBool (b : bool)
| JNum (n : Z)
| JStr (s : string)
| JArr (items : list json)
| JObj (members : list (string * json)).

Definition len (s : string) : Z := Z.of_nat (String.length s).

(** Python truthiness, as [if not data] reads it. *)
Definition truthy (v : json) : bool :=
  match v with
  | JNull => false
  | JBool b => b
  | JNum n => negb (n =? 0)
  | JStr s => negb (String.eqb s "")
  | JArr items => match items with [] => false | _ => true end
  | JObj members => match members with [] => false | _ => true end
  end.

Fixpoint assoc (k : string) (members : list (string * json)) : option json :=
  match members with
  | [] => None
  | (k', v) :: rest => if String.eqb k k' then Some v else assoc k rest
  end.

(** [data.get(key, default)]: only a dict has the method. *)
Definition py_get (data : json) (key : string) (default : json) : result json :=
  match data with
  | JObj members =>
      Ok (match assoc key members with Some v => v | None => default end)
  | _ => Raise AttributeError
  end.

(** [len(x)] *)
Definition py_len (v : json) : result Z :=
  match v with
  | JStr s => Ok (len s)
  | JArr items => Ok (Z.of_nat (List.length items))
  | JObj members => Ok (Z.of_nat (List.length members))
  | _ => Raise TypeError
  end.

Fixpoint is_substring (p s : string) : bool :=
  if String.prefix p s then true
  else match s with
       | EmptyString => false
       | String _ rest => is_substring p rest
       end.

Definition is_str (key : string) (v : json) : bool :=
  match v with
  | JStr s => String.eqb key s
  | _ => false
  end.

(** [key in data] for a string [key]: membership among the keys of a
    dict, among the items of a list, as a substring of a string; the other
    values are not containers. *)
Definition py_in (key : string) (data : json) : result bool :=
  match data with
  | JObj members =>
      Ok (match assoc key members with Some _ => true | None => false end)
  | JArr items => Ok (existsb (is_str key) items)
  | JStr s => Ok (is_substring key s)
  | _ => Raise TypeError
  end.

(** [data[key]] for a string [key]. *)
Definition py_getitem (data : json) (key : string) : result json :=
  match data with
  | JObj members =>
      match assoc key members with
      | Some v => Ok v
      | None => Raise KeyError
      end
  | _ => Raise TypeError
  end.

(* ------------------------------------------------------------------ *)
(** *** [str.strip()] *)

(** [str.isspace] on the code points below 256. *)
Definition isspace (c : ascii) : bool :=
  let n := N_of_ascii c in
  (((9 <=? n) && (n <=? 13)) || ((28 <=? n) && (n <=? 32))
   || (n =? 133) || (n =? 160))%N.

Fixpoint lstrip (s : string) : string :=
  match s with
  | EmptyString => EmptyString
  | String c rest => if isspace c then lstrip rest else s
  end.

Fixpoint rstrip (s : string) : string :=
  match s with
  | EmptyString => EmptyString
  | String c rest =>
      match rstrip rest with
      | EmptyString => if isspace c then EmptyString else String c EmptyString
      | kept => String c kept
      end
  end.

Definition strip (s : string) : string := rstrip (lstrip s).

(** [v.strip()]: only a str has the method. *)
Definition py_strip (v : json) : result string :=
  match v with
  | JStr s => Ok (strip s)
  | _ => Raise AttributeError
  end.

Definition first_char (s : string) : option ascii :=
  match s with
  | EmptyString => None
  | String c _ => Some c
  end.

Fixpoint last_char (s : string) : option ascii :=
  match s with
  | EmptyString => None
  | String c rest =>
      match last_char rest with
      | None => Some c
      | Some d => Some d
      end
  end.

Definition is_space_opt (o : option ascii) : bool :=
  match o with
  | Some c => isspace c
  | None => false
  end.

(** No whitespace at either end. *)
Definition trimmed (s : string) : Prop :=
  is_space_opt (first_char s) = false /\ is_space_opt (last_char s) = false.

(* ------------------------------------------------------------------ *)
(** *** [bson.ObjectId] *)

(** An ObjectId is kept as its canonical rendering, the 24 lower-case
    hexadecimal digits [str(oid)] returns. *)
Definition ObjectId : Type := string.

Definition is_lower_hex (c : ascii) : bool :=
  let n := N_of_ascii c in
  (((48 <=? n) && (n <=? 57)) || ((97 <=? n) && (n <=? 102)))%N.

Definition is_upper_hex (c : ascii) : bool :=
  let n := N_of_ascii c in ((65 <=? n) && (n <=? 70))%N.

Definition is_hex (c : ascii) : bool := is_lower_hex c || is_upper_hex c.

Definition lower (c : ascii) : ascii :=
  if is_upper_hex c then ascii_of_N (N_of_ascii c + 32) else c.

Fixpoint all_chars (p : ascii -> bool) (s : string) : bool :=
  match s with
  | EmptyString => true
  | String c rest => p c && all_chars p rest
  end.

Fixpoint map_chars (f : ascii -> ascii) (s : string) : string :=
  match s with
  | EmptyString => EmptyString
  | String c rest => String (f c) (map_chars f rest)
  end.

(** [ObjectId(s)] for a str [s]: 24 hexadecimal digits of either case;
    [None] stands for [InvalidId].  The library also takes a text of 24
    characters in which blanks stand between pairs of digits; the
    embedding reads such a text as invalid. *)
Definition ObjectId_of_str (s : string) : option ObjectId :=
  if (len s =? 24) && all_chars is_hex s then Some (map_chars lower s)
  else None.

(** The strings that are canonical renderings. *)
Definition is_oid (o : ObjectId) : bool :=
  (len o =? 24) && all_chars is_lower_hex o.

(** [ObjectId(v)] for a value that came out of a token: a string is
    parsed, the other values are refused.  ([ObjectId(None)] draws a fresh
    id in the library; a caller with the [user_id] null, to whom no
    stored note belongs, is rendered here as refused.) *)
Definition ObjectId_of (v : json) : result ObjectId :=
  match v with
  | JStr s =>
      match ObjectId_of_str s with
      | Some o => Ok o
      | None => Raise ValueError
      end
  | _ => Raise TypeError
  end.

(* ================================================================== *)
(** ** What the process is linked and configured with *)

(** What the validation of a claims set comes to: the claims are accepted,
    or [ExpiredSignatureError] is raised, or another [InvalidTokenError],
    or an exception that is none of PyJWT's. *)
Inductive claims_verdict : Type :=
| Accepted
| Expired
| Refused
| Failed (x : exn).

(** [hash_internal salt password] is the digest werkzeug's
    [_hash_internal] computes; [hmac_sha256 key claims] the signature
    PyJWT puts on a claims set under HS256.  [validate_claims claims now]
    is what PyJWT's [_validate_claims] does, at the instant [now], with a
    claims set that [jwt_decode] below does not settle itself: one with a
    registered claim other than an integer [exp], whose treatment differs
    between releases of the library.  [SECRET_KEY] is
    [app.config['SECRET_KEY']]; [production] says whether [FLASK_ENV] is
    [production]. *)
Class Platform : Type := {
  hash_internal : string -> string -> string;
  hmac_sha256 : string -> list (string * json) -> string;
  validate_claims : list (string * json) -> Z -> claims_verdict;
  SECRET_KEY : string;
  production : bool
}.

(** [app.config['JWT_EXPIRATION_DELTA'] = timedelta(hours=24)], in seconds. *)
Definition JWT_EXPIRATION_DELTA : Z := 24 * 3600.

(* ------------------------------------------------------------------ *)
(** *** werkzeug.security *)

(** A stored password: the salt and the digest of [method$salt$hash]. *)
Record pwhash : Type := {
  ph_salt : string;
  ph_hashval : string
}.

(* ------------------------------------------------------------------ *)
(** *** PyJWT *)

Record jwt : Type := {
  jwt_alg : string;
  jwt_claims : list (string * json);
  jwt_sig : string
}.

(** The text of a cookie: a compact token, or anything else. *)
Inductive cookie_text : Type :=
| Opaque (s : string)
| Compact (t : jwt).

(** [not token] for the text of a cookie: only the empty text is falsy. *)
Definition cookie_truthy (c : cookie_text) : bool :=
  match c with
  | Opaque s => negb (String.eqb s "")
  | Compact _ => true
  end.

(** What [jwt.decode] does: it returns the claims, or raises
    [ExpiredSignatureError], another [InvalidTokenError], or an exception
    outside that family. *)
Inductive jwt_outcome : Type :=
| Decoded (data : list (string * json))
| ExpiredSignatureError
| InvalidTokenError
| OtherError (x : exn).

(** The claims sets every release of PyJWT 2 treats alike: of the
    registered claims they carry at most [exp], and that as an integer. *)
Definition plain_claims (claims : list (string * json)) : bool :=
  forallb (fun k => match assoc k claims with
                    | None => true
                    | Some _ => false
                    end) ["nbf"; "iat"; "iss"; "aud"; "sub"; "jti"]
  && match assoc "exp" claims with
     | None => true
     | Some (JNum _) => true
     | Some _ => false
     end.

(* ================================================================== *)
(** ** The database *)

Record user : Type := {
  u_id : ObjectId;
  u_username : string;
  u_password : pwhash;
  u_created_at : Z
}.

(** A note document.  [title] and [content] hold whatever value was last
    stored there. *)
Record note : Type := {
  n_id : ObjectId;
  n_user_id : ObjectId;
  n_title : json;
  n_content : json;
  n_created_at : Z;
  n_updated_at : Z
}.

(** The two collections, each in insertion order. *)
Record db : Type := {
  db_users : list user;
  db_notes : list note
}.

Definition empty_db : db := {| db_users := []; db_notes := [] |}.

(** [users.find_one({'username': username})] *)
Definition find_user (username : string) (d : db) : option user :=
  find (fun u => String.eqb (u_username u) username) (db_users d).

(** [insert_one]: the driver draws the [_id]; the server refuses an
    [_id] the collection already holds. *)
Definition insert_user (u : user) (d : db) : result db :=
  if existsb (fun v => String.eqb (u_id v) (u_id u)) (db_users d)
  then Raise DuplicateKeyError
  else Ok {| db_users := db_users d ++ [u]; db_notes := db_notes d |}.

Definition insert_note (n : note) (d : db) : result db :=
  if existsb (fun m => String.eqb (n_id m) (n_id n)) (db_notes d)
  then Raise DuplicateKeyError
  else Ok {| db_users := db_users d; db_notes := db_notes d ++ [n] |}.

(** [notes.find_one({'_id': note_obj_id, 'user_id': owner})] *)
Definition find_note (note_obj_id owner : ObjectId) (d : db) : option note :=
  find (fun n => String.eqb (n_id n) note_obj_id
                 && String.eqb (n_user_id n) owner) (db_notes d).

(** The [$set] document of an update. *)
Record update_data : Type := {
  upd_updated_at : Z;
  upd_title : option json;
  upd_content : option json
}.

Definition apply_set (u : update_data) (n : note) : note :=
  {| n_id := n_id n;
     n_user_id := n_user_id n;
     n_title := match upd_title u with Some v => v | None => n_title n end;
     n_content := match upd_content u with Some v => v | None => n_content n end;
     n_created_at := n_created_at n;
     n_updated_at := upd_updated_at u |}.

(** [update_one({'_id': i}, {'$set': u})]: the first document with that
    [_id].  The embedding lets every value be stored; the driver refuses
    what BSON cannot carry (an integer beyond 64 bits, a document beyond
    16 MiB). *)
Fixpoint update_first (i : ObjectId) (u : update_data) (l : list note)
  : list note :=
  match l with
  | [] => []
  | n :: rest =>
      if String.eqb (n_id n) i then apply_set u n :: rest
      else n :: update_first i u rest
  end.

Definition update_one (i : ObjectId) (u : update_data) (d : db) : db :=
  {| db_users := db_users d; db_notes := update_first i u (db_notes d) |}.

(** [delete_one({'_id': i})] *)
Fixpoint delete_first (i : ObjectId) (l : list note) : list note :=
  match l with
  | [] => []
  | n :: rest =>
      if String.eqb (n_id n) i then rest else n :: delete_first i rest
  end.

Definition delete_one (i : ObjectId) (d : db) : db :=
  {| db_users := db_users d; db_notes := delete_first i (db_notes d) |}.

(** [.sort('updated_at', -1)]: latest first.  The database leaves the
    order of documents with equal stamps open; here the one inserted
    later comes first. *)
Fixpoint insert_desc (n : note) (l : list note) : list note :=
  match l with
  | [] => [n]
  | m :: rest =>
      if n_updated_at m <? n_updated_at n then n :: l
      else m :: insert_desc n rest
  end.

Fixpoint sort_desc (l : list note) : list note :=
  match l with
  | [] => []
  | n :: rest => insert_desc n (sort_desc rest)
  end.

(** The largest integer BSON encodes. *)
Definition INT64_MAX : Z := 2 ^ 63 - 1.

(** [.skip(k)]: the driver refuses a negative count when the cursor is
    built, and a count beyond 64 bits when the query is sent. *)
Definition cursor_skip (k : Z) (l : list note) : result (list note) :=
  if k <? 0 then Raise ValueError
  else if INT64_MAX <? k then Raise OverflowError
  else Ok (skipn (Z.to_nat k) l).

(** [.limit(k)]: zero is no limit, a negative count stands for its
    absolute value. *)
Definition cursor_limit (k : Z) (l : list note) : list note :=
  if k =? 0 then l else firstn (Z.to_nat (Z.abs k)) l.

Definition owned_by (owner : ObjectId) (l : list note) : list note :=
  filter (fun n => String.eqb (n_user_id n) owner) l.

(** The projection [{'_id': 1, 'title': 1, 'content': 1, 'created_at': 1,
    'updated_at': 1}] with [_id] turned into its string. *)
Definition note_json (n : note) : json :=
  JObj [("_id", JStr (n_id n));
        ("title", n_title n);
        ("content", n_content n);
        ("created_at", JNum (n_created_at n));
        ("updated_at", JNum (n_updated_at n))].

(* ================================================================== *)
(** ** Requests and responses *)

Inductive http_method : Type := GET | POST | PUT | DELETE.

Record request : Type := {
  method : http_method;
  (** [request.cookies.get('token')] *)
  cookie_token : option cookie_text;
  is_json : bool;
  (** what [request.get_json()] returns; a request on which it raises (a
      body that is not JSON) is outside the embedding *)
  get_json : json;
  form : list (string * string);
  (** [request.args.get('page', type=int)] when it is there and an int *)
  arg_page : option Z;
  arg_per_page : option Z
}.

Record cookie : Type := {
  c_name : string;
  c_value : cookie_text;
  c_httponly : bool;
  c_secure : bool;
  c_samesite : string;
  c_max_age : Z
}.

Inductive response : Type :=
| Response (status : Z) (body : json) (set_cookies : list cookie)
| Redirect (endpoint : string)
| Template (name : string)
| ErrorPage (status : Z)
| Traceback (x : exn).

Definition jsonify (body : json) (status : Z) : response :=
  Response status body [].

Definition error (msg : string) : json := JObj [("error", JStr msg)].
Definition message (msg : string) : json := JObj [("message", JStr msg)].

(** What a request reads from outside the program: the clock, the clock
    once more for a view that calls [datetime.utcnow()] a second time, the
    ObjectId drawn for an insert and the salt drawn for a password. *)
Record env : Type := {
  utcnow : Z;
  utcnow_again : Z;
  new_oid : ObjectId;
  gensalt : string
}.

(** A view function: what leaves it, and the database it leaves behind. *)
Definition view : Type := request -> env -> db -> result response * db.

(** [request.form] read through [.get]. *)
Definition form_data (f : list (string * string)) : json :=
  JObj (map (fun kv => (fst kv, JStr (snd kv))) f).

(** [request.args.get(name, default, type=int)] *)
Definition args_get (a : option Z) (default : Z) : Z :=
  match a with
  | Some v => v
  | None => default
  end.

(* ================================================================== *)
(** ** The application *)

Section Application.

Context {P : Platform}.

(** [generate_password_hash(password)] with the salt it drew. *)
Definition generate_password_hash (salt : string) (password : json)
  : result pwhash :=
  match password with
  | JStr p => Ok {| ph_salt := salt; ph_hashval := hash_internal salt p |}
  | _ => Raise AttributeError
  end.

(** [check_password_hash(pwhash, password)]: the digest of the password
    under the stored salt is compared with the stored digest. *)
Definition check_password_hash (h : pwhash) (password : json) : result bool :=
  match password with
  | JStr p => Ok (String.eqb (hash_internal (ph_salt h) p) (ph_hashval h))
  | _ => Raise AttributeError
  end.

(** [jwt.encode(claims, key, algorithm='HS256')] *)
Definition jwt_encode (claims : list (string * json)) (key : string) : jwt :=
  {| jwt_alg := "HS256";
     jwt_claims := claims;
     jwt_sig := hmac_sha256 key claims |}.

(** [jwt.decode(token, key, algorithms=['HS256'])] at the instant [now],
    as PyJWT 2 does it: a text that is no compact token, another
    algorithm or a signature that does not verify is an
    [InvalidTokenError]; then the claims are validated.  Plain claims are
    accepted unless they carry an [exp] that does not lie after [now]
    ([exp <= now] is [ExpiredSignatureError]); for the other claims sets
    the answer is that of [validate_claims].  What is returned is the
    claims set of the token. *)
Definition jwt_decode (token : cookie_text) (key : string) (now : Z)
  : jwt_outcome :=
  match token with
  | Opaque _ => InvalidTokenError
  | Compact t =>
      if negb (String.eqb (jwt_alg t) "HS256") then InvalidTokenError
      else if negb (String.eqb (jwt_sig t) (hmac_sha256 key (jwt_claims t)))
      then InvalidTokenError
      else if plain_claims (jwt_claims t) then
        match assoc "exp" (jwt_claims t) with
        | Some (JNum exp) =>
            if exp <=? now then ExpiredSignatureError
            else Decoded (jwt_claims t)
        | _ => Decoded (jwt_claims t)
        end
      else
        match validate_claims (jwt_claims t) now with
        | Accepted => Decoded (jwt_claims t)
        | Expired => ExpiredSignatureError
        | Refused => InvalidTokenError
        | Failed x => OtherError x
        end
  end.

Definition redirect_login (d : db) : result response * db :=
  (Ok (Redirect "login"), d).

(** The decorator: [f] is called with [data['user_id']] in front of the
    arguments of the route.  The two [except] clauses take the exceptions
    of PyJWT; a [KeyError] of [data['user_id']] and an exception of
    [jwt.decode] outside that family leave the decorator. *)
Definition token_required (f : json -> view) : view :=
  fun req e d =>
    match cookie_token req with
    | None => redirect_login d
    | Some token =>
        if negb (cookie_truthy token) then redirect_login d
        else
          match jwt_decode token SECRET_KEY (utcnow e) with
          | Decoded data =>
              match py_getitem (JObj data) "user_id" with
              | Ok current_user_id => f current_user_id req e d
              | Raise x => (Raise x, d)
              end
          | ExpiredSignatureError => redirect_login d
          | InvalidTokenError => redirect_login d
          | OtherError x => (Raise x, d)
          end
    end.

(** [try: ... except Exception: return jsonify({'error': msg}), 500].
    The bodies this wraps write to the database in their last step only,
    so a body that raises leaves the database as it found it. *)
Definition try_except (body : result (response * db)) (msg : string) (d : db)
  : result response * db :=
  match body with
  | Ok (r, d') => (Ok r, d')
  | Raise _ => (Ok (jsonify (error msg) 500), d)
  end.

(** [request.get_json() if request.is_json else request.form] *)
Definition credentials (req : request) : json :=
  if is_json req then get_json req else form_data (form req).

Definition register_post (req : request) (e : env) (d : db)
  : result (response * db) :=
  let data := credentials req in
  raw <- py_get data "username" (JStr "") ;;
  username <- py_strip raw ;;
  password <- py_get data "password" (JStr "") ;;
  if String.eqb username "" || negb (truthy password) then
    Ok (jsonify (error "Username and password required") 400, d)
  else if (len username <? 3) || (50 <? len username) then
    Ok (jsonify (error "Username must be 3-50 characters") 400, d)
  else
    n <- py_len password ;;
    if n <? 6 then
      Ok (jsonify (error "Password must be at least 6 characters") 400, d)
    else
      match find_user username d with
      | Some _ => Ok (jsonify (error "Username already exists") 400, d)
      | None =>
          hashed_password <- generate_password_hash (gensalt e) password ;;
          d' <- insert_user {| u_id := new_oid e;
                               u_username := username;
                               u_password := hashed_password;
                               u_created_at := utcnow e |} d ;;
          Ok (jsonify (message "User created successfully") 201, d')
      end.

Definition register : view :=
  fun req e d =>
    match method req with
    | POST => try_except (register_post req e d) "Registration failed" d
    | _ => (Ok (Template "register.html"), d)
    end.

(** The session cookie [login] sets. *)
Definition session_cookie (token : jwt) : cookie :=
  {| c_name := "token";
     c_value := Compact token;
     c_httponly := true;
     c_secure := production;
     c_samesite := "Lax";
     c_max_age := 86400 |}.

(** The token [login] issues for a user at the instant [now]. *)
Definition issue_token (u : user) (now : Z) : jwt :=
  jwt_encode [("user_id", JStr (u_id u));
              ("exp", JNum (now + JWT_EXPIRATION_DELTA))] SECRET_KEY.

Definition invalid_credentials : response :=
  jsonify (error "Invalid credentials") 401.

Definition login_post (req : request) (e : env) (d : db)
  : result (response * db) :=
  let data := credentials req in
  raw <- py_get data "username" (JStr "") ;;
  username <- py_strip raw ;;
  password <- py_get data "password" (JStr "") ;;
  if String.eqb username "" || negb (truthy password) then
    Ok (jsonify (error "Username and password required") 400, d)
  else
    match find_user username d with
    | Some user =>
        ok <- check_password_hash (u_password user) password ;;
        if ok then
          Ok (Response 200 (message "Login successful")
                [session_cookie (issue_token user (utcnow e))], d)
        else Ok (invalid_credentials, d)
    | None => Ok (invalid_credentials, d)
    end.

Definition login : view :=
  fun req e d =>
    match method req with
    | POST => try_except (login_post req e d) "Login failed" d
    | _ => (Ok (Template "login.html"), d)
    end.

Definition dashboard (current_user_id : json) : view :=
  fun _ _ d => (Ok (Template "dashboard.html"), d).

Definition notes_post (current_user_id : json) (req : request) (e : env)
  (d : db) : result (response * db) :=
  let data := get_json req in
  if negb (truthy data) then Ok (jsonify (error "Invalid JSON data") 400, d)
  else
    raw_title <- py_get data "title" (JStr "") ;;
    title <- py_strip raw_title ;;
    raw_content <- py_get data "content" (JStr "") ;;
    content <- py_strip raw_content ;;
    if String.eqb content "" then
      Ok (jsonify (error "Content is required") 400, d)
    else if 10000 <? len content then
      Ok (jsonify (error "Content too long (max 10,000 characters)") 400, d)
    else if 200 <? len title then
      Ok (jsonify (error "Title too long (max 200 characters)") 400, d)
    else
      owner <- ObjectId_of current_user_id ;;
      d' <- insert_note {| n_id := new_oid e;
                           n_user_id := owner;
                           n_title := JStr title;
                           n_content := JStr content;
                           n_created_at := utcnow e;
                           n_updated_at := utcnow_again e |} d ;;
      Ok (jsonify (JObj [("message", JStr "Note created");
                         ("note_id", JStr (new_oid e))]) 201, d').

(** The documents a listing returns, before they are rendered. *)
Definition notes_page (owner : ObjectId) (page per_page : Z) (d : db)
  : result (list note) :=
  skipped <- cursor_skip ((page - 1) * per_page)
                         (sort_desc (owned_by owner (db_notes d))) ;;
  Ok (cursor_limit per_page skipped).

Definition notes_get (current_user_id : json) (req : request) (d : db)
  : result (response * db) :=
  let page := args_get (arg_page req) 1 in
  let per_page := Z.min (args_get (arg_per_page req) 20) 100 in
  owner <- ObjectId_of current_user_id ;;
  found <- notes_page owner page per_page d ;;
  Ok (jsonify (JArr (map note_json found)) 200, d).

Definition notes (current_user_id : json) : view :=
  fun req e d =>
    try_except
      match method req with
      | POST => notes_post current_user_id req e d
      | _ => notes_get current_user_id req d
      end
      "Operation failed" d.

(** The [$set] document [note_detail] builds from the body of a PUT. *)
Definition build_update (data : json) (now : Z) : result update_data :=
  has_title <- py_in "title" data ;;
  title <- (if has_title then v <- py_getitem data "title" ;; Ok (Some v)
            else Ok None) ;;
  has_content <- py_in "content" data ;;
  content <- (if has_content then v <- py_getitem data "content" ;; Ok (Some v)
              else Ok None) ;;
  Ok {| upd_updated_at := now; upd_title := title; upd_content := content |}.

Definition note_detail (current_user_id : json) (note_id : string) : view :=
  fun req e d =>
    match ObjectId_of_str note_id with
    | None => (Ok (jsonify (error "Invalid note ID") 400), d)
    | Some note_obj_id =>
        match ObjectId_of current_user_id with
        | Raise x => (Raise x, d)
        | Ok owner =>
            match find_note note_obj_id owner d with
            | None => (Ok (jsonify (error "Note not found") 404), d)
            | Some _ =>
                match method req with
                | PUT =>
                    match build_update (get_json req) (utcnow e) with
                    | Raise x => (Raise x, d)
                    | Ok u =>
                        (Ok (jsonify (message "Note updated") 200),
                         update_one note_obj_id u d)
                    end
                | DELETE =>
                    (Ok (jsonify (message "Note deleted") 200),
                     delete_one note_obj_id d)
                | _ => (Raise TypeError, d)
                end
            end
        end
    end.

(* ------------------------------------------------------------------ *)
(** *** Routing *)

Inductive route : Type :=
| Register
| Login
| Dashboard
| ApiNotes
| ApiNote (note_id : string).

(** The [methods] of each [@app.route]. *)
Definition allowed (r : route) (m : http_method) : bool :=
  match r, m with
  | Register, (GET | POST) => true
  | Login, (GET | POST) => true
  | Dashboard, GET => true
  | ApiNotes, (GET | POST) => true
  | ApiNote _, (PUT | DELETE) => true
  | _, _ => false
  end.

(** The view bound to a route, with its decorators. *)
Definition endpoint (r : route) : view :=
  match r with
  | Register => register
  | Login => login
  | Dashboard => token_required dashboard
  | ApiNotes => token_required notes
  | ApiNote note_id =>
      token_required (fun current_user_id =>
                        note_detail current_user_id note_id)
  end.

Definition serve (r : route) : view :=
  fun req e d =>
    if allowed r (method req) then endpoint r req e d
    else (Ok (ErrorPage 405), d).

(** What the client of the server started by
    [app.run(debug=os.environ.get('FLASK_ENV') != 'production')] receives:
    the response of the view, or, for an exception that left the view,
    the page Flask makes of it, which is the plain 500 page with debug off
    and the debugger's page, showing the exception, with debug on. *)
Definition app_run (r : route) (req : request) (e : env) (d : db)
  : response * db :=
  match serve r req e d with
  | (Ok resp, d') => (resp, d')
  | (Raise x, d') => (if production then ErrorPage 500 else Traceback x, d')
  end.

(** A run of the service: the requests in the order they are handled. *)
Fixpoint run (calls : list (route * request * env)) (d : db)
  : list (result response) * db :=
  match calls with
  | [] => ([], d)
  | (r, req, e) :: rest =>
      let '(out, d') := serve r req e d in
      let '(outs, d'') := run rest d' in
      (out :: outs, d'')
  end.

(* ------------------------------------------------------------------ *)
(** *** Vocabulary of the statements *)

(** The function under the decorator, for the routes that have one. *)
Definition handler (r : route) : option (json -> view) :=
  match r with
  | Dashboard => Some dashboard
  | ApiNotes => Some notes
  | ApiNote note_id =>
      Some (fun current_user_id => note_detail current_user_id note_id)
  | Register | Login => None
  end.

(** The request carries a token that decodes, at the instant of the
    request, to claims whose [user_id] is [uid]. *)
Definition authenticated_as (req : request) (e : env) (uid : json) : Prop :=
  exists t,
    cookie_token req = Some (Compact t)
    /\ jwt_decode (Compact t) SECRET_KEY (utcnow e) = Decoded (jwt_claims t)
    /\ assoc "user_id" (jwt_claims t) = Some uid.

(** A POST whose body gives the strings [u] and [p] as username and
    password. *)
Definition submits (req : request) (u p : string) : Prop :=
  method req = POST
  /\ exists members,
       credentials req = JObj members
       /\ assoc "username" members = Some (JStr u)
       /\ assoc "password" members = Some (JStr p).

End Application.

Definition with_cookie (c : option cookie_text) (req : request) : request :=
  {| method := method req;
     cookie_token := c;
     is_json := is_json req;
     get_json := get_json req;
     form := form req;
     arg_page := arg_page req;
     arg_per_page := arg_per_page req |}.


Definition with_page (k : option Z) (req : request) : request :=
  {| method := method req;
     cookie_token := cookie_token req;
     is_json := is_json req;
     get_json := get_json req;
     form := form req;
     arg_page := k;
     arg_per_page := arg_per_page req |}.

(** What the server keeps true of the notes collection: every [_id] is a
    canonical ObjectId and no two documents share one. *)
Definition wf_db (d : db) : Prop :=
  NoDup (map n_id (db_notes d))
  /\ Forall (fun n => is_oid (n_id n) = true) (db_notes d).

(** The bounds of the data model on a stored note. *)
Definition within_bounds (n : note) : bool :=
  match n_title n, n_content n with
  | JStr t, JStr c => (len t <=? 200) && (1 <=? len c) && (len c <=? 10000)
  | _, _ => false
  end.


(* ------------------------------------------------------------------ *)
(** *** Strings by length, for counting digests *)

Definition all_ascii : list ascii := map ascii_of_nat (seq 0 256).

Definition extend (w : string) : list string :=
  map (fun c => String c w) all_ascii.

(** The strings of a length. *)
Fixpoint words (n : nat) : list string :=
  match n with
  | O => [EmptyString]
  | S k => flat_map extend (words k)
  end.

(** The strings of at most a length. *)
Definition words_upto (n : nat) : list string :=
  flat_map words (seq 0 (S n)).

(** The letter a, [6 + k] times. *)
Fixpoint letters (k : nat) : string :=
  match k with
  | O => "aaaaaa"
  | S j => String "a" (letters j)
  end.

(* ================================================================== *)
(** ** A concrete platform and sample data, for the closed examples *)

Definition quote : string := String (ascii_of_nat 34) EmptyString.

Fixpoint dumps (v : json) : string :=
  match v with
  | JNull => "null"
  | JBool true => "true"
  | JBool false => "false"
  | JNum n => NilZero.string_of_int (Z.to_int n)
  | JStr s => quote ++ s ++ quote
  | JArr items =>
      "[" ++ (fix go (l : list json) : string :=
                match l with
                | [] => ""
                | x :: rest => dumps x ++ "," ++ go rest
                end) items ++ "]"
  | JObj members =>
      "{" ++ (fix go (l : list (string * json)) : string :=
                match l with
                | [] => ""
                | (k, x) :: rest => quote ++ k ++ quote ++ ":" ++ dumps x ++ "," ++ go rest
                end) members ++ "}"
  end.

(** Stand-ins that keep their argument readable: the digest is the salt
    followed by the password, the signature the key followed by the
    claims. *)
Definition sample : Platform :=
  {| hash_internal := fun salt p => salt ++ "$" ++ p;
     hmac_sha256 := fun key claims => key ++ "." ++ dumps (JObj claims);
     validate_claims := fun _ _ => Refused;
     SECRET_KEY := "dev-key-only";
     production := false |}.

(** A platform whose digest keeps the first eight characters of the
    salted password, as a digest of bounded length keeps a bounded part
    of what it is given. *)
Definition sample_short_digest : Platform :=
  {| hash_internal := fun salt p => substring 0 8 (salt ++ "$" ++ p);
     hmac_sha256 := @hmac_sha256 sample;
     validate_claims := @validate_claims sample;
     SECRET_KEY := "dev-key-only";
     production := false |}.

Definition sample_production : Platform :=
  {| hash_internal := @hash_internal sample;
     hmac_sha256 := @hmac_sha256 sample;
     validate_claims := @validate_claims sample;
     SECRET_KEY := "3f9c1e0a7b";
     production := true |}.

Definition oid_a : ObjectId := "65a000000000000000000001".
Definition oid_b : ObjectId := "65a000000000000000000002".
Definition oid_n : ObjectId := "65b000000000000000000001".
Definition oid_m : ObjectId := "65b000000000000000000002".
Definition oid_free : ObjectId := "65b0000000000000000000ff".

Definition at_time (t : Z) : env :=
  {| utcnow := t; utcnow_again := t; new_oid := oid_free;
     gensalt := "pepper" |}.

Definition plain (m : http_method) : request :=
  {| method := m;
     cookie_token := None;
     is_json := true;
     get_json := JNull;
     form := [];
     arg_page := None;
     arg_per_page := None |}.

Definition with_json (body : json) (req : request) : request :=
  {| method := method req;
     cookie_token := cookie_token req;
     is_json := true;
     get_json := body;
     form := form req;
     arg_page := arg_page req;
     arg_per_page := arg_per_page req |}.

Definition creds (u : string) (p : json) : json :=
  JObj [("username", JStr u); ("password", p)].

Definition alice : user :=
  {| u_id := oid_a;
     u_username := "alice";
     u_password := {| ph_salt := "pepper";
                      ph_hashval := @hash_internal sample "pepper" "secret1" |};
     u_created_at := 1000 |}.

Definition bob : user :=
  {| u_id := oid_b;
     u_username := "bob";
     u_password := {| ph_salt := "salt";
                      ph_hashval := @hash_internal sample "salt" "hunter22" |};
     u_created_at := 1001 |}.

(** A note of alice and a note of bob. *)
Definition note_n : note :=
  {| n_id := oid_n;
     n_user_id := oid_a;
     n_title := JStr "groceries";
     n_content := JStr "milk";
     n_created_at := 2000;
     n_updated_at := 2000 |}.

Definition note_m : note :=
  {| n_id := oid_m;
     n_user_id := oid_b;
     n_title := JStr "";
     n_content := JStr "call home";
     n_created_at := 2100;
     n_updated_at := 2500 |}.

Definition sample_db : db :=
  {| db_users := [alice; bob]; db_notes := [note_n; note_m] |}.





(** A request of the given user: the cookie holds the token issued to
    them at the instant [issued]. *)
Definition as_user (u : user) (issued : Z) (req : request) : request :=
  with_cookie (Some (Compact (@issue_token sample u issued))) req.

(** A POST that carries a form. *)
Definition form_request (fields : list (string * string)) : request :=
  {| method := POST;
     cookie_token := None;
     is_json := false;
     get_json := JNull;
     form := fields;
     arg_page := None;
     arg_per_page := None |}.

(** The note of alice after a change of its title at the instant 9000. *)
Definition note_n_retitled : note :=
  {| n_id := oid_n;
     n_user_id := oid_a;
     n_title := JStr "x";
     n_content := JStr "milk";
     n_created_at := 2000;
     n_updated_at := 9000 |}.

(* ================================================================== *)
(** ** The remaining views and the start of the process *)

Section Pages.

Context {P : Platform}.

(** [index]: a token that decodes sends the browser to the dashboard;
    the bare [except] swallows whatever [jwt.decode] raises, and every
    other request is sent to the login page. *)
Definition index : view :=
  fun req e d =>
    match cookie_token req with
    | None => (Ok (Redirect "login"), d)
    | Some token =>
        if cookie_truthy token then
          match jwt_decode token SECRET_KEY (utcnow e) with
          | Decoded _ => (Ok (Redirect "dashboard"), d)
          | _ => (Ok (Redirect "login"), d)
          end
        else (Ok (Redirect "login"), d)
    end.

End Pages.

(** The cookie [logout] sets: [set_cookie('token', '', expires=0)]. *)
Record expiring_cookie : Type := {
  ec_name : string;
  ec_value : cookie_text;
  ec_expires : Z
}.

(** [logout]: the redirect to the login page, carrying the emptied token
    cookie. *)
Definition logout : response * expiring_cookie :=
  (Redirect "login",
   {| ec_name := "token"; ec_value := Opaque ""; ec_expires := 0 |}).

(** The configuration block at import time: [environ_secret] is
    [os.environ.get('SECRET_KEY')], [flask_env] is
    [os.environ.get('FLASK_ENV')]; the result is
    [app.config['SECRET_KEY']], or the [ValueError] that stops the
    process. *)
Definition configure_secret_key (environ_secret flask_env : option string)
  : result string :=
  let unset := match environ_secret with
               | None => true
               | Some k => String.eqb k ""
               end in
  if unset then
    match flask_env with
    | Some v => if String.eqb v "production" then Raise ValueError
                else Ok "dev-key-only"
    | None => Ok "dev-key-only"
    end
  else match environ_secret with
       | Some k => Ok k
       | None => Ok "dev-key-only"
       end.

(* ------------------------------------------------------------------ *)
(** *** Response headers *)

(** [str.lower()] on the code points below 256. *)
Definition ascii_lower (c : ascii) : ascii :=
  let n := N_of_ascii c in
  if (((65 <=? n) && (n <=? 90))
      || ((192 <=? n) && (n <=? 222) && negb (n =? 215)))%N
  then ascii_of_N (n + 32) else c.

(** Header names are compared without regard to case. *)
Definition same_header (a b : string) : bool :=
  String.eqb (map_chars ascii_lower a) (map_chars ascii_lower b).

(** The header list of a response, in order. *)
Definition headers : Type := list (string * string).

(** [headers.get(key)]: the value of the first entry of that name. *)
Definition header_get (key : string) (h : headers) : option string :=
  match find (fun kv => same_header (fst kv) key) h with
  | Some kv => Some (snd kv)
  | None => None
  end.

Definition remove_header (key : string) (h : headers) : headers :=
  filter (fun kv => negb (same_header (fst kv) key)) h.

(** [headers[key] = value]: the first entry of that name is replaced and
    the later ones are dropped; without such an entry the new one goes to
    the end. *)
Fixpoint set_header (key value : string) (h : headers) : headers :=
  match h with
  | [] => [(key, value)]
  | (k, v) :: rest =>
      if same_header k key then (key, value) :: remove_header key rest
      else (k, v) :: set_header key value rest
  end.

(** How many entries of a name a header list holds. *)
Definition header_count (key : string) (h : headers) : nat :=
  List.length (filter (fun kv => same_header (fst kv) key) h).

(** [after_request], on the headers of the response it is given; the
    rest of the response is returned as it is. *)
Definition after_request {P : Platform} (h : headers) : headers :=
  let h1 := set_header "X-Content-Type-Options" "nosniff" h in
  let h2 := set_header "X-Frame-Options" "DENY" h1 in
  let h3 := set_header "X-XSS-Protection" "1; mode=block" h2 in
  if production then
    set_header "Strict-Transport-Security"
      "max-age=31536000; includeSubDomains" h3
  else h3.

(** What registration keeps true of the accounts: no two share a name or
    an [_id]; every name is stripped and has 3 to 50 characters; every
    stored digest is that of a password of at least 6 characters under
    the stored salt. *)
Definition users_ok {P : Platform} (d : db) : Prop :=
  NoDup (map u_username (db_users d))
  /\ NoDup (map u_id (db_users d))
  /\ Forall (fun u =>
               3 <= len (u_username u) <= 50
               /\ trimmed (u_username u)
               /\ exists p, 6 <= len p
                            /\ ph_hashval (u_password u)
                               = hash_internal (ph_salt (u_password u)) p)
       (db_users d).

(** The statuses each route answers with in a JSON response. *)
Definition statuses (r : route) : list Z :=
  match r with
  | Register => [201; 400; 500]
  | Login => [200; 400; 401; 500]
  | Dashboard => []
  | ApiNotes => [200; 201; 400; 500]
  | ApiNote _ => [200; 400; 404]
  end.

(* ================================================================== *)
(** * Properties *)

(** ** Text *)

Lemma lstrip_first (s : string) :
  is_space_opt (first_char (lstrip s)) = false.
Proof.
  induction s as [|c rest IH]; simpl; [reflexivity|].
  destruct (isspace c) eqn:E; [exact IH | simpl; exact E].
Qed.

Lemma rstrip_last (s : string) :
  is_space_opt (last_char (rstrip s)) = false.
Proof.
  induction s as [|c rest IH]; simpl; [reflexivity|].
  destruct (rstrip rest) as [|k kept] eqn:R.
  - destruct (isspace c) eqn:E; simpl; [reflexivity | exact E].
  - change (last_char (String c (String k kept)))
      with (match last_char (String k kept) with
            | None => Some c | Some d => Some d end).
    destruct (last_char (String k kept)) eqn:L; [exact IH|].
    simpl in L. destruct (last_char kept); discriminate.
Qed.

Lemma rstrip_first (s : string) :
  is_space_opt (first_char s) = false ->
  is_space_opt (first_char (rstrip s)) = false.
Proof.
  destruct s as [|c rest]; simpl; [trivial|]. intro E.
  destruct (rstrip rest); [rewrite E|]; simpl; exact E.
Qed.

Lemma strip_trimmed (s : string) : trimmed (strip s).
Proof.
  split; unfold strip.
  - apply rstrip_first, lstrip_first.
  - apply rstrip_last.
Qed.

Lemma lstrip_blank (s : string) :
  all_chars isspace s = true -> lstrip s = "".
Proof.
  induction s as [|c rest IH]; simpl; [reflexivity|].
  intro H. apply andb_true_iff in H as [Hc Hr]. rewrite Hc. auto.
Qed.

Lemma strip_blank (s : string) : all_chars isspace s = true -> strip s = "".
Proof. intro H. unfold strip. rewrite lstrip_blank by exact H. reflexivity. Qed.

(** ** ObjectIds *)

Lemma lower_hex_fixed (c : ascii) : is_lower_hex c = true -> lower c = c.
Proof.
  unfold lower, is_upper_hex, is_lower_hex. cbv zeta.
  set (n := N_of_ascii c). intro H.
  destruct ((65 <=? n) && (n <=? 70))%N eqn:U; [|reflexivity].
  exfalso.
  apply andb_true_iff in U as [U1 U2].
  apply N.leb_le in U1, U2.
  apply orb_true_iff in H as [H|H]; apply andb_true_iff in H as [H1 H2];
    apply N.leb_le in H1, H2; lia.
Qed.

Lemma lower_hex_is_hex (c : ascii) : is_lower_hex c = true -> is_hex c = true.
Proof. intro H. unfold is_hex. rewrite H. reflexivity. Qed.

Lemma canonical_chars (s : string) :
  all_chars is_lower_hex s = true ->
  all_chars is_hex s = true /\ map_chars lower s = s.
Proof.
  induction s as [|c rest IH]; simpl; [auto|].
  intro H. apply andb_true_iff in H as [Hc Hr].
  destruct (IH Hr) as [IH1 IH2].
  rewrite (lower_hex_is_hex c Hc), IH1, (lower_hex_fixed c Hc), IH2. auto.
Qed.

(** [ObjectId(str(oid))] is [oid]. *)
Lemma ObjectId_of_str_canonical (o : ObjectId) :
  is_oid o = true -> ObjectId_of_str o = Some o.
Proof.
  unfold is_oid, ObjectId_of_str. intro H.
  apply andb_true_iff in H as [Hl Hc].
  destruct (canonical_chars o Hc) as [H1 H2].
  rewrite Hl, H1, H2. reflexivity.
Qed.

Lemma ObjectId_of_canonical (o : ObjectId) :
  is_oid o = true -> ObjectId_of (JStr o) = Ok o.
Proof.
  intro H. unfold ObjectId_of. rewrite ObjectId_of_str_canonical by exact H.
  reflexivity.
Qed.

(* ================================================================== *)
(** ** The session guard *)

Ltac break_match H :=
  match type of H with
  | context [match ?x with _ => _ end] => destruct x eqn:?
  | context [if ?x then _ else _] => destruct x eqn:?
  end.

Ltac unfold_views :=
  unfold try_except, jsonify, invalid_credentials, redirect_login, bind in *.

Section Guard.

Context {P : Platform}.

Lemma jwt_decode_bad_signature (t : jwt) (now : Z) :
  jwt_sig t <> hmac_sha256 SECRET_KEY (jwt_claims t) ->
  jwt_decode (Compact t) SECRET_KEY now = InvalidTokenError.
Proof.
  intro H. unfold jwt_decode.
  destruct (String.eqb (jwt_alg t) "HS256"); [|reflexivity].
  apply String.eqb_neq in H. rewrite H. reflexivity.
Qed.

Lemma jwt_decode_other_algorithm (t : jwt) (now : Z) :
  jwt_alg t <> "HS256" ->
  jwt_decode (Compact t) SECRET_KEY now = InvalidTokenError.
Proof.
  intro H. unfold jwt_decode.
  apply String.eqb_neq in H. rewrite H. reflexivity.
Qed.

(** Plain claims past their expiry never decode. *)
Lemma jwt_decode_expired (t : jwt) (x now : Z) :
  plain_claims (jwt_claims t) = true ->
  assoc "exp" (jwt_claims t) = Some (JNum x) ->
  x <= now ->
  jwt_decode (Compact t) SECRET_KEY now = ExpiredSignatureError
  \/ jwt_decode (Compact t) SECRET_KEY now = InvalidTokenError.
Proof.
  intros Hp He Hx. unfold jwt_decode.
  destruct (negb (String.eqb (jwt_alg t) "HS256")); [right; reflexivity|].
  destruct (negb (String.eqb (jwt_sig t) _)); [right; reflexivity|].
  rewrite Hp, He. apply Z.leb_le in Hx. rewrite Hx. left. reflexivity.
Qed.

(** What [jwt.decode] returns is the claims set of the token it was
    given, and that token is signed under the key with HS256. *)
Lemma jwt_decode_claims (c : cookie_text) (key : string) (now : Z)
  (data : list (string * json)) :
  jwt_decode c key now = Decoded data ->
  exists t, c = Compact t /\ data = jwt_claims t.
Proof.
  unfold jwt_decode. destruct c as [s|t]; [discriminate|].
  intro H. exists t. split; [reflexivity|].
  repeat (break_match H; try discriminate); congruence.
Qed.

Lemma jwt_decode_signed (t : jwt) (key : string) (now : Z)
  (data : list (string * json)) :
  jwt_decode (Compact t) key now = Decoded data ->
  jwt_alg t = "HS256" /\ jwt_sig t = hmac_sha256 key (jwt_claims t).
Proof.
  unfold jwt_decode. intro H.
  destruct (String.eqb (jwt_alg t) "HS256") eqn:A; [|discriminate].
  destruct (String.eqb (jwt_sig t) (hmac_sha256 key (jwt_claims t))) eqn:S;
    [|discriminate].
  split; apply String.eqb_eq; assumption.
Qed.

(** Whatever function is decorated, a request whose cookie [jwt.decode]
    refuses with one of PyJWT's exceptions is answered by the redirect,
    and the database is left alone. *)
Lemma token_required_refused (f : json -> view) (req : request) (e : env)
  (d : db) (c : cookie_text) :
  cookie_token req = Some c ->
  jwt_decode c SECRET_KEY (utcnow e) = ExpiredSignatureError
  \/ jwt_decode c SECRET_KEY (utcnow e) = InvalidTokenError ->
  token_required f req e d = redirect_login d.
Proof.
  intros Hc H. unfold token_required. rewrite Hc.
  destruct (negb (cookie_truthy c)); [reflexivity|].
  destruct H as [-> | ->]; reflexivity.
Qed.

(** Without a token that decodes the decorated function is not run: the
    answer is the redirect, or the exception [jwt.decode] raised outside
    PyJWT's own. *)
Lemma token_required_rejects (f : json -> view) (req : request) (e : env)
  (d : db) :
  (forall t, cookie_token req = Some (Compact t) ->
             jwt_decode (Compact t) SECRET_KEY (utcnow e)
             <> Decoded (jwt_claims t)) ->
  token_required f req e d = redirect_login d
  \/ exists c x,
       cookie_token req = Some c
       /\ jwt_decode c SECRET_KEY (utcnow e) = OtherError x
       /\ token_required f req e d = (Raise x, d).
Proof.
  intro H. unfold token_required.
  destruct (cookie_token req) as [c|]; [|left; reflexivity].
  destruct (negb (cookie_truthy c)); [left; reflexivity|].
  destruct (jwt_decode c SECRET_KEY (utcnow e)) as [data| | |x] eqn:D;
    try (left; reflexivity).
  - destruct (jwt_decode_claims _ _ _ _ D) as (t & -> & ->).
    exfalso. exact (H t eq_refl D).
  - right. exists c, x. repeat split; assumption.
Qed.

Lemma token_required_resolves (f : json -> view) (req : request) (e : env)
  (d : db) (uid : json) :
  authenticated_as req e uid ->
  token_required f req e d = f uid req e d.
Proof.
  intros (t & Hc & Hd & Hu). unfold token_required.
  rewrite Hc. cbn [cookie_truthy negb]. rewrite Hd.
  unfold py_getitem. rewrite Hu. reflexivity.
Qed.

Lemma handler_endpoint (r : route) (h : json -> view) :
  handler r = Some h -> endpoint r = token_required h.
Proof. destruct r; simpl; intro H; inversion H; reflexivity. Qed.

Lemma handler_ignores_cookie (r : route) (h : json -> view) :
  handler r = Some h ->
  forall uid c req e d, h uid (with_cookie c req) e d = h uid req e d.
Proof. destruct r; simpl; intro H; inversion H; reflexivity. Qed.

(** The guard, case by case.  On /dashboard, /api/notes and
    /api/notes/<id> the view is the decorated function.  Whatever
    function stands under the decorator: a request without the cookie or
    with an empty one is answered by the redirect to the login page, and
    so is one whose cookie [jwt.decode] refuses with
    [ExpiredSignatureError] or [InvalidTokenError], as it does with a text
    that is no compact token, with another algorithm and with a signature
    that does not verify; the database is untouched.  When [jwt.decode]
    returns claims with a [user_id], the function is run on it, and its
    result is the same whatever the cookie holds.  When the claims hold
    no [user_id], or [jwt.decode] raises another exception, that
    exception leaves the decorator. *)
Lemma session_guard (r : route) (h : json -> view) (req : request)
  (e : env) (d : db) :
  handler r = Some h ->
  endpoint r = token_required h
  /\ (cookie_token req = None ->
      forall f, token_required f req e d = (Ok (Redirect "login"), d))
  /\ (forall c, cookie_token req = Some c ->
        forall f,
          (cookie_truthy c = false ->
           token_required f req e d = (Ok (Redirect "login"), d))
          /\ (jwt_decode c SECRET_KEY (utcnow e) = ExpiredSignatureError
              \/ jwt_decode c SECRET_KEY (utcnow e) = InvalidTokenError ->
              token_required f req e d = (Ok (Redirect "login"), d))
          /\ (forall x, cookie_truthy c = true ->
                jwt_decode c SECRET_KEY (utcnow e) = OtherError x ->
                token_required f req e d = (Raise x, d))
          /\ (forall data, cookie_truthy c = true ->
                jwt_decode c SECRET_KEY (utcnow e) = Decoded data ->
                token_required f req e d
                = match assoc "user_id" data with
                  | Some uid => f uid req e d
                  | None => (Raise KeyError, d)
                  end))
  /\ (forall s now, jwt_decode (Opaque s) SECRET_KEY now = InvalidTokenError)
  /\ (forall t now,
        jwt_alg t <> "HS256"
        \/ jwt_sig t <> hmac_sha256 SECRET_KEY (jwt_claims t) ->
        jwt_decode (Compact t) SECRET_KEY now = InvalidTokenError)
  /\ (forall uid, authenticated_as req e uid ->
        endpoint r req e d = h uid req e d
        /\ forall c, h uid (with_cookie c req) e d = h uid req e d).
Proof.
  intro Hh. split; [exact (handler_endpoint r h Hh)|].
  split; [|split; [|split; [|split]]].
  - intros Hc f. unfold token_required. rewrite Hc. reflexivity.
  - intros c Hc f. split; [|split; [|split]].
    + intro Ht. unfold token_required. rewrite Hc, Ht. reflexivity.
    + intro H. exact (token_required_refused f req e d c Hc H).
    + intros x Ht H. unfold token_required. rewrite Hc, Ht, H. reflexivity.
    + intros data Ht H. unfold token_required. rewrite Hc, Ht, H.
      unfold py_getitem. destruct (assoc "user_id" data); reflexivity.
  - reflexivity.
  - intros t now [H|H];
      [apply jwt_decode_other_algorithm | apply jwt_decode_bad_signature];
      exact H.
  - intros uid Ha. split.
    + rewrite (handler_endpoint r h Hh).
      exact (token_required_resolves h req e d uid Ha).
    + intro c. exact (handler_ignores_cookie r h Hh uid c req e d).
Qed.

End Guard.

Lemma session_guard_example :
  @endpoint sample ApiNotes (plain GET) (at_time 5000) sample_db
  = (Ok (Redirect "login"), sample_db)
  /\ @endpoint sample ApiNotes (as_user alice 3000 (plain GET)) (at_time 5000)
       sample_db
     = notes (JStr oid_a) (as_user alice 3000 (plain GET))
         (at_time 5000) sample_db.
Proof.
  destruct (@session_guard sample ApiNotes notes (plain GET)
              (at_time 5000) sample_db eq_refl) as (E & A & _).
  destruct (@session_guard sample ApiNotes notes
              (as_user alice 3000 (plain GET)) (at_time 5000) sample_db
              eq_refl) as (_ & _ & _ & _ & _ & R).
  split.
  - rewrite E. apply A. reflexivity.
  - apply R. exists (@issue_token sample alice 3000).
    repeat split; reflexivity.
Qed.

(** C2. The guard does not keep to the two answers of the claim.  A
    token signed under the key of the application whose claims hold an
    expiry that lies ahead and no [user_id] validates: [jwt.decode]
    returns its claims.  The request is then neither answered by the
    redirect nor handed to the decorated function: the [KeyError] of
    [data['user_id']], which neither [except] clause takes, leaves the
    decorator whatever function is decorated, and the client of
    /dashboard receives the error page of the framework. *)
Theorem session_guard_lets_key_error_out :
  @jwt_decode sample
    (Compact (@jwt_encode sample [("exp", JNum 9000)] "dev-key-only"))
    (@SECRET_KEY sample) 5000
  = Decoded [("exp", JNum 9000)]
  /\ (forall f,
        @token_required sample f
          (with_cookie
             (Some (Compact (@jwt_encode sample [("exp", JNum 9000)]
                               "dev-key-only")))
             (plain GET)) (at_time 5000) sample_db
        = (Raise KeyError, sample_db))
  /\ @app_run sample Dashboard
       (with_cookie
          (Some (Compact (@jwt_encode sample [("exp", JNum 9000)]
                            "dev-key-only")))
          (plain GET)) (at_time 5000) sample_db
     = (Traceback KeyError, sample_db)
  /\ @app_run sample_production Dashboard
       (with_cookie
          (Some (Compact (@jwt_encode sample_production
                            [("exp", JNum 9000)] "3f9c1e0a7b")))
          (plain GET)) (at_time 5000) sample_db
     = (ErrorPage 500, sample_db).
Proof. repeat split. Qed.

(* ================================================================== *)
(** ** Login and the lifetime of a token *)

Section Login.

Context {P : Platform}.

(** What a login that answers 200 has done. *)
Lemma login_success_inv (req : request) (e : env) (d d' : db) (body : json)
  (cks : list cookie) :
  login req e d = (Ok (Response 200 body cks), d') ->
  exists raw password u,
    method req = POST
    /\ py_get (credentials req) "username" (JStr "") = Ok (JStr raw)
    /\ py_get (credentials req) "password" (JStr "") = Ok password
    /\ find_user (strip raw) d = Some u
    /\ check_password_hash (u_password u) password = Ok true
    /\ body = message "Login successful"
    /\ cks = [session_cookie (issue_token u (utcnow e))]
    /\ d' = d.
Proof.
  unfold login. destruct (method req) eqn:M; try discriminate.
  unfold login_post. unfold_views.
  destruct (py_get (credentials req) "username" (JStr "")) as [raw|] eqn:U;
    [|discriminate].
  destruct raw as [| | |raw| |]; simpl; try discriminate.
  destruct (py_get (credentials req) "password" (JStr "")) as [password|] eqn:W;
    [|discriminate].
  destruct (String.eqb (strip raw) "" || negb (truthy password));
    [discriminate|].
  destruct (find_user (strip raw) d) as [u|] eqn:F; [|discriminate].
  destruct (check_password_hash (u_password u) password) as [[|]|] eqn:C;
    try discriminate.
  intro H. inversion H; subst.
  exists raw, password, u. repeat split; auto.
Qed.

Lemma issued_token_decodes (u : user) (issued now : Z) :
  now < issued + JWT_EXPIRATION_DELTA ->
  jwt_decode (Compact (issue_token u issued)) SECRET_KEY now
  = Decoded (jwt_claims (issue_token u issued)).
Proof.
  intro H. unfold jwt_decode.
  change (jwt_alg (issue_token u issued)) with "HS256".
  change (jwt_sig (issue_token u issued))
    with (hmac_sha256 SECRET_KEY (jwt_claims (issue_token u issued))).
  change (plain_claims (jwt_claims (issue_token u issued))) with true.
  change (assoc "exp" (jwt_claims (issue_token u issued)))
    with (Some (JNum (issued + JWT_EXPIRATION_DELTA))).
  rewrite !String.eqb_refl. cbn [negb].
  destruct (issued + JWT_EXPIRATION_DELTA <=? now) eqn:L; [|reflexivity].
  apply Z.leb_le in L. lia.
Qed.

Lemma issued_token_expires (u : user) (issued now : Z) :
  issued + JWT_EXPIRATION_DELTA <= now ->
  jwt_decode (Compact (issue_token u issued)) SECRET_KEY now
  = ExpiredSignatureError.
Proof.
  intro H. unfold jwt_decode.
  change (jwt_alg (issue_token u issued)) with "HS256".
  change (jwt_sig (issue_token u issued))
    with (hmac_sha256 SECRET_KEY (jwt_claims (issue_token u issued))).
  change (plain_claims (jwt_claims (issue_token u issued))) with true.
  change (assoc "exp" (jwt_claims (issue_token u issued)))
    with (Some (JNum (issued + JWT_EXPIRATION_DELTA))).
  rewrite !String.eqb_refl. cbn [negb].
  apply Z.leb_le in H. rewrite H. reflexivity.
Qed.

(** A login with the name of an account and a password whose digest is
    the stored one answers 200 with that account's session. *)
Lemma login_accepts (req : request) (e : env) (d : db) (raw p : string)
  (u : user) :
  submits req raw p ->
  strip raw <> "" -> p <> "" ->
  find_user (strip raw) d = Some u ->
  check_password_hash (u_password u) (JStr p) = Ok true ->
  login req e d
  = (Ok (Response 200 (message "Login successful")
           [session_cookie (issue_token u (utcnow e))]), d).
Proof.
  intros (Hm & members & Hc & Hu & Hp) Hr Hq F C.
  unfold login, login_post, try_except. rewrite Hm, Hc.
  unfold py_get. rewrite Hu, Hp. cbn [bind py_strip truthy].
  rewrite negb_involutive.
  apply String.eqb_neq in Hr. apply String.eqb_neq in Hq.
  rewrite Hr, Hq. cbn [orb]. rewrite F, C. reflexivity.
Qed.

(** C3. Login issues the session of the user it has authenticated, and
    of no other.  A POST that gives the name of an account [u] (read
    without the blanks around it) and a non-empty password that verifies
    against the digest stored for [u] is answered 200 with one cookie.
    Conversely, every login answered 200 has found an account [u] under
    the submitted name, has verified the submitted password against the
    digest stored for [u], and sets one cookie, of max-age 24 h, whose
    token carries the [_id] of that [u] and the expiry [t + 24 h], [t]
    being the instant of the login.  On any later request that presents
    the token, the guard runs the decorated function on that user's id as
    long as the clock is before the expiry, and answers with the redirect
    to the login page from the expiry on. *)
Theorem login_token_lifetime (req : request) (e : env) (d : db) :
  (forall raw p u,
     submits req raw p ->
     strip raw <> "" -> p <> "" ->
     find_user (strip raw) d = Some u ->
     check_password_hash (u_password u) (JStr p) = Ok true ->
     login req e d
     = (Ok (Response 200 (message "Login successful")
              [session_cookie (issue_token u (utcnow e))]), d))
  /\ forall body cks d',
       login req e d = (Ok (Response 200 body cks), d') ->
       exists raw password u token,
         py_get (credentials req) "username" (JStr "") = Ok (JStr raw)
         /\ py_get (credentials req) "password" (JStr "") = Ok password
         /\ find_user (strip raw) d = Some u
         /\ u_username u = strip raw
         /\ check_password_hash (u_password u) password = Ok true
         /\ In u (db_users d)
         /\ cks = [session_cookie token]
         /\ c_max_age (session_cookie token) = 24 * 3600
         /\ jwt_claims token = [("user_id", JStr (u_id u));
                                ("exp", JNum (utcnow e + 24 * 3600))]
         /\ forall (f : json -> view) req' e' d0,
              cookie_token req' = Some (Compact token) ->
              (utcnow e' < utcnow e + 24 * 3600 ->
               token_required f req' e' d0 = f (JStr (u_id u)) req' e' d0)
              /\ (utcnow e + 24 * 3600 <= utcnow e' ->
                  token_required f req' e' d0 = (Ok (Redirect "login"), d0)).
Proof.
  split; [intros raw p u; apply login_accepts|].
  intros body cks d' H.
  destruct (login_success_inv _ _ _ _ _ _ H)
    as (raw & password & u & _ & Hu & Hp & F & C & _ & -> & _).
  exists raw, password, u, (issue_token u (utcnow e)).
  assert (Hin : In u (db_users d) /\ u_username u = strip raw).
  { unfold find_user in F. apply find_some in F. destruct F as [Hi He].
    apply String.eqb_eq in He. split; assumption. }
  destruct Hin as [Hin Hname].
  do 6 (split; [assumption || reflexivity|]).
  repeat split; try reflexivity.
  - intro Hlt. apply token_required_resolves.
    exists (issue_token u (utcnow e)). split; [assumption|].
    split; [apply issued_token_decodes; exact Hlt | reflexivity].
  - intro Hge.
    apply (token_required_refused f req' e' d0
             (Compact (issue_token u (utcnow e)))); [assumption|].
    left. apply issued_token_expires. exact Hge.
Qed.

End Login.

Lemma login_token_lifetime_witness :
  @login sample (with_json (creds "alice" (JStr "secret1")) (plain POST))
    (at_time 3000) sample_db
  = (Ok (Response 200 (message "Login successful")
           [@session_cookie sample (@issue_token sample alice 3000)]),
     sample_db)
  /\ @token_required sample notes (as_user alice 3000 (plain GET))
       (at_time (3000 + 86399)) sample_db
     = notes (JStr oid_a) (as_user alice 3000 (plain GET))
         (at_time (3000 + 86399)) sample_db
  /\ @token_required sample notes (as_user alice 3000 (plain GET))
       (at_time (3000 + 86400)) sample_db
     = (Ok (Redirect "login"), sample_db).
Proof.
  destruct (@login_token_lifetime sample
              (with_json (creds "alice" (JStr "secret1")) (plain POST))
              (at_time 3000) sample_db) as [Hfwd Hinv].
  assert (Hlogin := Hfwd "alice" "secret1" alice
            (conj eq_refl
               (ex_intro _ [("username", JStr "alice");
                            ("password", JStr "secret1")]
                  (conj eq_refl (conj eq_refl eq_refl))))
            ltac:(discriminate) ltac:(discriminate) eq_refl eq_refl).
  split; [exact Hlogin|].
  destruct (Hinv _ _ _ Hlogin)
    as (raw & password & u & token & _ & _ & _ & _ & _ & _ & Hck & _ & Hcl
        & Hv).
  unfold session_cookie in Hck. injection Hck as Ht. subst token.
  injection Hcl as Hu.
  destruct (Hv notes (as_user alice 3000 (plain GET))
              (at_time (3000 + 86399)) sample_db eq_refl) as [H1 _].
  destruct (Hv notes (as_user alice 3000 (plain GET))
              (at_time (3000 + 86400)) sample_db eq_refl) as [_ H2].
  split.
  - rewrite H1 by (simpl; lia). rewrite <- Hu. reflexivity.
  - apply H2. simpl. lia.
Defined.

(* ================================================================== *)
(** ** The notes collection *)

Lemma unique_by_id (l : list note) (a b : note) :
  NoDup (map n_id l) -> In a l -> In b l -> n_id a = n_id b -> a = b.
Proof.
  induction l as [|x rest IH]; simpl; [tauto|].
  intros Hnd Ha Hb Hid. inversion Hnd as [|? ? Hx Hrest]; subst.
  destruct Ha as [->|Ha], Hb as [->|Hb]; auto.
  - exfalso. apply Hx. rewrite Hid. apply in_map. exact Hb.
  - exfalso. apply Hx. rewrite <- Hid. apply in_map. exact Ha.
Qed.

Lemma find_note_some (i o : ObjectId) (d : db) (n : note) :
  find_note i o d = Some n ->
  In n (db_notes d) /\ n_id n = i /\ n_user_id n = o.
Proof.
  unfold find_note. intro H. apply find_some in H as [Hin Hb].
  apply andb_true_iff in Hb as [H1 H2].
  apply String.eqb_eq in H1, H2. auto.
Qed.

Lemma find_note_absent (i o : ObjectId) (d : db) :
  ~ In i (map n_id (db_notes d)) -> find_note i o d = None.
Proof.
  intro H. destruct (find_note i o d) as [m|] eqn:F; [|reflexivity].
  apply find_note_some in F as (Hin & Hid & _).
  exfalso. apply H. rewrite <- Hid. apply in_map. exact Hin.
Qed.

Lemma find_note_not_owner (o : ObjectId) (d : db) (n : note) :
  NoDup (map n_id (db_notes d)) -> In n (db_notes d) -> o <> n_user_id n ->
  find_note (n_id n) o d = None.
Proof.
  intros Hnd Hin Ho.
  destruct (find_note (n_id n) o d) as [m|] eqn:F; [|reflexivity].
  apply find_note_some in F as (Hm & Hid & Hown).
  assert (m = n) by (eapply unique_by_id; eauto). subst m.
  congruence.
Qed.

Lemma update_first_ids (i : ObjectId) (u : update_data) (l : list note) :
  map n_id (update_first i u l) = map n_id l.
Proof.
  induction l as [|n rest IH]; simpl; [reflexivity|].
  destruct (String.eqb (n_id n) i); simpl; [reflexivity|].
  rewrite IH. reflexivity.
Qed.

Lemma update_first_absent (i : ObjectId) (u : update_data) (l : list note) :
  ~ In i (map n_id l) ->
  map (fun m => if String.eqb (n_id m) i then apply_set u m else m) l = l.
Proof.
  induction l as [|n rest IH]; simpl; [reflexivity|].
  intro H. destruct (String.eqb (n_id n) i) eqn:E.
  - apply String.eqb_eq in E. tauto.
  - rewrite IH by tauto. reflexivity.
Qed.

(** With distinct ids the update rewrites the one document of that id
    and is the identity on the others. *)
Lemma update_first_map (i : ObjectId) (u : update_data) (l : list note) :
  NoDup (map n_id l) ->
  update_first i u l
  = map (fun m => if String.eqb (n_id m) i then apply_set u m else m) l.
Proof.
  induction l as [|n rest IH]; simpl; [reflexivity|].
  intro Hnd. inversion Hnd as [|? ? Hn Hrest]; subst.
  destruct (String.eqb (n_id n) i) eqn:E.
  - apply String.eqb_eq in E. subst i.
    rewrite update_first_absent by exact Hn. reflexivity.
  - rewrite IH by exact Hrest. reflexivity.
Qed.

Lemma update_first_keeps (i : ObjectId) (u : update_data) (l : list note)
  (n : note) :
  In n l -> n_id n <> i -> In n (update_first i u l).
Proof.
  induction l as [|m rest IH]; simpl; [tauto|].
  intros [->|Hin] Hne.
  - apply String.eqb_neq in Hne. rewrite Hne. left. reflexivity.
  - destruct (String.eqb (n_id m) i); right; auto.
Qed.

Lemma delete_first_keeps (i : ObjectId) (l : list note) (n : note) :
  In n l -> n_id n <> i -> In n (delete_first i l).
Proof.
  induction l as [|m rest IH]; simpl; [tauto|].
  intros [->|Hin] Hne.
  - apply String.eqb_neq in Hne. rewrite Hne. left. reflexivity.
  - destruct (String.eqb (n_id m) i); [exact Hin | right; auto].
Qed.

Lemma delete_first_subset (i : ObjectId) (l : list note) (n : note) :
  In n (delete_first i l) -> In n l.
Proof.
  induction l as [|m rest IH]; simpl; [tauto|].
  destruct (String.eqb (n_id m) i); simpl; tauto.
Qed.

Lemma delete_first_nodup (i : ObjectId) (l : list note) :
  NoDup (map n_id l) -> NoDup (map n_id (delete_first i l)).
Proof.
  induction l as [|m rest IH]; simpl; [trivial|].
  intro Hnd. inversion Hnd as [|? ? Hm Hrest]; subst.
  destruct (String.eqb (n_id m) i); [exact Hrest|].
  simpl. constructor; [|auto].
  intro H. apply Hm. apply in_map_iff in H as (x & Hx & Hin).
  apply in_map_iff. exists x. split; [exact Hx|].
  eapply delete_first_subset; eauto.
Qed.

Lemma insert_note_ok (n : note) (d d' : db) :
  insert_note n d = Ok d' ->
  ~ In (n_id n) (map n_id (db_notes d))
  /\ db_users d' = db_users d
  /\ db_notes d' = (db_notes d ++ [n])%list.
Proof.
  unfold insert_note.
  destruct (existsb _ (db_notes d)) eqn:E; [discriminate|].
  intro H. inversion H; subst; clear H. simpl. split; [|auto].
  intro Hin. apply in_map_iff in Hin as (m & Hid & Hm).
  assert (existsb (fun m => String.eqb (n_id m) (n_id n)) (db_notes d) = true).
  { apply existsb_exists. exists m. split; [exact Hm|].
    apply String.eqb_eq. exact Hid. }
  congruence.
Qed.

(** *** Sorting *)

Lemma insert_desc_perm (n : note) (l : list note) :
  Permutation (insert_desc n l) (n :: l).
Proof.
  induction l as [|m rest IH]; simpl; [apply Permutation_refl|].
  destruct (n_updated_at m <? n_updated_at n); [apply Permutation_refl|].
  eapply perm_trans; [apply perm_skip, IH | apply perm_swap].
Qed.

Lemma sort_desc_perm (l : list note) : Permutation (sort_desc l) l.
Proof.
  induction l as [|n rest IH]; simpl; [apply perm_nil|].
  eapply perm_trans; [apply insert_desc_perm | apply perm_skip, IH].
Qed.



Lemma cursor_limit_subset (k : Z) (l : list note) (n : note) :
  In n (cursor_limit k l) -> In n l.
Proof.
  unfold cursor_limit. destruct (k =? 0); [trivial|].
  intro H. rewrite <- (firstn_skipn (Z.to_nat (Z.abs k)) l).
  apply in_or_app. left. exact H.
Qed.

Lemma skipn_subset (k : nat) (l : list note) (n : note) :
  In n (skipn k l) -> In n l.
Proof.
  intro H. rewrite <- (firstn_skipn k l). apply in_or_app. right. exact H.
Qed.

(** A listing holds documents of the collection that the asking user
    owns. *)
Lemma notes_page_owned (owner : ObjectId) (page per_page : Z) (d : db)
  (found : list note) (m : note) :
  notes_page owner page per_page d = Ok found ->
  In m found -> In m (db_notes d) /\ n_user_id m = owner.
Proof.
  unfold notes_page, cursor_skip, bind.
  destruct ((page - 1) * per_page <? 0); [discriminate|].
  destruct (INT64_MAX <? (page - 1) * per_page); [discriminate|].
  intros H Hin. inversion H; subst; clear H.
  apply cursor_limit_subset, skipn_subset in Hin.
  apply (Permutation_in _ (sort_desc_perm _)) in Hin.
  apply filter_In in Hin as [Hin Hown].
  apply String.eqb_eq in Hown. auto.
Qed.

(* ================================================================== *)
(** ** What each view does to the database *)

(** A create that answers 201 read two strings, found their stripped
    forms within the bounds, and appended one document holding them. *)
Lemma notes_post_created (uid : json) (req : request) (e : env) (d d' : db)
  (body : json) (cks : list cookie) :
  notes_post uid req e d = Ok (Response 201 body cks, d') ->
  exists raw_title raw_content owner,
    py_get (get_json req) "title" (JStr "") = Ok (JStr raw_title)
    /\ py_get (get_json req) "content" (JStr "") = Ok (JStr raw_content)
    /\ strip raw_content <> ""
    /\ len (strip raw_content) <= 10000
    /\ len (strip raw_title) <= 200
    /\ ObjectId_of uid = Ok owner
    /\ insert_note {| n_id := new_oid e;
                      n_user_id := owner;
                      n_title := JStr (strip raw_title);
                      n_content := JStr (strip raw_content);
                      n_created_at := utcnow e;
                      n_updated_at := utcnow_again e |} d = Ok d'.
Proof.
  unfold notes_post. unfold_views.
  destruct (negb (truthy (get_json req))); [discriminate|].
  destruct (py_get (get_json req) "title" (JStr "")) as [rt|]; [|discriminate].
  destruct rt as [| | |rt| |]; simpl; try discriminate.
  destruct (py_get (get_json req) "content" (JStr "")) as [rc|];
    [|discriminate].
  destruct rc as [| | |rc| |]; simpl; try discriminate.
  destruct (String.eqb (strip rc) "") eqn:E1; [discriminate|].
  destruct (10000 <? len (strip rc)) eqn:E2; [discriminate|].
  destruct (200 <? len (strip rt)) eqn:E3; [discriminate|].
  destruct (ObjectId_of uid) as [owner|]; [|discriminate].
  destruct (insert_note _ d) as [d1|] eqn:I; [|discriminate].
  intro H. inversion H; subst.
  exists rt, rc, owner.
  apply String.eqb_neq in E1. apply Z.ltb_ge in E2, E3.
  repeat split; auto.
Qed.

(** Every other answer of a create leaves the database alone. *)
Lemma notes_post_other (uid : json) (req : request) (e : env) (d d' : db)
  (r : response) :
  notes_post uid req e d = Ok (r, d') ->
  d' = d \/ exists body, r = Response 201 body [].
Proof.
  unfold notes_post. unfold_views.
  repeat (match goal with
          | |- context [match ?x with _ => _ end] => destruct x
          | |- context [if ?x then _ else _] => destruct x
          end; simpl; try discriminate);
    intro H; inversion H; subst; eauto.
Qed.

Lemma notes_get_db (uid : json) (req : request) (d d' : db) (r : response) :
  notes_get uid req d = Ok (r, d') -> d' = d.
Proof.
  unfold notes_get, bind.
  destruct (ObjectId_of uid); [|discriminate].
  destruct (notes_page _ _ _ d); [|discriminate].
  intro H. inversion H. reflexivity.
Qed.

Lemma notes_effect (uid : json) (req : request) (e : env) (d : db) :
  snd (notes uid req e d) = d
  \/ exists n, n_id n = new_oid e
               /\ insert_note n d = Ok (snd (notes uid req e d)).
Proof.
  unfold notes, try_except.
  destruct (method req).
  1, 3, 4: destruct (notes_get uid req d) as [[r d']|] eqn:G;
    [apply notes_get_db in G; subst|]; left; reflexivity.
  destruct (notes_post uid req e d) as [[r d']|] eqn:N; [|left; reflexivity].
  destruct (notes_post_other _ _ _ _ _ _ N) as [->|[body ->]];
    [left; reflexivity|].
  apply notes_post_created in N as (rt & rc & o & _ & _ & _ & _ & _ & _ & I).
  right. eexists. split; [|exact I]. reflexivity.
Qed.

Lemma notes_never_raises (uid : json) (req : request) (e : env) (d : db) :
  exists r, fst (notes uid req e d) = Ok r.
Proof.
  unfold notes, try_except.
  destruct (match method req with
            | POST => notes_post uid req e d
            | _ => notes_get uid req d
            end) as [[r d']|]; eexists; reflexivity.
Qed.

Lemma build_update_inv (data : json) (now : Z) (u : update_data) :
  build_update data now = Ok u ->
  upd_updated_at u = now
  /\ (py_in "title" data = Ok false -> upd_title u = None)
  /\ (py_in "title" data = Ok true ->
      exists v, py_getitem data "title" = Ok v /\ upd_title u = Some v)
  /\ (py_in "content" data = Ok false -> upd_content u = None)
  /\ (py_in "content" data = Ok true ->
      exists v, py_getitem data "content" = Ok v /\ upd_content u = Some v).
Proof.
  unfold build_update, bind.
  destruct (py_in "title" data) as [[|]|]; try discriminate;
    destruct (py_in "content" data) as [[|]|]; try discriminate;
    try (destruct (py_getitem data "title") as [vt|]; try discriminate);
    try (destruct (py_getitem data "content") as [vc|]; try discriminate);
    intro H; inversion H; subst; simpl;
    repeat split; try discriminate; intros _; eauto.
Qed.

(** The three ways [note_detail] can end with a response. *)
Lemma note_detail_effect (uid : json) (note_id : string) (req : request)
  (e : env) (d : db) :
  snd (note_detail uid note_id req e d) = d
  \/ exists i o m,
       ObjectId_of_str note_id = Some i
       /\ ObjectId_of uid = Ok o
       /\ find_note i o d = Some m
       /\ ((exists u, method req = PUT
                      /\ build_update (get_json req) (utcnow e) = Ok u
                      /\ note_detail uid note_id req e d
                         = (Ok (jsonify (message "Note updated") 200),
                            update_one i u d))
           \/ (method req = DELETE
               /\ note_detail uid note_id req e d
                  = (Ok (jsonify (message "Note deleted") 200),
                     delete_one i d))).
Proof.
  unfold note_detail.
  destruct (ObjectId_of_str note_id) as [i|] eqn:Pn; [|left; reflexivity].
  destruct (ObjectId_of uid) as [o|] eqn:Po; [|left; reflexivity].
  destruct (find_note i o d) as [m|] eqn:F; [|left; reflexivity].
  destruct (method req) eqn:M; try (left; reflexivity).
  - destruct (build_update (get_json req) (utcnow e)) as [u|] eqn:B;
      [|left; reflexivity].
    right. exists i, o, m. repeat split; auto. left. exists u. auto.
  - right. exists i, o, m. repeat split; auto.
Qed.

(* ================================================================== *)
(** ** Update *)

Lemma note_detail_put_inv (uid : json) (note_id : string) (req : request)
  (e : env) (d d' : db) (body : json) (cks : list cookie) :
  method req = PUT ->
  note_detail uid note_id req e d = (Ok (Response 200 body cks), d') ->
  exists i o m u,
    ObjectId_of_str note_id = Some i
    /\ ObjectId_of uid = Ok o
    /\ find_note i o d = Some m
    /\ build_update (get_json req) (utcnow e) = Ok u
    /\ d' = update_one i u d.
Proof.
  intros Hput. unfold note_detail. unfold_views.
  destruct (ObjectId_of_str note_id) as [i|]; [|discriminate].
  destruct (ObjectId_of uid) as [o|]; [|discriminate].
  destruct (find_note i o d) as [m|] eqn:F; [|discriminate].
  rewrite Hput.
  destruct (build_update (get_json req) (utcnow e)) as [u|] eqn:B;
    [|discriminate].
  intro H. inversion H; subst. exists i, o, m, u. auto.
Qed.

(** C9. When a PUT on /api/notes/<id> is answered with 200, the
    collection afterwards is the collection before with one document [n],
    the caller's note of that id, replaced by [n']: [n'] has the id, the
    owner and the creation stamp of [n]; its [updated_at] is the instant
    of the request; its title is the body's when the body has the key
    [title] and the title of [n] otherwise, and the same for the content.
    Every other document, and the users, are as before. *)
Theorem put_changes_only_named_fields (uid : json) (note_id : string)
  (req : request) (e : env) (d d' : db) (body : json) (cks : list cookie) :
  wf_db d ->
  method req = PUT ->
  note_detail uid note_id req e d = (Ok (Response 200 body cks), d') ->
  exists n n',
    In n (db_notes d)
    /\ ObjectId_of_str note_id = Some (n_id n)
    /\ ObjectId_of uid = Ok (n_user_id n)
    /\ n_id n' = n_id n
    /\ n_user_id n' = n_user_id n
    /\ n_created_at n' = n_created_at n
    /\ n_updated_at n' = utcnow e
    /\ (py_in "title" (get_json req) = Ok false -> n_title n' = n_title n)
    /\ (py_in "title" (get_json req) = Ok true ->
        py_getitem (get_json req) "title" = Ok (n_title n'))
    /\ (py_in "content" (get_json req) = Ok false ->
        n_content n' = n_content n)
    /\ (py_in "content" (get_json req) = Ok true ->
        py_getitem (get_json req) "content" = Ok (n_content n'))
    /\ db_users d' = db_users d
    /\ db_notes d'
       = map (fun m => if String.eqb (n_id m) (n_id n) then n' else m)
           (db_notes d)
    /\ forall m, In m (db_notes d) -> m <> n ->
                 String.eqb (n_id m) (n_id n) = false.
Proof.
  intros [Hnd _] Hput H.
  destruct (note_detail_put_inv _ _ _ _ _ _ _ _ Hput H)
    as (i & o & m & u & Hi & Ho & Hf & Hb & ->).
  apply find_note_some in Hf as (Hin & <- & <-).
  destruct (build_update_inv _ _ _ Hb) as (Hnow & Ht0 & Ht1 & Hc0 & Hc1).
  exists m, (apply_set u m).
  repeat split; auto.
  - intro E. cbn [apply_set n_title]. rewrite (Ht0 E). reflexivity.
  - intro E. cbn [apply_set n_title].
    destruct (Ht1 E) as (v & -> & ->). reflexivity.
  - intro E. cbn [apply_set n_content]. rewrite (Hc0 E). reflexivity.
  - intro E. cbn [apply_set n_content].
    destruct (Hc1 E) as (v & -> & ->). reflexivity.
  - unfold update_one. cbn [db_notes].
    rewrite update_first_map by exact Hnd. apply map_ext_in.
    intros m0 Hm0.
    destruct (String.eqb (n_id m0) (n_id m)) eqn:E; [|reflexivity].
    apply String.eqb_eq in E.
    rewrite (unique_by_id _ _ _ Hnd Hm0 Hin E). reflexivity.
  - intros m0 Hm0 Hne. apply String.eqb_neq. intro Hid.
    apply Hne. eapply unique_by_id; eauto.
Qed.

Lemma sample_db_wf : wf_db sample_db.
Proof.
  split.
  - repeat constructor; simpl; intuition discriminate.
  - repeat constructor.
Qed.

Lemma put_changes_only_named_fields_witness :
  exists n n',
    In n (db_notes sample_db)
    /\ n_id n' = n_id n
    /\ n_updated_at n' = 9000
    /\ py_getitem (JObj [("title", JStr "shopping")]) "title"
       = Ok (n_title n')
    /\ n_content n' = n_content n.
Proof.
  destruct (put_changes_only_named_fields (JStr oid_a) oid_n
              (with_json (JObj [("title", JStr "shopping")]) (plain PUT))
              (at_time 9000) sample_db _ _ _ sample_db_wf eq_refl eq_refl)
    as (n & n' & H1 & _ & _ & H2 & _ & _ & H3 & _ & H4 & H5 & _).
  exists n, n'. repeat split; auto.
Defined.

(* ================================================================== *)
(** ** Registration and login leave the notes alone *)

Section Accounts.

Context {P : Platform}.

Lemma insert_user_ok (u : user) (d d' : db) :
  insert_user u d = Ok d' ->
  db_users d' = (db_users d ++ [u])%list /\ db_notes d' = db_notes d.
Proof.
  unfold insert_user. destruct (existsb _ (db_users d)); [discriminate|].
  intro H. inversion H. auto.
Qed.

(** A registration that answers 201 read a name and a password, both
    strings, found the stripped name free and the password long enough,
    and appended the user with the digest of the password. *)
Lemma register_post_created (req : request) (e : env) (d d' : db)
  (body : json) (cks : list cookie) :
  register_post req e d = Ok (Response 201 body cks, d') ->
  exists raw p,
    py_get (credentials req) "username" (JStr "") = Ok (JStr raw)
    /\ py_get (credentials req) "password" (JStr "") = Ok (JStr p)
    /\ 3 <= len (strip raw) <= 50
    /\ 6 <= len p
    /\ find_user (strip raw) d = None
    /\ insert_user {| u_id := new_oid e;
                      u_username := strip raw;
                      u_password := {| ph_salt := gensalt e;
                                       ph_hashval :=
                                         hash_internal (gensalt e) p |};
                      u_created_at := utcnow e |} d = Ok d'.
Proof.
  unfold register_post. unfold_views.
  destruct (py_get (credentials req) "username" (JStr "")) as [raw|];
    [|discriminate].
  destruct raw as [| | |raw| |]; simpl; try discriminate.
  destruct (py_get (credentials req) "password" (JStr "")) as [pw|];
    [|discriminate].
  destruct (String.eqb (strip raw) "" || negb (truthy pw)); [discriminate|].
  destruct ((len (strip raw) <? 3) || (50 <? len (strip raw))) eqn:L;
    [discriminate|].
  destruct (py_len pw) as [k|] eqn:K; [|discriminate].
  destruct (k <? 6) eqn:L6; [discriminate|].
  destruct (find_user (strip raw) d) eqn:F; [discriminate|].
  destruct pw as [| | |p| |]; simpl; try discriminate.
  destruct (insert_user _ d) as [d1|] eqn:I; [|discriminate].
  intro H. inversion H; subst.
  exists raw, p. apply orb_false_iff in L as [L1 L2].
  apply Z.ltb_ge in L1, L2, L6. simpl in K. inversion K; subst.
  repeat split; auto.
Qed.

Lemma register_post_other (req : request) (e : env) (d d' : db)
  (r : response) :
  register_post req e d = Ok (r, d') ->
  d' = d \/ exists body, r = Response 201 body [].
Proof.
  unfold register_post. unfold_views.
  repeat (match goal with
          | |- context [match ?x with _ => _ end] => destruct x
          | |- context [if ?x then _ else _] => destruct x
          end; simpl; try discriminate);
    intro H; inversion H; subst; eauto.
Qed.

Lemma register_effect (req : request) (e : env) (d : db) :
  snd (register req e d) = d
  \/ exists u, find_user (u_username u) d = None
               /\ insert_user u d = Ok (snd (register req e d)).
Proof.
  unfold register, try_except.
  destruct (method req); try (left; reflexivity).
  destruct (register_post req e d) as [[r d']|] eqn:R; [|left; reflexivity].
  destruct (register_post_other _ _ _ _ _ R) as [->|[body ->]];
    [left; reflexivity|].
  apply register_post_created in R as (raw & p & _ & _ & _ & _ & F & I).
  right. eexists. split; [|exact I]. exact F.
Qed.

Lemma register_notes (req : request) (e : env) (d : db) :
  db_notes (snd (register req e d)) = db_notes d.
Proof.
  destruct (register_effect req e d) as [->|(u & _ & I)]; [reflexivity|].
  apply insert_user_ok in I. tauto.
Qed.

Lemma login_db (req : request) (e : env) (d : db) :
  snd (login req e d) = d.
Proof.
  unfold login, try_except.
  destruct (method req); try reflexivity.
  unfold login_post, bind.
  destruct (py_get (credentials req) "username" (JStr "")) as [raw|];
    [|reflexivity].
  destruct (py_strip raw) as [username|]; [|reflexivity].
  destruct (py_get (credentials req) "password" (JStr "")) as [password|];
    [|reflexivity].
  destruct (String.eqb username "" || negb (truthy password)); [reflexivity|].
  destruct (find_user username d) as [u|]; [|reflexivity].
  destruct (check_password_hash (u_password u) password) as [[|]|];
    reflexivity.
Qed.

End Accounts.

(* ================================================================== *)
(** ** The invariant of the notes collection *)

Lemma wf_db_notes (d d' : db) :
  db_notes d' = db_notes d -> wf_db d -> wf_db d'.
Proof. unfold wf_db. intros ->. trivial. Qed.

Lemma wf_empty : wf_db empty_db.
Proof. split; constructor. Qed.

Lemma wf_insert_note (n : note) (d d' : db) :
  insert_note n d = Ok d' -> is_oid (n_id n) = true -> wf_db d -> wf_db d'.
Proof.
  intros I Hoid [Hnd Hall].
  apply insert_note_ok in I as (Hfresh & _ & Hn).
  unfold wf_db. rewrite Hn. split.
  - rewrite map_app. simpl.
    apply (Permutation_NoDup (Permutation_cons_append _ _)).
    constructor; assumption.
  - apply Forall_app. split; [exact Hall|]. constructor; [exact Hoid|constructor].
Qed.

Lemma wf_update_one (i : ObjectId) (u : update_data) (d : db) :
  wf_db d -> wf_db (update_one i u d).
Proof.
  intros [Hnd Hall]. unfold wf_db, update_one. cbn [db_notes]. split.
  - rewrite update_first_ids. exact Hnd.
  - apply (Forall_map n_id (fun i => is_oid i = true)).
    rewrite update_first_ids.
    apply (Forall_map n_id (fun i => is_oid i = true)). exact Hall.
Qed.

Lemma wf_delete_one (i : ObjectId) (d : db) :
  wf_db d -> wf_db (delete_one i d).
Proof.
  intros [Hnd Hall]. unfold wf_db, delete_one. cbn [db_notes]. split.
  - apply delete_first_nodup. exact Hnd.
  - rewrite Forall_forall in *. intros m Hm.
    apply Hall. eapply delete_first_subset. exact Hm.
Qed.

Section Invariant.

Context {P : Platform}.

Lemma token_required_cases (f : json -> view) (req : request) (e : env)
  (d : db) :
  snd (token_required f req e d) = d
  \/ exists uid, token_required f req e d = f uid req e d.
Proof.
  unfold token_required.
  destruct (cookie_token req) as [c|]; [|left; reflexivity].
  destruct (negb (cookie_truthy c)); [left; reflexivity|].
  destruct (jwt_decode c SECRET_KEY (utcnow e)); try (left; reflexivity).
  destruct (py_getitem (JObj data) "user_id") as [uid|];
    [right; exists uid|left]; reflexivity.
Qed.

Lemma notes_preserves_wf (uid : json) (req : request) (e : env) (d : db) :
  wf_db d -> is_oid (new_oid e) = true -> wf_db (snd (notes uid req e d)).
Proof.
  intros Hwf Hoid.
  destruct (notes_effect uid req e d) as [->|(n & Hid & I)]; [exact Hwf|].
  eapply wf_insert_note; eauto. rewrite Hid. exact Hoid.
Qed.

Lemma note_detail_preserves_wf (uid : json) (note_id : string)
  (req : request) (e : env) (d : db) :
  wf_db d -> wf_db (snd (note_detail uid note_id req e d)).
Proof.
  intro Hwf.
  destruct (note_detail_effect uid note_id req e d)
    as [->|(i & o & m & _ & _ & _ & [(u & _ & _ & ->)|[_ ->]])];
    [exact Hwf| |]; cbn [snd].
  - apply wf_update_one, Hwf.
  - apply wf_delete_one, Hwf.
Qed.

(** Every request leaves the collection with distinct canonical ids,
    given that the id drawn for an insert is an ObjectId. *)
Lemma serve_preserves_wf (r : route) (req : request) (e : env) (d : db) :
  wf_db d -> is_oid (new_oid e) = true -> wf_db (snd (serve r req e d)).
Proof.
  intros Hwf Hoid. unfold serve.
  destruct (allowed r (method req)); [|exact Hwf].
  destruct r; cbn [endpoint].
  - eapply wf_db_notes; [apply register_notes | exact Hwf].
  - rewrite login_db. exact Hwf.
  - destruct (token_required_cases dashboard req e d) as [->|[uid ->]];
      exact Hwf.
  - destruct (token_required_cases notes req e d) as [->|[uid ->]];
      [exact Hwf|]. apply notes_preserves_wf; assumption.
  - destruct (token_required_cases
                (fun current_user_id => note_detail current_user_id note_id)
                req e d) as [->|[uid ->]]; [exact Hwf|].
    apply note_detail_preserves_wf. exact Hwf.
Qed.

Lemma run_preserves_wf (calls : list (route * request * env)) (d : db) :
  wf_db d ->
  Forall (fun c => is_oid (new_oid (snd c)) = true) calls ->
  wf_db (snd (run calls d)).
Proof.
  revert d. induction calls as [|[[r req] e] rest IH]; intros d Hwf Hall;
    [exact Hwf|].
  inversion Hall as [|? ? Hhd Htl]; subst. simpl.
  pose proof (serve_preserves_wf r req e d Hwf Hhd) as Hstep.
  destruct (serve r req e d) as [out d1]. cbn [snd] in Hstep.
  specialize (IH d1 Hstep Htl).
  destruct (run rest d1) as [outs d2]. exact IH.
Qed.

End Invariant.

(* ================================================================== *)
(** ** Ownership *)

Section Ownership.

Context {P : Platform}.

Variables (req : request) (e : env) (d : db) (n : note).
Variables (b : string) (B : ObjectId).

Hypothesis Hwf : wf_db d.
Hypothesis Hn : In n (db_notes d).
Hypothesis Hsession : authenticated_as req e (JStr b).
Hypothesis HB : ObjectId_of_str b = Some B.
Hypothesis Hother : B <> n_user_id n.

Lemma session_owner : ObjectId_of (JStr b) = Ok B.
Proof. unfold ObjectId_of. rewrite HB. reflexivity. Qed.

Lemma guarded_as_B (f : json -> view) :
  token_required f req e d = f (JStr b) req e d.
Proof. apply token_required_resolves. exact Hsession. Qed.

Lemma other_listing :
  method req = GET ->
  serve ApiNotes req e d = (Ok (jsonify (error "Operation failed") 500), d)
  \/ exists found,
       serve ApiNotes req e d
       = (Ok (jsonify (JArr (map note_json found)) 200), d)
       /\ forall m, In m found ->
                    In m (db_notes d) /\ n_user_id m = B /\ n_id m <> n_id n.
Proof.
  intro Hget. unfold serve. rewrite Hget. cbn [allowed endpoint].
  rewrite guarded_as_B. unfold notes, notes_get, try_except. rewrite Hget.
  rewrite session_owner. cbn [bind].
  destruct (notes_page B _ _ d) as [found|] eqn:Pg; [|left; reflexivity].
  right. exists found. split; [reflexivity|].
  intros m Hm. destruct (notes_page_owned _ _ _ _ _ _ Pg Hm) as [Hin Hown].
  repeat split; auto.
  intro Hid. destruct Hwf as [Hnd _].
  assert (m = n) by (eapply unique_by_id; eauto). subst m. congruence.
Qed.

Lemma other_detail (note_id : string) (i : ObjectId) :
  method req = PUT \/ method req = DELETE ->
  ObjectId_of_str note_id = Some i ->
  find_note i B d = None ->
  serve (ApiNote note_id) req e d
  = (Ok (jsonify (error "Note not found") 404), d).
Proof.
  intros Hm Hi Hf. unfold serve.
  assert (Ha : allowed (ApiNote note_id) (method req) = true)
    by (destruct Hm as [-> | ->]; reflexivity).
  rewrite Ha. cbn [endpoint]. rewrite guarded_as_B.
  unfold note_detail. rewrite Hi, session_owner, Hf. reflexivity.
Qed.

Lemma other_keeps (r : route) : In n (db_notes (snd (serve r req e d))).
Proof.
  unfold serve. destruct (allowed r (method req)); [|exact Hn].
  destruct r; cbn [endpoint].
  - rewrite register_notes. exact Hn.
  - rewrite login_db. exact Hn.
  - rewrite guarded_as_B. exact Hn.
  - rewrite guarded_as_B.
    destruct (notes_effect (JStr b) req e d) as [->|(m & _ & I)];
      [exact Hn|].
    apply insert_note_ok in I as (_ & _ & ->).
    apply in_or_app. left. exact Hn.
  - rewrite guarded_as_B.
    destruct (note_detail_effect (JStr b) note_id req e d)
      as [->|(i & o & m & _ & Ho & Hf & Hw)]; [exact Hn|].
    rewrite session_owner in Ho. injection Ho as <-.
    assert (Hne : n_id n <> i).
    { intro Hid. subst i. destruct Hwf as [Hnd _].
      rewrite find_note_not_owner in Hf by assumption. discriminate. }
    destruct Hw as [(u & _ & _ & ->)|[_ ->]]; cbn [snd update_one delete_one db_notes].
    + apply update_first_keeps; assumption.
    + apply delete_first_keeps; assumption.
Qed.

End Ownership.

(** C1. Let [n] be a stored note and let the request carry a valid
    session of a user [B] who is not the owner of [n], the collection
    having distinct canonical ids.  Then a GET on /api/notes answers
    either the generic 500 or a list of notes of [B], none of which has
    the id of [n]; a PUT or DELETE on /api/notes/<id of n> is answered 404
    "Note not found" and writes nothing, and that is the answer for every
    id that no stored note has; and whatever route the request is sent to,
    [n] is in the collection afterwards, as it was. *)
Theorem notes_private {P : Platform} (req : request) (e : env) (d : db)
  (n : note) (b : string) (B : ObjectId) :
  wf_db d ->
  In n (db_notes d) ->
  authenticated_as req e (JStr b) ->
  ObjectId_of_str b = Some B ->
  B <> n_user_id n ->
  (method req = GET ->
   serve ApiNotes req e d = (Ok (jsonify (error "Operation failed") 500), d)
   \/ exists found,
        serve ApiNotes req e d
        = (Ok (jsonify (JArr (map note_json found)) 200), d)
        /\ forall m, In m found ->
                     In m (db_notes d) /\ n_user_id m = B
                     /\ n_id m <> n_id n)
  /\ (method req = PUT \/ method req = DELETE ->
      serve (ApiNote (n_id n)) req e d
      = (Ok (jsonify (error "Note not found") 404), d)
      /\ forall missing i,
           ObjectId_of_str missing = Some i ->
           ~ In i (map n_id (db_notes d)) ->
           serve (ApiNote missing) req e d
           = serve (ApiNote (n_id n)) req e d)
  /\ forall r, In n (db_notes (snd (serve r req e d))).
Proof.
  intros Hwf Hn Hsession HB Hother.
  split; [exact (other_listing req e d n b B Hwf Hn Hsession HB Hother)|].
  split; [|exact (other_keeps req e d n b B Hwf Hn Hsession HB Hother)].
  intro Hm.
  assert (Hown : serve (ApiNote (n_id n)) req e d
                 = (Ok (jsonify (error "Note not found") 404), d)).
  { destruct Hwf as [Hnd Hall].
    apply (other_detail req e d b B Hsession HB (n_id n) (n_id n) Hm).
    - apply ObjectId_of_str_canonical.
      rewrite Forall_forall in Hall. exact (Hall n Hn).
    - apply find_note_not_owner; assumption. }
  split; [exact Hown|].
  intros missing i Hi Habs. rewrite Hown.
  apply (other_detail req e d b B Hsession HB missing i Hm Hi).
  apply find_note_absent. exact Habs.
Qed.

Lemma notes_private_witness :
  @serve sample (ApiNote oid_n) (as_user bob 3000 (plain DELETE))
    (at_time 5000) sample_db
  = (Ok (jsonify (error "Note not found") 404), sample_db)
  /\ In note_n
       (db_notes (snd (@serve sample (ApiNote oid_m)
                         (as_user bob 3000 (plain DELETE)) (at_time 5000)
                         sample_db))).
Proof.
  assert (Hin : In note_n (db_notes sample_db)) by (left; reflexivity).
  assert (Hs : @authenticated_as sample (as_user bob 3000 (plain DELETE))
                 (at_time 5000) (JStr oid_b)).
  { exists (@issue_token sample bob 3000). repeat split; reflexivity. }
  assert (Hne : oid_b <> n_user_id note_n) by discriminate.
  destruct (@notes_private sample (as_user bob 3000 (plain DELETE))
              (at_time 5000) sample_db note_n oid_b oid_b
              sample_db_wf Hin Hs eq_refl Hne) as (_ & H2 & H3).
  split.
  - apply H2. right. reflexivity.
  - apply H3.
Defined.

(* ================================================================== *)
(** ** Accounts persist *)

Section Persistence.

Context {P : Platform}.

Lemma find_user_users (name : string) (d d' : db) :
  db_users d' = db_users d -> find_user name d' = find_user name d.
Proof. unfold find_user. intros ->. reflexivity. Qed.

Lemma find_user_insert (name : string) (u v : user) (d d' : db) :
  find_user name d = Some u -> insert_user v d = Ok d' ->
  find_user name d' = Some u.
Proof.
  intros F I. apply insert_user_ok in I as [Hu _].
  unfold find_user in *. rewrite Hu. revert F.
  generalize (db_users d). intro l.
  induction l as [|x rest IH]; simpl; [discriminate|].
  destruct (String.eqb (u_username x) name); auto.
Qed.

Lemma notes_users (uid : json) (req : request) (e : env) (d : db) :
  db_users (snd (notes uid req e d)) = db_users d.
Proof.
  destruct (notes_effect uid req e d) as [->|(n & _ & I)]; [reflexivity|].
  apply insert_note_ok in I. tauto.
Qed.

Lemma note_detail_users (uid : json) (note_id : string) (req : request)
  (e : env) (d : db) :
  db_users (snd (note_detail uid note_id req e d)) = db_users d.
Proof.
  destruct (note_detail_effect uid note_id req e d)
    as [->|(i & o & m & _ & _ & _ & [(u & _ & _ & ->)|[_ ->]])];
    reflexivity.
Qed.

(** No request removes or changes a user. *)
Lemma serve_keeps_user (r : route) (req : request) (e : env) (d : db)
  (name : string) (u : user) :
  find_user name d = Some u ->
  find_user name (snd (serve r req e d)) = Some u.
Proof.
  intro F. unfold serve.
  destruct (allowed r (method req)); [|exact F].
  destruct r; cbn [endpoint].
  - destruct (register_effect req e d) as [->|(v & _ & I)]; [exact F|].
    eapply find_user_insert; eauto.
  - rewrite login_db. exact F.
  - destruct (token_required_cases dashboard req e d) as [->|[uid ->]];
      exact F.
  - destruct (token_required_cases notes req e d) as [->|[uid ->]];
      [exact F|].
    rewrite (find_user_users name d _ (notes_users uid req e d)). exact F.
  - destruct (token_required_cases
                (fun current_user_id => note_detail current_user_id note_id)
                req e d) as [->|[uid ->]]; [exact F|].
    rewrite (find_user_users name d _ (note_detail_users uid _ req e d)).
    exact F.
Qed.

Lemma run_keeps_user (calls : list (route * request * env)) (d : db)
  (name : string) (u : user) :
  find_user name d = Some u ->
  find_user name (snd (run calls d)) = Some u.
Proof.
  revert d. induction calls as [|[[r req] e] rest IH]; intros d F; [exact F|].
  simpl. pose proof (serve_keeps_user r req e d name u F) as Hstep.
  destruct (serve r req e d) as [out d1]. cbn [snd] in Hstep.
  specialize (IH d1 Hstep). destruct (run rest d1) as [outs d2]. exact IH.
Qed.

(** How [login] answers a POST of two strings, by cases. *)
Lemma login_strings (req : request) (e : env) (d : db) (raw p : string) :
  submits req raw p ->
  login req e d
  = (Ok (if String.eqb (strip raw) "" || String.eqb p "" then
           jsonify (error "Username and password required") 400
         else
           match find_user (strip raw) d with
           | Some u =>
               if String.eqb (hash_internal (ph_salt (u_password u)) p)
                    (ph_hashval (u_password u))
               then Response 200 (message "Login successful")
                      [session_cookie (issue_token u (utcnow e))]
               else jsonify (error "Invalid credentials") 401
           | None => jsonify (error "Invalid credentials") 401
           end), d).
Proof.
  intros (Hm & members & Hc & Hu & Hp).
  unfold login, login_post, try_except. rewrite Hm, Hc.
  unfold py_get. rewrite Hu, Hp. cbn [bind py_strip truthy].
  rewrite negb_involutive.
  destruct (String.eqb (strip raw) "" || String.eqb p ""); [reflexivity|].
  destruct (find_user (strip raw) d) as [u|]; [|reflexivity].
  cbn [check_password_hash bind].
  destruct (String.eqb _ (ph_hashval (u_password u))); reflexivity.
Qed.

End Persistence.

(* ================================================================== *)
(** ** Passwords *)

Section Passwords.

Context {P : Platform}.

Lemma find_user_inserted (v : user) (d d' : db) :
  find_user (u_username v) d = None -> insert_user v d = Ok d' ->
  find_user (u_username v) d' = Some v.
Proof.
  intros F I. apply insert_user_ok in I as [Hu _].
  unfold find_user in *. rewrite Hu. revert F.
  generalize (db_users d). intro l.
  induction l as [|x rest IH]; simpl.
  - intros _. rewrite String.eqb_refl. reflexivity.
  - destruct (String.eqb (u_username x) (u_username v)); [discriminate|auto].
Qed.

Lemma nonempty_of_len (s : string) (k : Z) : 0 < k -> k <= len s -> s <> "".
Proof. intros Hk Hl ->. unfold len in Hl. simpl in Hl. lia. Qed.

(** A registration that answers 201 leaves the user findable under the
    stripped name, with the digest of the submitted password. *)
Lemma register_stores (req : request) (e : env) (d d' : db) (body : json)
  (cks : list cookie) (u p : string) :
  submits req u p ->
  register req e d = (Ok (Response 201 body cks), d') ->
  3 <= len (strip u) /\ 6 <= len p
  /\ exists user,
       find_user (strip u) d' = Some user
       /\ ph_hashval (u_password user)
          = hash_internal (ph_salt (u_password user)) p
       /\ ph_salt (u_password user) = gensalt e.
Proof.
  intros (Hm & members & Hc & Hu & Hp) H.
  unfold register, try_except in H. rewrite Hm in H.
  destruct (register_post req e d) as [[r d1]|] eqn:R; [|discriminate].
  inversion H; subst; clear H.
  apply register_post_created in R
    as (raw & p0 & Hraw & Hp0 & Hlen & Hlp & F & I).
  rewrite Hc in Hraw, Hp0. unfold py_get in Hraw, Hp0.
  rewrite Hu in Hraw. rewrite Hp in Hp0.
  inversion Hraw; inversion Hp0; subst.
  split; [lia|]. split; [exact Hlp|].
  match type of I with
  | insert_user ?v d = _ =>
      exists v; split; [exact (find_user_inserted v d d' F I)|];
      split; reflexivity
  end.
Qed.

(** C8, as amended.  After a registration of the name [u] with the
    string password [p] has been answered 201, [p] has at least 6
    characters and the account is kept, with the salt drawn at the
    registration and the digest of [p] under it, whatever requests the
    service handles in between.  A login
    under the same stripped name with a string password [p'] is then
    answered: 400 "Username and password required" when [p'] is empty;
    200 with the session cookie of that user when [p'] is not empty and
    its digest under the stored salt is the stored one, as it is for
    [p' = p]; 401 "Invalid credentials" when [p'] is not empty and its
    digest is another. *)
Theorem registered_password_round_trip (req : request) (e : env) (d d' : db)
  (body : json) (cks : list cookie) (u p : string) :
  submits req u p ->
  register req e d = (Ok (Response 201 body cks), d') ->
  6 <= len p
  /\ forall calls req' e' u' p',
       submits req' u' p' ->
       strip u' = strip u ->
       exists user,
         find_user (strip u) (snd (run calls d')) = Some user
         /\ ph_salt (u_password user) = gensalt e
         /\ ph_hashval (u_password user)
            = hash_internal (ph_salt (u_password user)) p
         /\ (p' = p ->
             login req' e' (snd (run calls d'))
             = (Ok (Response 200 (message "Login successful")
                      [session_cookie (issue_token user (utcnow e'))]),
                snd (run calls d')))
         /\ (p' <> "" ->
             hash_internal (ph_salt (u_password user)) p'
             = hash_internal (ph_salt (u_password user)) p ->
             login req' e' (snd (run calls d'))
             = (Ok (Response 200 (message "Login successful")
                      [session_cookie (issue_token user (utcnow e'))]),
                snd (run calls d')))
         /\ (p' <> "" ->
             hash_internal (ph_salt (u_password user)) p'
             <> hash_internal (ph_salt (u_password user)) p ->
             login req' e' (snd (run calls d'))
             = (Ok (jsonify (error "Invalid credentials") 401),
                snd (run calls d')))
         /\ (p' = "" ->
             login req' e' (snd (run calls d'))
             = (Ok (jsonify (error "Username and password required") 400),
                snd (run calls d'))).
Proof.
  intros Hs Hr.
  destruct (register_stores _ _ _ _ _ _ _ _ Hs Hr)
    as (Hlu & Hlp & user & F & Hh & Hsalt).
  split; [exact Hlp|].
  intros calls req' e' u' p' Hs' Hname.
  pose proof (run_keeps_user calls d' _ _ F) as F'.
  exists user. split; [exact F'|]. split; [exact Hsalt|].
  split; [exact Hh|].
  rewrite (login_strings req' e' _ u' p' Hs'), Hname, F'.
  assert (Hu0 : String.eqb (strip u) "" = false).
  { apply String.eqb_neq. apply (nonempty_of_len _ 3); lia. }
  rewrite Hu0. cbn [orb].
  split; [|split; [|split]].
  - intros ->.
    assert (Hp0 : String.eqb p "" = false).
    { apply String.eqb_neq. apply (nonempty_of_len _ 6); lia. }
    rewrite Hp0, Hh, String.eqb_refl. reflexivity.
  - intros Hne0 Heq. apply String.eqb_neq in Hne0.
    rewrite Hne0, Heq, Hh, String.eqb_refl. reflexivity.
  - intros Hne0 Hneq. apply String.eqb_neq in Hne0. rewrite Hne0.
    assert (Hd : String.eqb (hash_internal (ph_salt (u_password user)) p')
                   (ph_hashval (u_password user)) = false).
    { apply String.eqb_neq. rewrite Hh. exact Hneq. }
    rewrite Hd. reflexivity.
  - intros ->. reflexivity.
Qed.

(** C4, as amended.  Of two logins that each give a non-blank name and a
    non-empty password, one under a name no user has and one under the
    name of a user whose stored digest the password does not match, both
    are answered 401 with the body "Invalid credentials", and the two
    responses are the same.  A login whose name is blank or whose
    password is empty is answered 400 before any user is looked up. *)
Theorem login_failure_uniform :
  (forall req1 req2 e1 e2 d1 d2 u1 p1 u2 p2 user,
     submits req1 u1 p1 -> submits req2 u2 p2 ->
     strip u1 <> "" -> p1 <> "" -> strip u2 <> "" -> p2 <> "" ->
     find_user (strip u1) d1 = None ->
     find_user (strip u2) d2 = Some user ->
     check_password_hash (u_password user) (JStr p2) = Ok false ->
     login req1 e1 d1 = (Ok (jsonify (error "Invalid credentials") 401), d1)
     /\ login req2 e2 d2
        = (Ok (jsonify (error "Invalid credentials") 401), d2)
     /\ fst (login req1 e1 d1) = fst (login req2 e2 d2))
  /\ (forall req e d d0 u p,
        submits req u p -> strip u = "" \/ p = "" ->
        login req e d
        = (Ok (jsonify (error "Username and password required") 400), d)
        /\ fst (login req e d) = fst (login req e d0)).
Proof.
  split.
  - intros req1 req2 e1 e2 d1 d2 u1 p1 u2 p2 user
      Hs1 Hs2 Hu1 Hp1 Hu2 Hp2 F1 F2 Hc.
    rewrite (login_strings req1 e1 d1 u1 p1 Hs1).
    rewrite (login_strings req2 e2 d2 u2 p2 Hs2).
    apply String.eqb_neq in Hu1, Hp1, Hu2, Hp2.
    rewrite Hu1, Hp1, Hu2, Hp2, F1, F2. cbn [orb].
    unfold check_password_hash in Hc. inversion Hc as [Hc'].
    rewrite Hc'. auto.
  - intros req e d d0 u p Hs Hblank.
    rewrite (login_strings req e d u p Hs).
    rewrite (login_strings req e d0 u p Hs).
    assert (Hb : String.eqb (strip u) "" || String.eqb p "" = true).
    { apply orb_true_iff.
      destruct Hblank as [-> | ->]; [left|right]; reflexivity. }
    rewrite Hb. auto.
Qed.

End Passwords.

Lemma submits_creds (u p : string) :
  @submits (with_json (creds u (JStr p)) (plain POST)) u p.
Proof.
  split; [reflexivity|]. eexists. repeat split; reflexivity.
Qed.

Lemma registered_password_round_trip_witness :
  fst (@login sample (with_json (creds " carol" (JStr "opensesame"))
                        (plain POST)) (at_time 7000)
         (snd (@register sample
                 (with_json (creds "carol" (JStr "opensesame")) (plain POST))
                 (at_time 6000) sample_db)))
  = Ok (Response 200 (message "Login successful")
          [@session_cookie sample
             (@issue_token sample
                {| u_id := oid_free;
                   u_username := "carol";
                   u_password :=
                     {| ph_salt := "pepper";
                        ph_hashval := "pepper$opensesame" |};
                   u_created_at := 6000 |} 7000)])
  /\ fst (@login sample (with_json (creds "carol" (JStr "sesame"))
                           (plain POST)) (at_time 7000)
            (snd (@register sample
                    (with_json (creds "carol" (JStr "opensesame"))
                       (plain POST)) (at_time 6000) sample_db)))
     = Ok (jsonify (error "Invalid credentials") 401).
Proof.
  destruct (@registered_password_round_trip sample
              (with_json (creds "carol" (JStr "opensesame")) (plain POST))
              (at_time 6000) sample_db _ _ _ "carol" "opensesame"
              (submits_creds _ _) eq_refl)
    as [_ H].
  split.
  - destruct (H [] _ (at_time 7000) " carol" "opensesame"
                (submits_creds _ _) eq_refl) as (user & F & _ & _ & L & _).
    vm_compute in F. inversion F; subst user.
    exact (f_equal fst (L eq_refl)).
  - destruct (H [] _ (at_time 7000) "carol" "sesame"
                (submits_creds _ _) eq_refl)
      as (user & F & _ & _ & _ & _ & L & _).
    vm_compute in F. inversion F; subst user.
    refine (f_equal fst (L _ _)); [discriminate|].
    vm_compute. discriminate.
Defined.

(* ------------------------------------------------------------------ *)
(** *** A digest of bounded length does not tell all passwords apart *)

Lemma all_ascii_complete (c : ascii) : In c all_ascii.
Proof.
  unfold all_ascii. rewrite <- (ascii_nat_embedding c).
  apply in_map. apply in_seq. pose proof (nat_ascii_bounded c). lia.
Qed.

Lemma words_complete (s : string) : In s (words (String.length s)).
Proof.
  induction s as [|c r IH]; [left; reflexivity|].
  cbn [String.length words].
  apply in_flat_map. exists r. split; [exact IH|].
  unfold extend. apply (in_map (fun c => String c r)).
  apply all_ascii_complete.
Qed.

Lemma words_upto_complete (s : string) (n : nat) :
  (String.length s <= n)%nat -> In s (words_upto n).
Proof.
  intro H. unfold words_upto. apply in_flat_map.
  exists (String.length s). split; [apply in_seq; lia | apply words_complete].
Qed.

Lemma letters_length (k : nat) : String.length (letters k) = (6 + k)%nat.
Proof.
  induction k as [|j IH]; [reflexivity|]. cbn [letters String.length]. lia.
Qed.

Lemma NoDup_map_in {A B : Type} (f : A -> B) (l : list A) :
  (forall x y, In x l -> In y l -> f x = f y -> x = y) ->
  NoDup l -> NoDup (map f l).
Proof.
  induction l as [|a r IH]; intros Hinj Hnd; simpl; [constructor|].
  inversion Hnd as [|? ? Hna Hr]; subst. constructor.
  - intro Hin. apply in_map_iff in Hin as (y & Hy & Hin).
    apply Hna.
    rewrite (Hinj a y); [exact Hin | left; reflexivity | right; exact Hin
                        | symmetry; exact Hy].
  - apply IH; [|exact Hr]. intros x y Hx Hy. apply Hinj; right; assumption.
Qed.

(** Two members of a list without repetition that a function sends to
    one value, when its values on the list repeat. *)
Lemma repeated_value (f : string -> string) (l : list string) :
  NoDup l -> ~ NoDup (map f l) ->
  exists x y, In x l /\ In y l /\ x <> y /\ f x = f y.
Proof.
  induction l as [|a r IH]; intros Hnd Hrep.
  - exfalso. apply Hrep. constructor.
  - inversion Hnd as [|? ? Hna Hr]; subst.
    destruct (in_dec string_dec (f a) (map f r)) as [Hin|Hout].
    + apply in_map_iff in Hin as (y & Hy & Hin).
      exists a, y. split; [left; reflexivity|]. split; [right; exact Hin|].
      split; [|symmetry; exact Hy]. intros ->. contradiction.
    + destruct IH as (x & y & Hx & Hy & Hne & He); [exact Hr| |].
      * intro H. apply Hrep. simpl. constructor; assumption.
      * exists x, y. repeat split; auto; right; assumption.
Qed.

(** A function on strings whose values have a bounded length takes one
    value on two different strings of six characters or more. *)
Lemma bounded_values_collide (f : string -> string) (bound : nat) :
  (forall p, (String.length (f p) <= bound)%nat) ->
  exists p p',
    p <> p' /\ 6 <= len p /\ 6 <= len p' /\ f p = f p'.
Proof.
  intro Hb.
  set (domain := map letters (seq 0 (S (List.length (words_upto bound))))).
  assert (Hnd : NoDup domain).
  { apply NoDup_map_in; [|apply seq_NoDup].
    intros x y _ _ H. apply (f_equal String.length) in H.
    rewrite !letters_length in H. lia. }
  assert (Hrep : ~ NoDup (map f domain)).
  { intro H.
    assert (Hincl : incl (map f domain) (words_upto bound)).
    { intros v Hv. apply in_map_iff in Hv as (p & <- & _).
      apply words_upto_complete, Hb. }
    pose proof (NoDup_incl_length H Hincl) as Hlen.
    unfold domain in Hlen. rewrite !length_map, length_seq in Hlen. lia. }
  destruct (repeated_value f domain Hnd Hrep) as (x & y & Hx & Hy & Hne & He).
  exists x, y. split; [exact Hne|].
  unfold domain in Hx, Hy.
  apply in_map_iff in Hx as (i & <- & _).
  apply in_map_iff in Hy as (j & <- & _).
  unfold len. rewrite !letters_length. repeat split; try lia. exact He.
Qed.

(** Whatever the digest, if its values under the salt drawn at a
    registration have a bounded length, as those of werkzeug have, there
    are two different passwords of six characters or more such that an
    account registered with the one lets the other in. *)
Lemma bounded_digest_lets_another_password_in {P : Platform} (bound : nat)
  (name : string) (e : env) (d : db) :
  (forall p, (String.length (hash_internal (gensalt e) p) <= bound)%nat) ->
  exists p p',
    p <> p' /\ 6 <= len p /\ 6 <= len p'
    /\ forall d' body cks,
         register (with_json (creds name (JStr p)) (plain POST)) e d
         = (Ok (Response 201 body cks), d') ->
         forall calls e',
         exists user,
           find_user (strip name) (snd (run calls d')) = Some user
           /\ login (with_json (creds name (JStr p')) (plain POST)) e'
                (snd (run calls d'))
              = (Ok (Response 200 (message "Login successful")
                       [session_cookie (issue_token user (utcnow e'))]),
                 snd (run calls d')).
Proof.
  intro Hb.
  destruct (bounded_values_collide (hash_internal (gensalt e)) bound Hb)
    as (p & p' & Hne & Hp & Hp' & Hc).
  exists p, p'. split; [exact Hne|]. split; [exact Hp|]. split; [exact Hp'|].
  intros d' body cks Hr calls e'.
  destruct (register_stores _ _ _ _ _ _ _ _ (submits_creds name p) Hr)
    as (Hlu & _ & user & F & Hh & Hsalt).
  pose proof (run_keeps_user calls d' _ _ F) as F'.
  exists user. split; [exact F'|].
  rewrite (login_strings _ e' _ name p' (submits_creds name p')), F'.
  assert (Hu0 : String.eqb (strip name) "" = false).
  { apply String.eqb_neq. apply (nonempty_of_len _ 3); lia. }
  assert (Hp0 : String.eqb p' "" = false).
  { apply String.eqb_neq. apply (nonempty_of_len _ 6); lia. }
  rewrite Hu0, Hp0, Hh, Hsalt, <- Hc, String.eqb_refl. reflexivity.
Qed.

(** Not every other password is answered 401.  An empty password is
    turned away with 400.  And the answer to another password is decided
    by its digest alone: where the digest keeps the first eight
    characters of what it is given, registering "opensesame" lets
    "other-word" in. *)
Lemma other_password_is_not_always_401 :
  fst (@run sample
         [(Register,
           with_json (creds "carol" (JStr "opensesame")) (plain POST),
           at_time 6000);
          (Login,
           with_json (creds "carol" (JStr "")) (plain POST),
           at_time 7000)]
         sample_db)
  = [Ok (jsonify (message "User created successfully") 201);
     Ok (jsonify (error "Username and password required") 400)]
  /\ exists token,
       fst (@run sample_short_digest
              [(Register,
                with_json (creds "carol" (JStr "opensesame")) (plain POST),
                at_time 6000);
               (Login,
                with_json (creds "carol" (JStr "other-word")) (plain POST),
                at_time 7000)]
              sample_db)
       = [Ok (jsonify (message "User created successfully") 201);
          Ok (Response 200 (message "Login successful")
                [@session_cookie sample_short_digest token])].
Proof. split; [reflexivity|]. eexists. reflexivity. Qed.

Lemma login_failure_uniform_witness :
  @login sample (with_json (creds "nosuchuser" (JStr "x")) (plain POST))
    (at_time 7000) sample_db
  = (Ok (jsonify (error "Invalid credentials") 401), sample_db)
  /\ fst (@login sample (with_json (creds "nosuchuser" (JStr "x"))
                           (plain POST)) (at_time 7000) sample_db)
     = fst (@login sample (with_json (creds "alice" (JStr "wrongpass"))
                             (plain POST)) (at_time 7001) sample_db).
Proof.
  destruct (proj1 (@login_failure_uniform sample)
              (with_json (creds "nosuchuser" (JStr "x")) (plain POST))
              (with_json (creds "alice" (JStr "wrongpass")) (plain POST))
              (at_time 7000) (at_time 7001) sample_db sample_db
              "nosuchuser" "x" "alice" "wrongpass" alice
              (submits_creds _ _) (submits_creds _ _))
    as (H1 & _ & H3); try discriminate; try reflexivity.
  split; assumption.
Defined.

(** The two failures differ when the wrong password is the empty one. *)
Lemma login_failure_not_always_401 :
  fst (@login sample (with_json (creds "nosuchuser" (JStr "x")) (plain POST))
         (at_time 7000) sample_db)
  = Ok (jsonify (error "Invalid credentials") 401)
  /\ fst (@login sample (with_json (creds "alice" (JStr "")) (plain POST))
            (at_time 7000) sample_db)
     = Ok (jsonify (error "Username and password required") 400).
Proof. split; reflexivity. Qed.

(** A password that is not a string: the lookup decides between 401 and
    the 500 of the handler's [except]. *)
Lemma login_password_not_a_string :
  fst (@login sample
         (with_json (creds "nosuchuser" (JArr [JNum 1])) (plain POST))
         (at_time 7000) sample_db)
  = Ok (jsonify (error "Invalid credentials") 401)
  /\ fst (@login sample
            (with_json (creds "alice" (JArr [JNum 1])) (plain POST))
            (at_time 7000) sample_db)
     = Ok (jsonify (error "Login failed") 500).
Proof. split; reflexivity. Qed.

(* ================================================================== *)
(** ** Listing *)


Section Listing.

Context {P : Platform}.


End Listing.



(* ================================================================== *)
(** ** Create *)

Lemma len_nonneg (s : string) : 0 <= len s.
Proof. unfold len. lia. Qed.

Lemma len_empty (s : string) : len s = 0 -> s = "".
Proof. destruct s; [reflexivity|]. unfold len. simpl. lia. Qed.

(** A note that a create stores is within the bounds of the data model. *)
Lemma create_within_bounds (uid : json) (req : request) (e : env) (d d' : db)
  (body : json) (cks : list cookie) :
  notes_post uid req e d = Ok (Response 201 body cks, d') ->
  exists n, db_notes d' = (db_notes d ++ [n])%list /\ within_bounds n = true.
Proof.
  intro H.
  apply notes_post_created in H
    as (rt & rc & o & _ & _ & Hne & Hc & Ht & _ & I).
  apply insert_note_ok in I as (_ & _ & ->).
  eexists. split; [reflexivity|].
  unfold within_bounds. cbn [n_title n_content].
  assert (1 <= len (strip rc)).
  { pose proof (len_nonneg (strip rc)).
    destruct (Z.eq_dec (len (strip rc)) 0) as [E|E]; [|lia].
    apply len_empty in E. contradiction. }
  apply andb_true_iff. split; [apply andb_true_iff; split|];
    apply Z.leb_le; lia.
Qed.

Lemma notes_post_strings (uid : json) (req : request) (e : env) (d : db)
  (t c : string) (owner : ObjectId) :
  truthy (get_json req) = true ->
  py_get (get_json req) "title" (JStr "") = Ok (JStr t) ->
  py_get (get_json req) "content" (JStr "") = Ok (JStr c) ->
  ObjectId_of uid = Ok owner ->
  notes_post uid req e d
  = if String.eqb (strip c) "" then
      Ok (jsonify (error "Content is required") 400, d)
    else if 10000 <? len (strip c) then
      Ok (jsonify (error "Content too long (max 10,000 characters)") 400, d)
    else if 200 <? len (strip t) then
      Ok (jsonify (error "Title too long (max 200 characters)") 400, d)
    else if existsb (fun m => String.eqb (n_id m) (new_oid e)) (db_notes d)
    then Raise DuplicateKeyError
    else Ok (jsonify (JObj [("message", JStr "Note created");
                            ("note_id", JStr (new_oid e))]) 201,
             {| db_users := db_users d;
                db_notes :=
                  db_notes d
                  ++ [{| n_id := new_oid e;
                         n_user_id := owner;
                         n_title := JStr (strip t);
                         n_content := JStr (strip c);
                         n_created_at := utcnow e;
                         n_updated_at := utcnow_again e |}] |}).
Proof.
  intros Htr Ht Hc Ho. unfold notes_post.
  rewrite Htr, Ht, Hc, Ho. cbn [negb bind py_strip].
  destruct (String.eqb (strip c) ""); [reflexivity|].
  destruct (10000 <? len (strip c)); [reflexivity|].
  destruct (200 <? len (strip t)); [reflexivity|].
  unfold insert_note. cbn [n_id].
  destruct (existsb _ (db_notes d)); reflexivity.
Qed.

(** A value that is not a string has no [strip]. *)
Lemma py_strip_not_a_string (v : json) :
  (forall s, v <> JStr s) -> py_strip v = Raise AttributeError.
Proof.
  intro H. destruct v; try reflexivity. exfalso. exact (H s eq_refl).
Qed.

(** C10, as amended.  On a POST to /api/notes whose body is a non-empty
    object in which the title and the content are strings or missing,
    both are stripped before they are checked and stored: a content of
    whitespace only is answered 400 "Content is required" and nothing is
    stored; and when the stripped content is not empty and has at most
    10000 characters, the stripped title has at most 200, the caller's id
    is well formed and the [_id] drawn is free, the answer is 201 and
    the one note appended holds the stripped title and the stripped
    content, neither of which begins or ends with whitespace.  When the
    title or the content of the object is not a string, or the body is
    another value than an object, the answer is the 500 of the view's
    [except] and nothing is stored; a body that is null, empty, zero or
    false is answered 400 "Invalid JSON data".  And whenever a
    request is answered 201, one note has been appended whose title and
    content are the stripped forms of the strings that were sent; neither
    begins or ends with whitespace, the content is not empty, and the
    lengths that passed the checks are those of the stripped strings. *)
Theorem create_strips_title_and_content (uid : json) (req : request)
  (e : env) (d : db) :
  (forall t c,
     method req = POST ->
     truthy (get_json req) = true ->
     py_get (get_json req) "title" (JStr "") = Ok (JStr t) ->
     py_get (get_json req) "content" (JStr "") = Ok (JStr c) ->
     (all_chars isspace c = true ->
      notes uid req e d
      = (Ok (jsonify (error "Content is required") 400), d))
     /\ (forall owner,
           strip c <> "" ->
           len (strip c) <= 10000 ->
           len (strip t) <= 200 ->
           ObjectId_of uid = Ok owner ->
           ~ In (new_oid e) (map n_id (db_notes d)) ->
           notes uid req e d
           = (Ok (jsonify (JObj [("message", JStr "Note created");
                                 ("note_id", JStr (new_oid e))]) 201),
              {| db_users := db_users d;
                 db_notes :=
                   db_notes d
                   ++ [{| n_id := new_oid e;
                          n_user_id := owner;
                          n_title := JStr (strip t);
                          n_content := JStr (strip c);
                          n_created_at := utcnow e;
                          n_updated_at := utcnow_again e |}] |})
           /\ trimmed (strip t) /\ trimmed (strip c)))
  /\ (forall members v,
        method req = POST ->
        get_json req = JObj members ->
        assoc "title" members = Some v \/ assoc "content" members = Some v ->
        (forall s, v <> JStr s) ->
        notes uid req e d = (Ok (jsonify (error "Operation failed") 500), d))
  /\ (method req = POST ->
      truthy (get_json req) = true ->
      (forall members, get_json req <> JObj members) ->
      notes uid req e d = (Ok (jsonify (error "Operation failed") 500), d))
  /\ (method req = POST ->
      truthy (get_json req) = false ->
      notes uid req e d = (Ok (jsonify (error "Invalid JSON data") 400), d))
  /\ (forall body cks d',
        notes uid req e d = (Ok (Response 201 body cks), d') ->
        exists n raw_title raw_content,
          py_get (get_json req) "title" (JStr "") = Ok (JStr raw_title)
          /\ py_get (get_json req) "content" (JStr "")
             = Ok (JStr raw_content)
          /\ db_notes d' = (db_notes d ++ [n])%list
          /\ n_title n = JStr (strip raw_title)
          /\ n_content n = JStr (strip raw_content)
          /\ trimmed (strip raw_title)
          /\ trimmed (strip raw_content)
          /\ strip raw_content <> ""
          /\ len (strip raw_content) <= 10000
          /\ len (strip raw_title) <= 200).
Proof.
  split; [|split; [|split; [|split]]].
  - intros t c Hm Htr Ht Hc. split.
    + intro Hblank. unfold notes, notes_post, try_except.
      rewrite Hm, Htr, Ht, Hc. cbn [negb bind py_strip].
      rewrite (strip_blank c Hblank). reflexivity.
    + intros owner Hne Hlc Hlt Ho Hfree.
      split; [|split; apply strip_trimmed].
      unfold notes, try_except. rewrite Hm.
      rewrite (notes_post_strings uid req e d t c owner Htr Ht Hc Ho).
      apply String.eqb_neq in Hne. rewrite Hne.
      assert (E1 : (10000 <? len (strip c)) = false) by (apply Z.ltb_ge; lia).
      assert (E2 : (200 <? len (strip t)) = false) by (apply Z.ltb_ge; lia).
      rewrite E1, E2.
      assert (X : existsb (fun m => String.eqb (n_id m) (new_oid e))
                    (db_notes d) = false).
      { destruct (existsb _ (db_notes d)) eqn:X; [|reflexivity].
        exfalso. apply Hfree. apply existsb_exists in X as (m & Hin & Hi).
        apply String.eqb_eq in Hi. rewrite <- Hi. apply in_map. exact Hin. }
      rewrite X. reflexivity.
  - intros members v Hm Hj Hv Hns.
    unfold notes, notes_post, try_except. rewrite Hm, Hj.
    assert (Htr : truthy (JObj members) = true).
    { destruct members; [|reflexivity].
      destruct Hv as [Hv|Hv]; discriminate Hv. }
    rewrite Htr. cbn [negb py_get bind].
    destruct (assoc "title" members) as [vt|] eqn:T.
    + destruct vt as [| | |st| |]; cbn [py_strip bind]; try reflexivity.
      destruct Hv as [Hv|Hv];
        [inversion Hv; subst v; exfalso; exact (Hns st eq_refl)|].
      rewrite Hv, (py_strip_not_a_string v Hns). reflexivity.
    + destruct Hv as [Hv|Hv]; [discriminate Hv|].
      cbn [py_strip bind].
      rewrite Hv, (py_strip_not_a_string v Hns). reflexivity.
  - intros Hm Htr Hno. unfold notes, notes_post, try_except.
    rewrite Hm, Htr. cbn [negb].
    destruct (get_json req) as [| | | | |members]; try reflexivity.
    exfalso. exact (Hno members eq_refl).
  - intros Hm Htr. unfold notes, notes_post, try_except.
    rewrite Hm, Htr. reflexivity.
  - intros body cks d' H.
    unfold notes, try_except in H.
    destruct (method req) eqn:M.
    1, 3, 4: destruct (notes_get uid req d) as [[r d1]|] eqn:G;
      [|discriminate]; unfold notes_get, bind in G;
      destruct (ObjectId_of uid); [|discriminate];
      destruct (notes_page _ _ _ d); [|discriminate];
      inversion G; subst; discriminate.
    destruct (notes_post uid req e d) as [[r d1]|] eqn:N; [|discriminate].
    inversion H; subst; clear H.
    apply notes_post_created in N
      as (rt & rc & o & Ht & Hc & Hne & Hlc & Hlt & _ & I).
    apply insert_note_ok in I as (_ & _ & Hn).
    eexists. exists rt, rc.
    repeat split; try eassumption; try reflexivity;
      try apply strip_trimmed.
Qed.

Lemma create_strips_title_and_content_witness :
  notes (JStr oid_a)
    (with_json (JObj [("title", JStr "x"); ("content", JStr "   ")])
       (plain POST)) (at_time 5000) sample_db
  = (Ok (jsonify (error "Content is required") 400), sample_db)
  /\ notes (JStr oid_a)
       (with_json (JObj [("title", JStr " list "); ("content", JStr " milk ")])
          (plain POST)) (at_time 5000) sample_db
     = (Ok (jsonify (JObj [("message", JStr "Note created");
                           ("note_id", JStr oid_free)]) 201),
        {| db_users := [alice; bob];
           db_notes := [note_n; note_m;
                        {| n_id := oid_free;
                           n_user_id := oid_a;
                           n_title := JStr "list";
                           n_content := JStr "milk";
                           n_created_at := 5000;
                           n_updated_at := 5000 |}] |}).
Proof.
  split.
  - destruct (create_strips_title_and_content (JStr oid_a)
                (with_json
                   (JObj [("title", JStr "x"); ("content", JStr "   ")])
                   (plain POST)) (at_time 5000) sample_db) as [H _].
    destruct (H "x" "   " eq_refl eq_refl eq_refl eq_refl) as [H1 _].
    exact (H1 eq_refl).
  - destruct (create_strips_title_and_content (JStr oid_a)
                (with_json
                   (JObj [("title", JStr " list "); ("content", JStr " milk ")])
                   (plain POST)) (at_time 5000) sample_db) as [H _].
    destruct (H " list " " milk " eq_refl eq_refl eq_refl eq_refl)
      as [_ H2].
    destruct (H2 oid_a) as [H3 _];
      [vm_compute; discriminate | vm_compute; discriminate
       | vm_compute; discriminate | reflexivity
       | vm_compute; intuition discriminate |].
    exact H3.
Defined.

(** A whitespace-only content is not always answered 400: with a title
    that is a number the answer is the 500 of the view's [except]. *)
Lemma blank_content_with_numeric_title_is_500 :
  notes (JStr oid_a)
    (with_json (JObj [("title", JNum 5); ("content", JStr "   ")])
       (plain POST)) (at_time 5000) sample_db
  = (Ok (jsonify (error "Operation failed") 500), sample_db).
Proof. reflexivity. Qed.

(* ================================================================== *)
(** ** Update does not validate *)

(** C5, at a failing run.  A note is created with the content "hi" and
    then updated with the empty content: both requests are answered with
    success, and the collection holds a note whose content is empty. *)
Theorem update_stores_empty_content :
  @run sample
    [(ApiNotes,
      as_user alice 3000
        (with_json (JObj [("content", JStr "hi")]) (plain POST)),
      at_time 4000);
     (ApiNote oid_free,
      as_user alice 3000
        (with_json (JObj [("content", JStr "")]) (plain PUT)),
      at_time 4001)]
    empty_db
  = ([Ok (jsonify (JObj [("message", JStr "Note created");
                         ("note_id", JStr oid_free)]) 201);
      Ok (jsonify (message "Note updated") 200)],
     {| db_users := [];
        db_notes := [{| n_id := oid_free;
                        n_user_id := oid_a;
                        n_title := JStr "";
                        n_content := JStr "";
                        n_created_at := 4000;
                        n_updated_at := 4001 |}] |})
  /\ forallb within_bounds
       (db_notes
          (snd (@run sample
                  [(ApiNotes,
                    as_user alice 3000
                      (with_json (JObj [("content", JStr "hi")])
                         (plain POST)),
                    at_time 4000);
                   (ApiNote oid_free,
                    as_user alice 3000
                      (with_json (JObj [("content", JStr "")]) (plain PUT)),
                    at_time 4001)]
                  empty_db)))
     = false.
Proof. split; reflexivity. Qed.

(* ================================================================== *)
(** ** Exceptions at the boundary of a view *)

Section Boundary.

Context {P : Platform}.

Lemma register_never_raises (req : request) (e : env) (d : db) :
  exists r, fst (register req e d) = Ok r.
Proof.
  unfold register, try_except.
  destruct (method req); try (eexists; reflexivity).
  destruct (register_post req e d) as [[r d']|]; eexists; reflexivity.
Qed.

Lemma login_never_raises (req : request) (e : env) (d : db) :
  exists r, fst (login req e d) = Ok r.
Proof.
  unfold login, try_except.
  destruct (method req); try (eexists; reflexivity).
  destruct (login_post req e d) as [[r d']|]; eexists; reflexivity.
Qed.

End Boundary.

(** C7, at failing requests.  A PUT on a note of the caller whose body
    is the JSON number 5, or is missing, ends in a [TypeError] that leaves
    [note_detail] and the decorator; so does a PUT whose body is the list
    holding "title".  A number or such a list sent to POST /api/notes is
    answered with the 500 of that view's own [except].  Served through
    [app.run], the escaped exception reaches the client as the debugger's
    page outside production and as the framework's 500 page in
    production. *)
Theorem note_detail_lets_exceptions_out :
  @serve sample (ApiNote oid_n)
    (as_user alice 3000 (with_json (JNum 5) (plain PUT)))
    (at_time 5000) sample_db
  = (Raise TypeError, sample_db)
  /\ @serve sample (ApiNote oid_n)
       (as_user alice 3000 (with_json JNull (plain PUT)))
       (at_time 5000) sample_db
     = (Raise TypeError, sample_db)
  /\ @serve sample (ApiNote oid_n)
       (as_user alice 3000 (with_json (JArr [JStr "title"]) (plain PUT)))
       (at_time 5000) sample_db
     = (Raise TypeError, sample_db)
  /\ @serve sample ApiNotes
       (as_user alice 3000 (with_json (JNum 5) (plain POST)))
       (at_time 5000) sample_db
     = (Ok (jsonify (error "Operation failed") 500), sample_db)
  /\ @serve sample ApiNotes
       (as_user alice 3000 (with_json (JArr [JStr "title"]) (plain POST)))
       (at_time 5000) sample_db
     = (Ok (jsonify (error "Operation failed") 500), sample_db)
  /\ @app_run sample (ApiNote oid_n)
       (as_user alice 3000 (with_json (JNum 5) (plain PUT)))
       (at_time 5000) sample_db
     = (Traceback TypeError, sample_db)
  /\ @app_run sample_production (ApiNote oid_n)
       (with_cookie
          (Some (Compact (@issue_token sample_production alice 3000)))
          (with_json (JNum 5) (plain PUT)))
       (at_time 5000) sample_db
     = (ErrorPage 500, sample_db).
Proof. repeat split; reflexivity. Qed.

(* ================================================================== *)
(** * Further properties *)

(** ** Registration *)

Section Registration.

Context {P : Platform}.

(** The account a registration stores. *)
Lemma register_strings (req : request) (e : env) (d : db) (raw p : string) :
  submits req raw p ->
  register req e d
  = if String.eqb (strip raw) "" || String.eqb p "" then
      (Ok (jsonify (error "Username and password required") 400), d)
    else if (len (strip raw) <? 3) || (50 <? len (strip raw)) then
      (Ok (jsonify (error "Username must be 3-50 characters") 400), d)
    else if len p <? 6 then
      (Ok (jsonify (error "Password must be at least 6 characters") 400), d)
    else
      match find_user (strip raw) d with
      | Some _ => (Ok (jsonify (error "Username already exists") 400), d)
      | None =>
          if existsb (fun v => String.eqb (u_id v) (new_oid e)) (db_users d)
          then (Ok (jsonify (error "Registration failed") 500), d)
          else (Ok (jsonify (message "User created successfully") 201),
                {| db_users :=
                     db_users d
                     ++ [{| u_id := new_oid e;
                            u_username := strip raw;
                            u_password :=
                              {| ph_salt := gensalt e;
                                 ph_hashval := hash_internal (gensalt e) p |};
                            u_created_at := utcnow e |}];
                   db_notes := db_notes d |})
      end.
Proof.
  intros (Hm & members & Hc & Hu & Hp).
  unfold register, register_post, try_except. rewrite Hm, Hc.
  unfold py_get. rewrite Hu, Hp. cbn [bind py_strip truthy py_len].
  rewrite negb_involutive.
  destruct (String.eqb (strip raw) "" || String.eqb p ""); [reflexivity|].
  destruct ((len (strip raw) <? 3) || (50 <? len (strip raw)));
    [reflexivity|].
  destruct (len p <? 6); [reflexivity|].
  destruct (find_user (strip raw) d); [reflexivity|].
  cbn [generate_password_hash bind]. unfold insert_user. cbn [u_id db_users].
  destruct (existsb _ (db_users d)); reflexivity.
Qed.

(** X1. A registration that gives two strings is answered 201 exactly
    when the stripped name has 3 to 50 characters, the password has at
    least 6, no user has the stripped name and the [_id] drawn for the
    insert is not taken; then one user is appended.  Every other answer
    leaves the database as it was. *)
Theorem register_accepts_exactly (req : request) (e : env) (d : db)
  (u p : string) :
  submits req u p ->
  ((exists body cks d',
      register req e d = (Ok (Response 201 body cks), d'))
   <-> (3 <= len (strip u) <= 50
        /\ 6 <= len p
        /\ find_user (strip u) d = None
        /\ ~ In (new_oid e) (map u_id (db_users d))))
  /\ (forall status body cks d',
        register req e d = (Ok (Response status body cks), d') ->
        status <> 201 -> d' = d)
  /\ (forall body cks d',
        register req e d = (Ok (Response 201 body cks), d') ->
        db_notes d' = db_notes d
        /\ exists v, db_users d' = (db_users d ++ [v])%list
                     /\ u_username v = strip u
                     /\ u_id v = new_oid e
                     /\ ph_hashval (u_password v)
                        = hash_internal (ph_salt (u_password v)) p).
Proof.
  intro Hs. rewrite (register_strings req e d u p Hs).
  assert (Hex : existsb (fun v => String.eqb (u_id v) (new_oid e)) (db_users d)
                = true <-> In (new_oid e) (map u_id (db_users d))).
  { rewrite existsb_exists, in_map_iff. split.
    - intros (v & Hin & Hv). apply String.eqb_eq in Hv. eauto.
    - intros (v & Hv & Hin). exists v. split; [exact Hin|].
      apply String.eqb_eq. exact Hv. }
  destruct (String.eqb (strip u) "" || String.eqb p "") eqn:E0.
  { split; [split|split].
    - intros (b & c & d' & H). discriminate.
    - intros (Hl & Hp & _). exfalso.
      apply orb_true_iff in E0 as [E|E]; apply String.eqb_eq in E;
        rewrite E in *; unfold len in *; simpl in *; lia.
    - intros s b c d' H _. inversion H. reflexivity.
    - intros b c d' H. discriminate. }
  destruct ((len (strip u) <? 3) || (50 <? len (strip u))) eqn:E1.
  { split; [split|split].
    - intros (b & c & d' & H). discriminate.
    - intros (Hl & _). exfalso.
      apply orb_true_iff in E1 as [E|E]; apply Z.ltb_lt in E; lia.
    - intros s b c d' H _. inversion H. reflexivity.
    - intros b c d' H. discriminate. }
  apply orb_false_iff in E1 as [E1 E1']. apply Z.ltb_ge in E1, E1'.
  destruct (len p <? 6) eqn:E2.
  { split; [split|split].
    - intros (b & c & d' & H). discriminate.
    - intros (_ & Hp & _). apply Z.ltb_lt in E2. lia.
    - intros s b c d' H _. inversion H. reflexivity.
    - intros b c d' H. discriminate. }
  apply Z.ltb_ge in E2.
  destruct (find_user (strip u) d) eqn:F.
  { split; [split|split].
    - intros (b & c & d' & H). discriminate.
    - intros (_ & _ & H & _). discriminate.
    - intros s b c d' H _. inversion H. reflexivity.
    - intros b c d' H. discriminate. }
  destruct (existsb _ (db_users d)) eqn:X.
  { split; [split|split].
    - intros (b & c & d' & H). discriminate.
    - intros (_ & _ & _ & H). exfalso. apply H. apply Hex. reflexivity.
    - intros s b c d' H _. inversion H. reflexivity.
    - intros b c d' H. discriminate. }
  split; [split|split].
  - intros _. repeat split; try lia.
    intro H. apply Hex in H. congruence.
  - intros _. eexists _, _, _. reflexivity.
  - intros s b c d' H Hne. inversion H; subst. congruence.
  - intros b c d' H. inversion H; subst. cbn [db_notes db_users].
    split; [reflexivity|]. eexists. split; [reflexivity|].
    repeat split; reflexivity.
Qed.

Lemma register_created_bounds (req : request) (e : env) (d d' : db)
  (body : json) (cks : list cookie) (u p : string) :
  submits req u p ->
  register req e d = (Ok (Response 201 body cks), d') ->
  3 <= len (strip u) <= 50 /\ 6 <= len p /\ find_user (strip u) d = None.
Proof.
  intros Hs Hr. rewrite (register_strings req e d u p Hs) in Hr.
  destruct (String.eqb (strip u) "" || String.eqb p ""); [discriminate|].
  destruct ((len (strip u) <? 3) || (50 <? len (strip u))) eqn:E1;
    [discriminate|].
  destruct (len p <? 6) eqn:E2; [discriminate|].
  destruct (find_user (strip u) d); [discriminate|].
  apply orb_false_iff in E1 as [E1 E1']. apply Z.ltb_ge in E1, E1', E2.
  repeat split; auto.
Qed.

(** X2. Once a name is registered, every later registration under a
    name that strips to the same string is answered 400 and stores
    nothing, whatever requests came in between and whatever password it
    gives; with a password of at least 6 characters the answer is
    "Username already exists". *)
Theorem register_rejects_taken_name (req : request) (e : env) (d d' : db)
  (body : json) (cks : list cookie) (u p : string) :
  submits req u p ->
  register req e d = (Ok (Response 201 body cks), d') ->
  forall calls req' e' u' p',
    submits req' u' p' ->
    strip u' = strip u ->
    (exists msg,
       register req' e' (snd (run calls d'))
       = (Ok (jsonify (error msg) 400), snd (run calls d')))
    /\ (6 <= len p' ->
        register req' e' (snd (run calls d'))
        = (Ok (jsonify (error "Username already exists") 400),
           snd (run calls d'))).
Proof.
  intros Hs Hr calls req' e' u' p' Hs' Hname.
  destruct (register_stores _ _ _ _ _ _ _ _ Hs Hr)
    as (Hlu & _ & user & F & _).
  assert (Hup : len (strip u) <= 50).
  { pose proof (register_created_bounds _ _ _ _ _ _ _ _ Hs Hr). lia. }
  pose proof (run_keeps_user calls d' _ _ F) as F'.
  rewrite (register_strings req' e' _ u' p' Hs'), Hname, F'.
  assert (E0 : String.eqb (strip u) "" = false).
  { apply String.eqb_neq. apply (nonempty_of_len _ 3); lia. }
  assert (E1 : (len (strip u) <? 3) || (50 <? len (strip u)) = false).
  { apply orb_false_iff. split; apply Z.ltb_ge; lia. }
  rewrite E0, E1. cbn [orb].
  split.
  - destruct (String.eqb p' ""); [eexists; reflexivity|].
    destruct (len p' <? 6); eexists; reflexivity.
  - intro Hp.
    assert (E2 : String.eqb p' "" = false).
    { apply String.eqb_neq. apply (nonempty_of_len _ 6); lia. }
    assert (E3 : (len p' <? 6) = false) by (apply Z.ltb_ge; lia).
    rewrite E2, E3. reflexivity.
Qed.

End Registration.

(* ================================================================== *)
(** ** The accounts stay consistent *)

Section AccountsInvariant.

Context {P : Platform}.

Lemma users_ok_users (d d' : db) :
  db_users d' = db_users d -> users_ok d -> users_ok d'.
Proof. unfold users_ok. intros ->. trivial. Qed.

Lemma find_user_none (name : string) (d : db) :
  find_user name d = None -> ~ In name (map u_username (db_users d)).
Proof.
  unfold find_user. intros F Hin.
  apply in_map_iff in Hin as (v & Hv & Hin).
  apply (find_none _ _ F) in Hin. apply String.eqb_neq in Hin. congruence.
Qed.

Lemma insert_user_fresh (u : user) (d d' : db) :
  insert_user u d = Ok d' -> ~ In (u_id u) (map u_id (db_users d)).
Proof.
  unfold insert_user.
  destruct (existsb _ (db_users d)) eqn:E; [discriminate|].
  intros _ Hin. apply in_map_iff in Hin as (v & Hv & Hin).
  assert (existsb (fun v => String.eqb (u_id v) (u_id u)) (db_users d) = true).
  { apply existsb_exists. exists v. split; [exact Hin|].
    apply String.eqb_eq. exact Hv. }
  congruence.
Qed.

Lemma register_step (req : request) (e : env) (d : db) :
  snd (register req e d) = d
  \/ exists raw p,
       3 <= len (strip raw) <= 50
       /\ 6 <= len p
       /\ find_user (strip raw) d = None
       /\ insert_user {| u_id := new_oid e;
                         u_username := strip raw;
                         u_password :=
                           {| ph_salt := gensalt e;
                              ph_hashval := hash_internal (gensalt e) p |};
                         u_created_at := utcnow e |} d
          = Ok (snd (register req e d)).
Proof.
  unfold register, try_except.
  destruct (method req); try (left; reflexivity).
  destruct (register_post req e d) as [[r d']|] eqn:R; [|left; reflexivity].
  destruct (register_post_other _ _ _ _ _ R) as [->|[body ->]];
    [left; reflexivity|].
  apply register_post_created in R as (raw & p & _ & _ & Hl & Hp & F & I).
  right. exists raw, p. auto.
Qed.

Lemma register_preserves_users_ok (req : request) (e : env) (d : db) :
  users_ok d -> users_ok (snd (register req e d)).
Proof.
  intros (Hn & Hi & Ha).
  destruct (register_step req e d) as [->|(raw & p & Hl & Hp & F & I)];
    [repeat split; assumption|].
  pose proof (insert_user_fresh _ _ _ I) as Hfresh.
  apply insert_user_ok in I as [Hu _].
  unfold users_ok. rewrite Hu, !map_app. cbn [map u_username u_id].
  split; [|split].
  - apply (Permutation_NoDup (Permutation_cons_append _ _)).
    constructor; [apply find_user_none; exact F | exact Hn].
  - apply (Permutation_NoDup (Permutation_cons_append _ _)).
    constructor; [exact Hfresh | exact Hi].
  - apply Forall_app. split; [exact Ha|].
    constructor; [|constructor]. cbn [u_username u_password ph_hashval ph_salt].
    split; [exact Hl|]. split; [apply strip_trimmed|].
    exists p. split; [exact Hp | reflexivity].
Qed.

Lemma serve_preserves_users_ok (r : route) (req : request) (e : env)
  (d : db) :
  users_ok d -> users_ok (snd (serve r req e d)).
Proof.
  intro H. unfold serve.
  destruct (allowed r (method req)); [|exact H].
  destruct r; cbn [endpoint].
  - apply register_preserves_users_ok. exact H.
  - rewrite login_db. exact H.
  - destruct (token_required_cases dashboard req e d) as [->|[uid ->]];
      exact H.
  - destruct (token_required_cases notes req e d) as [->|[uid ->]];
      [exact H|].
    exact (users_ok_users d _ (notes_users uid req e d) H).
  - destruct (token_required_cases
                (fun current_user_id => note_detail current_user_id note_id)
                req e d) as [->|[uid ->]]; [exact H|].
    exact (users_ok_users d _ (note_detail_users uid _ req e d) H).
Qed.

(** X3. Whatever requests the service handles, in any order: no two
    accounts share a name or an [_id], every stored name is stripped and
    has 3 to 50 characters, and every stored digest is that of a password
    of at least 6 characters.  When every [_id] drawn for an insert is an
    ObjectId, the notes keep distinct canonical ids as well. *)
Theorem run_keeps_store_consistent (calls : list (route * request * env))
  (d : db) :
  users_ok d ->
  users_ok (snd (run calls d))
  /\ (wf_db d ->
      Forall (fun c => is_oid (new_oid (snd c)) = true) calls ->
      wf_db (snd (run calls d))).
Proof.
  intro Hu. split; [|intros Hwf Hall; apply run_preserves_wf; assumption].
  revert d Hu. induction calls as [|[[r req] e] rest IH]; intros d Hu;
    [exact Hu|].
  simpl. pose proof (serve_preserves_users_ok r req e d Hu) as Hstep.
  destruct (serve r req e d) as [out d1]. cbn [snd] in Hstep.
  specialize (IH d1 Hstep). destruct (run rest d1) as [outs d2]. exact IH.
Qed.

End AccountsInvariant.

Lemma empty_db_users_ok {P : Platform} : users_ok empty_db.
Proof. repeat split; constructor. Qed.

Lemma run_keeps_store_consistent_witness :
  @users_ok sample
    (snd (@run sample
            [(Register,
              with_json (creds " carol " (JStr "opensesame")) (plain POST),
              at_time 6000);
             (Register,
              with_json (creds "carol" (JStr "another-one")) (plain POST),
              at_time 6001)]
            empty_db)).
Proof.
  exact (proj1 (@run_keeps_store_consistent sample _ empty_db
                  (@empty_db_users_ok sample))).
Defined.

(* ================================================================== *)
(** ** How credentials are read *)

(** X4. Login and registration read the name and the password the same
    way from a form and from a JSON body, and see the name only through
    its stripped form: two requests that give the same password and names
    that strip to the same string get the same answer and leave the same
    database. *)
Theorem credentials_read_alike {P : Platform} (req req' : request) (e : env)
  (d : db) (u u' p : string) :
  submits req u p ->
  submits req' u' p ->
  strip u' = strip u ->
  login req' e d = login req e d /\ register req' e d = register req e d.
Proof.
  intros Hs Hs' Hname.
  rewrite (login_strings req e d u p Hs), (login_strings req' e d u' p Hs').
  rewrite (register_strings req e d u p Hs).
  rewrite (register_strings req' e d u' p Hs').
  rewrite Hname. split; reflexivity.
Qed.

Lemma credentials_read_alike_witness :
  @login sample
    (form_request [("username", "  alice"); ("password", "secret1")])
    (at_time 7000) sample_db
  = @login sample (with_json (creds "alice" (JStr "secret1")) (plain POST))
      (at_time 7000) sample_db.
Proof.
  refine (proj1 (@credentials_read_alike sample _ _ (at_time 7000) sample_db
                   "alice" "  alice" "secret1" (submits_creds _ _) _ _)).
  - split; [reflexivity|]. eexists. repeat split; reflexivity.
  - reflexivity.
Defined.

(* ================================================================== *)
(** ** The owner's own requests *)

Lemma delete_first_absent (i : ObjectId) (l : list note) :
  ~ In i (map n_id l) ->
  filter (fun m => negb (String.eqb (n_id m) i)) l = l.
Proof.
  induction l as [|n rest IH]; simpl; [reflexivity|].
  intro H. destruct (String.eqb (n_id n) i) eqn:E.
  - apply String.eqb_eq in E. tauto.
  - simpl. rewrite IH by tauto. reflexivity.
Qed.

Lemma delete_first_filter (i : ObjectId) (l : list note) :
  NoDup (map n_id l) ->
  delete_first i l = filter (fun m => negb (String.eqb (n_id m) i)) l.
Proof.
  induction l as [|n rest IH]; simpl; [reflexivity|].
  intro Hnd. inversion Hnd as [|? ? Hn Hrest]; subst.
  destruct (String.eqb (n_id n) i) eqn:E; simpl.
  - apply String.eqb_eq in E. subst i.
    rewrite delete_first_absent by exact Hn. reflexivity.
  - rewrite IH by exact Hrest. reflexivity.
Qed.

Lemma find_note_owner (d : db) (n : note) :
  NoDup (map n_id (db_notes d)) -> In n (db_notes d) ->
  find_note (n_id n) (n_user_id n) d = Some n.
Proof.
  intros Hnd Hin.
  destruct (find_note (n_id n) (n_user_id n) d) as [m|] eqn:F.
  - apply find_note_some in F as (Hm & Hid & _).
    f_equal. eapply unique_by_id; eauto.
  - exfalso. unfold find_note in F.
    apply (find_none _ _ F) in Hin.
    rewrite !String.eqb_refl in Hin. discriminate.
Qed.

Section Owner.

Context {P : Platform}.

Variables (req : request) (e : env) (d : db) (n : note) (b : string).

Hypothesis Hwf : wf_db d.
Hypothesis Hn : In n (db_notes d).
Hypothesis Hsession : authenticated_as req e (JStr b).
Hypothesis Hb : ObjectId_of_str b = Some (n_user_id n).

Lemma owner_detail :
  serve (ApiNote (n_id n)) req e d
  = if allowed (ApiNote (n_id n)) (method req) then
      match method req with
      | PUT =>
          match build_update (get_json req) (utcnow e) with
          | Raise x => (Raise x, d)
          | Ok u => (Ok (jsonify (message "Note updated") 200),
                     update_one (n_id n) u d)
          end
      | DELETE => (Ok (jsonify (message "Note deleted") 200),
                   delete_one (n_id n) d)
      | _ => (Raise TypeError, d)
      end
    else (Ok (ErrorPage 405), d).
Proof.
  unfold serve.
  destruct (allowed (ApiNote (n_id n)) (method req)); [|reflexivity].
  cbn [endpoint].
  rewrite (token_required_resolves _ req e d (JStr b) Hsession).
  unfold note_detail, ObjectId_of. destruct Hwf as [Hnd Hall].
  rewrite Forall_forall in Hall.
  rewrite (ObjectId_of_str_canonical _ (Hall n Hn)), Hb.
  rewrite (find_note_owner d n Hnd Hn). reflexivity.
Qed.

End Owner.

(** X5. A DELETE by the owner of a stored note is answered 200 "Note
    deleted"; afterwards the collection is the old one without the notes
    of that id, so the note is gone and every other note is still there,
    the users are untouched, and the same request sent again is answered
    404 "Note not found". *)
Theorem delete_removes_exactly_that_note {P : Platform} (req : request)
  (e e' : env) (d : db) (n : note) (b : string) :
  wf_db d ->
  In n (db_notes d) ->
  authenticated_as req e (JStr b) ->
  authenticated_as req e' (JStr b) ->
  ObjectId_of_str b = Some (n_user_id n) ->
  method req = DELETE ->
  exists d',
    serve (ApiNote (n_id n)) req e d
    = (Ok (jsonify (message "Note deleted") 200), d')
    /\ db_users d' = db_users d
    /\ db_notes d'
       = filter (fun m => negb (String.eqb (n_id m) (n_id n))) (db_notes d)
    /\ ~ In n (db_notes d')
    /\ (forall m, In m (db_notes d) -> m <> n -> In m (db_notes d'))
    /\ serve (ApiNote (n_id n)) req e' d'
       = (Ok (jsonify (error "Note not found") 404), d').
Proof.
  intros Hwf Hn Hs Hs' Hb Hm.
  exists (delete_one (n_id n) d).
  assert (Hf : db_notes (delete_one (n_id n) d)
               = filter (fun m => negb (String.eqb (n_id m) (n_id n)))
                   (db_notes d)).
  { cbn [delete_one db_notes]. apply delete_first_filter. apply Hwf. }
  split; [|split; [reflexivity|split; [exact Hf|split; [|split]]]].
  - rewrite (owner_detail req e d n b Hwf Hn Hs Hb), Hm. reflexivity.
  - rewrite Hf. intro H. apply filter_In in H as [_ H].
    rewrite String.eqb_refl in H. discriminate.
  - intros m Hin Hne. rewrite Hf. apply filter_In. split; [exact Hin|].
    apply negb_true_iff. apply String.eqb_neq. intro Hid.
    apply Hne. destruct Hwf as [Hnd _]. eapply unique_by_id; eauto.
  - unfold serve. rewrite Hm. cbn [allowed endpoint].
    rewrite (token_required_resolves _ req e' _ (JStr b) Hs').
    unfold note_detail, ObjectId_of. destruct Hwf as [Hnd Hall].
    rewrite Forall_forall in Hall.
    rewrite (ObjectId_of_str_canonical _ (Hall n Hn)), Hb.
    rewrite find_note_absent; [reflexivity|].
    rewrite Hf. intro H. apply in_map_iff in H as (m & Hid & Hin).
    apply filter_In in Hin as [_ Hin].
    apply negb_true_iff, String.eqb_neq in Hin. contradiction.
Qed.

(* ================================================================== *)
(** ** Creating and listing *)

(** X7. A POST to /api/notes of a caller with a well-formed id, whose
    body is a non-empty object with a string (or no) title and a string
    (or no) content, is answered 201 exactly when the stripped content is
    not empty and has at most 10000 characters, the stripped title has at
    most 200, and the [_id] drawn is not taken.  Then the note stored
    belongs to the caller; its [created_at] is the first and its
    [updated_at] the second reading of the clock by the request; in every
    other case nothing is stored. *)
Theorem create_accepts_exactly (uid : json) (req : request) (e : env)
  (d : db) (t c : string) (owner : ObjectId) :
  method req = POST ->
  truthy (get_json req) = true ->
  py_get (get_json req) "title" (JStr "") = Ok (JStr t) ->
  py_get (get_json req) "content" (JStr "") = Ok (JStr c) ->
  ObjectId_of uid = Ok owner ->
  ((exists body cks d',
      notes uid req e d = (Ok (Response 201 body cks), d'))
   <-> (strip c <> ""
        /\ len (strip c) <= 10000
        /\ len (strip t) <= 200
        /\ ~ In (new_oid e) (map n_id (db_notes d))))
  /\ (forall status body cks d',
        notes uid req e d = (Ok (Response status body cks), d') ->
        (status = 201
         /\ db_users d' = db_users d
         /\ db_notes d'
            = (db_notes d
               ++ [{| n_id := new_oid e;
                      n_user_id := owner;
                      n_title := JStr (strip t);
                      n_content := JStr (strip c);
                      n_created_at := utcnow e;
                      n_updated_at := utcnow_again e |}])%list)
        \/ (status <> 201 /\ d' = d)).
Proof.
  intros Hm Htr Ht Hc Ho. unfold notes, try_except. rewrite Hm.
  rewrite (notes_post_strings uid req e d t c owner Htr Ht Hc Ho).
  assert (Hex : existsb (fun m => String.eqb (n_id m) (new_oid e)) (db_notes d)
                = true <-> In (new_oid e) (map n_id (db_notes d))).
  { rewrite existsb_exists, in_map_iff. split.
    - intros (v & Hin & Hv). apply String.eqb_eq in Hv. eauto.
    - intros (v & Hv & Hin). exists v. split; [exact Hin|].
      apply String.eqb_eq. exact Hv. }
  destruct (String.eqb (strip c) "") eqn:E0.
  { apply String.eqb_eq in E0. split; [split|].
    - intros (b & k & d' & H). discriminate.
    - intros (H & _). contradiction.
    - intros s b k d' H. inversion H; subst. right. split; [lia|reflexivity]. }
  apply String.eqb_neq in E0.
  destruct (10000 <? len (strip c)) eqn:E1.
  { apply Z.ltb_lt in E1. split; [split|].
    - intros (b & k & d' & H). discriminate.
    - intros (_ & H & _). lia.
    - intros s b k d' H. inversion H; subst. right. split; [lia|reflexivity]. }
  apply Z.ltb_ge in E1.
  destruct (200 <? len (strip t)) eqn:E2.
  { apply Z.ltb_lt in E2. split; [split|].
    - intros (b & k & d' & H). discriminate.
    - intros (_ & _ & H & _). lia.
    - intros s b k d' H. inversion H; subst. right. split; [lia|reflexivity]. }
  apply Z.ltb_ge in E2.
  destruct (existsb _ (db_notes d)) eqn:X.
  { split; [split|].
    - intros (b & k & d' & H). discriminate.
    - intros (_ & _ & _ & H). exfalso. apply H, Hex. reflexivity.
    - intros s b k d' H. inversion H; subst. right. split; [lia|reflexivity]. }
  split; [split|].
  - intros _. repeat split; auto. intro H. apply Hex in H. congruence.
  - intros _. eexists _, _, _. reflexivity.
  - intros s b k d' H. inversion H; subst. left. repeat split.
Qed.

Lemma create_accepts_exactly_witness :
  exists body cks d',
    notes (JStr oid_a)
      (with_json (JObj [("content", JStr " buy milk ")]) (plain POST))
      (at_time 5000) sample_db
    = (Ok (Response 201 body cks), d').
Proof.
  apply (proj1 (create_accepts_exactly (JStr oid_a)
                  (with_json (JObj [("content", JStr " buy milk ")])
                     (plain POST))
                  (at_time 5000) sample_db "" " buy milk " oid_a
                  eq_refl eq_refl eq_refl eq_refl eq_refl)).
  repeat split; try discriminate; try (vm_compute; discriminate).
  vm_compute. intuition discriminate.
Defined.

Lemma sort_desc_newest_last (l : list note) (n : note) :
  (forall m, In m l -> n_updated_at m <= n_updated_at n) ->
  sort_desc (l ++ [n]) = n :: sort_desc l.
Proof.
  induction l as [|a rest IH]; simpl; intro H; [reflexivity|].
  rewrite IH by (intros m Hm; apply H; right; exact Hm).
  simpl.
  assert (E : (n_updated_at n <? n_updated_at a) = false).
  { apply Z.ltb_ge. apply H. left. reflexivity. }
  rewrite E. reflexivity.
Qed.

(** X8. When a create is answered 201 and every note the caller had
    carries an [updated_at] earlier than the one the new note is given,
    the first page of the caller's next listing, whatever its size from 1
    up, opens with the new note. *)
Theorem created_note_is_listed_first (owner : ObjectId) (req : request)
  (e : env) (d d' : db) (body : json) (cks : list cookie)
  (req' : request) (e' : env) :
  is_oid owner = true ->
  notes (JStr owner) req e d = (Ok (Response 201 body cks), d') ->
  (forall m, In m (db_notes d) -> n_user_id m = owner ->
             n_updated_at m < utcnow_again e) ->
  method req' = GET ->
  args_get (arg_page req') 1 = 1 ->
  1 <= args_get (arg_per_page req') 20 ->
  exists n rest,
    notes (JStr owner) req' e' d'
    = (Ok (jsonify (JArr (note_json n :: rest)) 200), d')
    /\ n_id n = new_oid e
    /\ n_user_id n = owner
    /\ n_updated_at n = utcnow_again e
    /\ body = JObj [("message", JStr "Note created");
                    ("note_id", JStr (n_id n))].
Proof.
  intros Hoid H Hnew Hget Hpage Hsize.
  assert (Hpost : notes_post (JStr owner) req e d
                  = Ok (Response 201 body cks, d')).
  { unfold notes, try_except in H. destruct (method req).
    1, 3, 4: destruct (notes_get (JStr owner) req d) as [[r d1]|] eqn:G;
      [|discriminate]; unfold notes_get, bind in G;
      destruct (ObjectId_of (JStr owner)); [|discriminate];
      destruct (notes_page _ _ _ d); [|discriminate];
      inversion G; subst; discriminate.
    destruct (notes_post (JStr owner) req e d) as [[r d1]|]; [|discriminate].
    inversion H; subst. reflexivity. }
  pose proof Hpost as Hbody.
  apply notes_post_created in Hpost
    as (rt & rc & o & Ht & Hc & _ & _ & _ & Ho & I).
  rewrite (ObjectId_of_canonical owner Hoid) in Ho. inversion Ho; subst o.
  assert (Hb : body = JObj [("message", JStr "Note created");
                            ("note_id", JStr (new_oid e))]).
  { unfold notes_post, bind in Hbody. unfold jsonify in Hbody.
    repeat (break_match Hbody; try discriminate).
    inversion Hbody. reflexivity. }
  apply insert_note_ok in I as (_ & _ & Hn).
  set (n := {| n_id := new_oid e; n_user_id := owner;
               n_title := JStr (strip rt); n_content := JStr (strip rc);
               n_created_at := utcnow e;
               n_updated_at := utcnow_again e |}) in *.
  assert (Hsorted : sort_desc (owned_by owner (db_notes d'))
                    = n :: sort_desc (owned_by owner (db_notes d))).
  { rewrite Hn. unfold owned_by. rewrite filter_app. cbn [filter].
    change (n_user_id n) with owner. rewrite String.eqb_refl.
    apply sort_desc_newest_last. intros m Hm.
    apply filter_In in Hm as [Hin Hown]. apply String.eqb_eq in Hown.
    apply Z.lt_le_incl. exact (Hnew m Hin Hown). }
  set (size := Z.min (args_get (arg_per_page req') 20) 100).
  assert (Hs1 : 1 <= size) by (unfold size; lia).
  exists n, (map note_json
               (firstn (Nat.pred (Z.to_nat size))
                  (sort_desc (owned_by owner (db_notes d))))).
  split; [|repeat split; exact Hb].
  unfold notes, notes_get, try_except. rewrite Hget.
  rewrite (ObjectId_of_canonical owner Hoid). cbn [bind].
  unfold notes_page, cursor_skip, cursor_limit, bind.
  rewrite Hpage, Hsorted. cbn [Z.sub Z.mul Z.ltb Z.compare Z.to_nat skipn].
  fold size.
  assert (Hz : (size =? 0) = false) by (apply Z.eqb_neq; lia).
  rewrite Hz, Z.abs_eq by lia.
  destruct (Z.to_nat size) as [|k] eqn:K; [lia|].
  cbn [Nat.pred firstn map]. reflexivity.
Qed.

(* ================================================================== *)
(** ** What a request can and cannot do *)

Section Reach.

Context {P : Platform}.

Lemma token_required_outcomes (f : json -> view) (req : request) (e : env)
  (d : db) :
  token_required f req e d = (Ok (Redirect "login"), d)
  \/ (exists x, token_required f req e d = (Raise x, d))
  \/ exists uid, token_required f req e d = f uid req e d.
Proof.
  unfold token_required, redirect_login.
  destruct (cookie_token req) as [c|]; [|left; reflexivity].
  destruct (negb (cookie_truthy c)); [left; reflexivity|].
  destruct (jwt_decode c SECRET_KEY (utcnow e)) as [data| | |x];
    try (left; reflexivity).
  - unfold py_getitem. destruct (assoc "user_id" data) as [uid|].
    + right. right. exists uid. reflexivity.
    + right. left. exists KeyError. reflexivity.
  - right. left. exists x. reflexivity.
Qed.

Lemma notes_get_only_reads (uid : json) (req : request) (e : env) (d : db) :
  method req = GET -> snd (notes uid req e d) = d.
Proof.
  intro Hm. unfold notes, try_except. rewrite Hm.
  destruct (notes_get uid req d) as [[r d']|] eqn:G; [|reflexivity].
  apply notes_get_db in G. subst. reflexivity.
Qed.

(** X9. A GET changes nothing: on every route, with or without a
    session, whatever the query arguments, the database after the request
    is the database before it. *)
Theorem get_changes_nothing (r : route) (req : request) (e : env) (d : db) :
  method req = GET -> snd (serve r req e d) = d.
Proof.
  intro Hm. unfold serve. rewrite Hm.
  destruct r; cbn [allowed endpoint]; try reflexivity.
  - unfold register. rewrite Hm. reflexivity.
  - apply login_db.
  - destruct (token_required_cases dashboard req e d) as [->|[uid ->]];
      reflexivity.
  - destruct (token_required_cases notes req e d) as [->|[uid ->]];
      [reflexivity|].
    apply notes_get_only_reads. exact Hm.
Qed.

(** X10. Without a token that decodes, no request creates, changes or
    deletes a note, and the function under the guard of the three guarded
    routes is not run: a method the route does not take is answered 405;
    otherwise the answer is the redirect to the login page, or the
    exception that [jwt.decode] raised when it is none of PyJWT's.  The
    answer is the redirect whenever the cookie is missing or [jwt.decode]
    refuses it with [ExpiredSignatureError] or [InvalidTokenError]. *)
Theorem no_session_no_note_change (r : route) (req : request) (e : env)
  (d : db) :
  (forall t, cookie_token req = Some (Compact t) ->
             jwt_decode (Compact t) SECRET_KEY (utcnow e)
             <> Decoded (jwt_claims t)) ->
  db_notes (snd (serve r req e d)) = db_notes d
  /\ (forall h, handler r = Some h ->
        (allowed r (method req) = false
         /\ serve r req e d = (Ok (ErrorPage 405), d))
        \/ (allowed r (method req) = true
            /\ (serve r req e d = (Ok (Redirect "login"), d)
                \/ exists c x,
                     cookie_token req = Some c
                     /\ jwt_decode c SECRET_KEY (utcnow e) = OtherError x
                     /\ serve r req e d = (Raise x, d))))
  /\ (forall h, handler r = Some h ->
        allowed r (method req) = true ->
        (cookie_token req = None
         \/ exists c,
              cookie_token req = Some c
              /\ (jwt_decode c SECRET_KEY (utcnow e) = ExpiredSignatureError
                  \/ jwt_decode c SECRET_KEY (utcnow e) = InvalidTokenError)) ->
        serve r req e d = (Ok (Redirect "login"), d)).
Proof.
  intro H.
  assert (Hg : forall h, handler r = Some h ->
                 allowed r (method req) = true ->
                 serve r req e d = redirect_login d
                 \/ exists c x,
                      cookie_token req = Some c
                      /\ jwt_decode c SECRET_KEY (utcnow e) = OtherError x
                      /\ serve r req e d = (Raise x, d)).
  { intros h Hh Ha. unfold serve. rewrite Ha, (handler_endpoint r h Hh).
    exact (token_required_rejects h req e d H). }
  split; [|split].
  - destruct (handler r) as [h|] eqn:Hh.
    + destruct (allowed r (method req)) eqn:Ha.
      * destruct (Hg h eq_refl eq_refl) as [-> | (c & x & _ & _ & ->)];
          reflexivity.
      * unfold serve. rewrite Ha. reflexivity.
    + unfold serve. destruct (allowed r (method req)); [|reflexivity].
      destruct r; try discriminate Hh; cbn [endpoint].
      * apply register_notes.
      * rewrite login_db. reflexivity.
  - intros h Hh. destruct (allowed r (method req)) eqn:Ha.
    + right. split; [reflexivity|]. exact (Hg h Hh eq_refl).
    + left. split; [reflexivity|]. unfold serve. rewrite Ha. reflexivity.
  - intros h Hh Ha Hc. unfold serve.
    rewrite Ha, (handler_endpoint r h Hh).
    destruct Hc as [Hc | (c & Hc & Hd)].
    + unfold token_required. rewrite Hc. reflexivity.
    + exact (token_required_refused h req e d c Hc Hd).
Qed.

(** X11. A valid signature is not enough: when the claims of a token
    that decodes hold no [user_id], the [KeyError] of [data['user_id']]
    leaves the decorator, whatever function is decorated; the function is
    not run and nothing is written. *)
Theorem token_without_user_id_raises (f : json -> view) (req : request)
  (e : env) (d : db) (t : jwt) :
  cookie_token req = Some (Compact t) ->
  jwt_decode (Compact t) SECRET_KEY (utcnow e) = Decoded (jwt_claims t) ->
  assoc "user_id" (jwt_claims t) = None ->
  token_required f req e d = (Raise KeyError, d)
  /\ forall r h, handler r = Some h -> allowed r (method req) = true ->
       app_run r req e d
       = (if production then ErrorPage 500 else Traceback KeyError, d).
Proof.
  intros Hc Hd Hu.
  assert (Hany : forall g, token_required g req e d = (Raise KeyError, d)).
  { intro g. unfold token_required. rewrite Hc. cbn [cookie_truthy negb].
    rewrite Hd. unfold py_getitem. rewrite Hu. reflexivity. }
  split; [apply Hany|].
  intros r h Hh Ha. unfold app_run, serve. rewrite Ha.
  rewrite (handler_endpoint r h Hh), Hany. reflexivity.
Qed.

End Reach.

Lemma get_changes_nothing_witness :
  snd (@serve sample ApiNotes
         (with_page (Some 0) (as_user alice 3000 (plain GET)))
         (at_time 5000) sample_db)
  = sample_db.
Proof.
  exact (@get_changes_nothing sample ApiNotes
           (with_page (Some 0) (as_user alice 3000 (plain GET)))
           (at_time 5000) sample_db eq_refl).
Defined.

Lemma no_session_no_note_change_witness :
  @serve sample (ApiNote oid_n) (plain DELETE) (at_time 5000) sample_db
  = (Ok (Redirect "login"), sample_db).
Proof.
  refine (proj2 (proj2 (@no_session_no_note_change sample (ApiNote oid_n)
                          (plain DELETE) (at_time 5000) sample_db _))
            _ eq_refl eq_refl (or_introl eq_refl)).
  intros t Ht. discriminate Ht.
Defined.

Lemma token_without_user_id_raises_witness :
  @token_required sample notes
    (with_cookie
       (Some (Compact (@jwt_encode sample [("exp", JNum 9000)]
                         "dev-key-only")))
       (plain GET)) (at_time 5000) sample_db
  = (Raise KeyError, sample_db).
Proof.
  exact (proj1 (@token_without_user_id_raises sample notes
                  (with_cookie
                     (Some (Compact (@jwt_encode sample [("exp", JNum 9000)]
                                       "dev-key-only")))
                     (plain GET))
                  (at_time 5000) sample_db
                  (@jwt_encode sample [("exp", JNum 9000)] "dev-key-only")
                  eq_refl eq_refl eq_refl)).
Defined.

(* ================================================================== *)
(** ** The answers of each route *)

(** Case analysis on every test of a goal, innermost first. *)
Ltac split_all_cases :=
  repeat (match goal with
          | |- context [match ?x with _ => _ end] =>
              lazymatch x with
              | context [match _ with _ => _ end] => fail
              | _ => destruct x
              end
          end; simpl).

Section Answers.

Context {P : Platform}.

Lemma register_answers (req : request) (e : env) (d d' : db) (s : Z)
  (body : json) (cks : list cookie) :
  register req e d = (Ok (Response s body cks), d') ->
  In s [201; 400; 500] /\ cks = [].
Proof.
  unfold register, register_post. unfold_views.
  split_all_cases; intro H; inversion H; subst; simpl; auto 6.
Qed.

Lemma login_answers (req : request) (e : env) (d d' : db) (s : Z)
  (body : json) (cks : list cookie) :
  login req e d = (Ok (Response s body cks), d') ->
  In s [200; 400; 401; 500]
  /\ (cks = []
      \/ (s = 200
          /\ exists u, In u (db_users d)
                       /\ cks = [session_cookie
                                   (issue_token u (utcnow e))])).
Proof.
  unfold login, login_post. unfold_views.
  destruct (method req); try discriminate.
  destruct (py_get (credentials req) "username" (JStr "")) as [raw|];
    [|intro H; inversion H; subst; simpl; auto 6].
  destruct (py_strip raw) as [name|];
    [|intro H; inversion H; subst; simpl; auto 6].
  destruct (py_get (credentials req) "password" (JStr "")) as [pw|];
    [|intro H; inversion H; subst; simpl; auto 6].
  destruct (String.eqb name "" || negb (truthy pw));
    [intro H; inversion H; subst; simpl; auto 6|].
  destruct (find_user name d) as [u|] eqn:F;
    [|intro H; inversion H; subst; simpl; auto 6].
  destruct (check_password_hash (u_password u) pw) as [[|]|];
    intro H; inversion H; subst; simpl; auto 6.
  split; [auto|]. right. split; [reflexivity|]. exists u.
  split; [|reflexivity]. unfold find_user in F. apply find_some in F. tauto.
Qed.

Lemma notes_answers (uid : json) (req : request) (e : env) (d d' : db)
  (s : Z) (body : json) (cks : list cookie) :
  notes uid req e d = (Ok (Response s body cks), d') ->
  In s [200; 201; 400; 500] /\ cks = [].
Proof.
  unfold notes, notes_post, notes_get. unfold_views.
  split_all_cases; intro H; inversion H; subst; simpl; auto 6.
Qed.

Lemma note_detail_answers (uid : json) (note_id : string) (req : request)
  (e : env) (d d' : db) (s : Z) (body : json) (cks : list cookie) :
  note_detail uid note_id req e d = (Ok (Response s body cks), d') ->
  In s [200; 400; 404] /\ cks = [].
Proof.
  unfold note_detail. unfold_views.
  split_all_cases; intro H; inversion H; subst; simpl; auto 6.
Qed.

(** X12. The JSON responses of each route carry only the statuses of its
    row: 201, 400, 500 for /register; 200, 400, 401, 500 for /login; 200,
    201, 400, 500 for /api/notes; 200, 400, 404 for /api/notes/<id>; none
    for /dashboard.  No response sets a cookie except the 200 of /login,
    which sets exactly the session cookie of a stored user, issued at the
    instant of the request. *)
Theorem answers_by_route (r : route) (req : request) (e : env) (d d' : db)
  (s : Z) (body : json) (cks : list cookie) :
  serve r req e d = (Ok (Response s body cks), d') ->
  In s (statuses r)
  /\ (cks = []
      \/ (r = Login /\ s = 200
          /\ exists u, In u (db_users d)
                       /\ cks = [session_cookie
                                   (issue_token u (utcnow e))])).
Proof.
  unfold serve. destruct (allowed r (method req)); [|discriminate].
  destruct r; cbn [endpoint statuses].
  - intro H. apply register_answers in H as [Hs ->]. auto.
  - intro H. apply login_answers in H as [Hs [->|[-> Hu]]]; auto.
  - destruct (token_required_outcomes dashboard req e d)
      as [->|[[x ->]|[uid ->]]]; discriminate.
  - destruct (token_required_outcomes notes req e d)
      as [->|[[x ->]|[uid ->]]]; try discriminate.
    intro H. apply notes_answers in H as [Hs ->]. auto.
  - destruct (token_required_outcomes
                (fun current_user_id => note_detail current_user_id note_id)
                req e d) as [->|[[x ->]|[uid ->]]]; try discriminate.
    intro H. apply note_detail_answers in H as [Hs ->]. auto.
Qed.

End Answers.

Lemma answers_by_route_witness :
  In 401 (statuses Login).
Proof.
  exact (proj1 (@answers_by_route sample Login
                  (with_json (creds "alice" (JStr "wrongpass")) (plain POST))
                  (at_time 7000) sample_db sample_db 401
                  (error "Invalid credentials") [] eq_refl)).
Defined.

(* ================================================================== *)
(** ** The landing page, logout and the secret *)

Section Landing.

Context {P : Platform}.

(** X13. The landing page and the guard.  [index] never raises and
    writes nothing; it answers with the redirect to the dashboard exactly
    when the cookie is not empty and [jwt.decode] returns its claims, and
    with the redirect to the login page otherwise.  Whenever the
    dashboard would answer with the redirect to the login page, so does
    [index]; and when [index] answers with it, the dashboard answers with
    it too, unless [jwt.decode] raised an exception that is none of
    PyJWT's, which the bare [except] of [index] swallows and the guard
    lets out.  When [index] sends a browser whose token names a user to
    the dashboard, the dashboard is rendered. *)
Theorem index_agrees_with_guard (req : request) (e : env) (d : db) :
  (index req e d = (Ok (Redirect "login"), d)
   \/ index req e d = (Ok (Redirect "dashboard"), d))
  /\ (index req e d = (Ok (Redirect "dashboard"), d)
      <-> exists c data,
            cookie_token req = Some c
            /\ cookie_truthy c = true
            /\ jwt_decode c SECRET_KEY (utcnow e) = Decoded data)
  /\ (endpoint Dashboard req e d = (Ok (Redirect "login"), d) ->
      index req e d = (Ok (Redirect "login"), d))
  /\ (index req e d = (Ok (Redirect "login"), d) ->
      endpoint Dashboard req e d = (Ok (Redirect "login"), d)
      \/ exists c x,
           cookie_token req = Some c
           /\ jwt_decode c SECRET_KEY (utcnow e) = OtherError x
           /\ endpoint Dashboard req e d = (Raise x, d))
  /\ (forall uid, authenticated_as req e uid ->
        index req e d = (Ok (Redirect "dashboard"), d)
        /\ endpoint Dashboard req e d = (Ok (Template "dashboard.html"), d)).
Proof.
  unfold index, authenticated_as. cbn [endpoint].
  unfold token_required, redirect_login, dashboard.
  destruct (cookie_token req) as [c|].
  2: { split; [left; reflexivity|]. split; [|split; [tauto|split; [tauto|]]].
       - split; [discriminate|]. intros (c & data & Hc & _). discriminate.
       - intros uid (t & Hc & _). discriminate. }
  destruct (cookie_truthy c) eqn:T; cbn [negb].
  2: { split; [left; reflexivity|]. split; [|split; [tauto|split; [tauto|]]].
       - split; [discriminate|].
         intros (c' & data & Hc & Ht & _). inversion Hc; subst. congruence.
       - intros uid (t & Hc & _). inversion Hc; subst. discriminate. }
  destruct (jwt_decode c SECRET_KEY (utcnow e)) as [data| | |x] eqn:D.
  - unfold py_getitem.
    split; [right; reflexivity|]. split; [|split; [|split]].
    + split; [|reflexivity]. intros _. exists c, data. auto.
    + destruct (assoc "user_id" data); discriminate.
    + discriminate.
    + intros uid (t & Hc & Hd & Hu). inversion Hc; subst c.
      rewrite Hd in D. inversion D; subst data. rewrite Hu. auto.
  - split; [left; reflexivity|]. split; [|split; [tauto|split; [tauto|]]].
    + split; [discriminate|].
      intros (c' & data & Hc & _ & Hd). inversion Hc; subst. congruence.
    + intros uid (t & Hc & Hd & _). inversion Hc; subst. congruence.
  - split; [left; reflexivity|]. split; [|split; [tauto|split; [tauto|]]].
    + split; [discriminate|].
      intros (c' & data & Hc & _ & Hd). inversion Hc; subst. congruence.
    + intros uid (t & Hc & Hd & _). inversion Hc; subst. congruence.
  - split; [left; reflexivity|]. split; [|split; [|split]].
    + split; [discriminate|].
      intros (c' & data & Hc & _ & Hd). inversion Hc; subst. congruence.
    + discriminate.
    + intros _. right. exists c, x. auto.
    + intros uid (t & Hc & Hd & _). inversion Hc; subst. congruence.
Qed.

(** X14. Logout answers with the redirect to the login page and empties
    the token cookie with an expiry at the epoch.  A next request that
    presents the cookie as set, or none at all, is sent to the login page
    by the landing page and by the guard, whatever function is decorated.
    The token itself is not touched: presented again while it is within
    its lifetime, it is accepted as before. *)
Theorem logout_ends_the_browser_session (req : request) (e : env) (d : db) :
  fst logout = Redirect "login"
  /\ ec_name (snd logout) = "token"
  /\ ec_expires (snd logout) = 0
  /\ (cookie_token req = Some (ec_value (snd logout))
      \/ cookie_token req = None ->
      index req e d = (Ok (Redirect "login"), d)
      /\ forall f, token_required f req e d = (Ok (Redirect "login"), d))
  /\ (forall u issued f,
        cookie_token req = Some (Compact (issue_token u issued)) ->
        utcnow e < issued + JWT_EXPIRATION_DELTA ->
        token_required f req e d = f (JStr (u_id u)) req e d).
Proof.
  split; [reflexivity|]. split; [reflexivity|]. split; [reflexivity|].
  split.
  - intro H. split.
    + unfold index. destruct H as [-> | ->]; reflexivity.
    + intro f. unfold token_required. destruct H as [-> | ->]; reflexivity.
  - intros u issued f Hc Hlt. apply token_required_resolves.
    exists (issue_token u issued). split; [exact Hc|].
    split; [apply issued_token_decodes; exact Hlt | reflexivity].
Qed.

End Landing.

(** X15. The secret at start-up.  The process starts with a non-empty
    key or not at all.  It stops with [ValueError] exactly when
    [SECRET_KEY] is unset or empty and [FLASK_ENV] is [production]; a key
    that is set is used as it is; the built-in key is used exactly when
    none is set and [FLASK_ENV] is anything but [production]. *)
Theorem configure_secret_key_cases (environ_secret flask_env : option string) :
  (forall k, configure_secret_key environ_secret flask_env = Ok k ->
             k <> ""
             /\ (environ_secret = Some k
                 \/ ((environ_secret = None \/ environ_secret = Some "")
                     /\ flask_env <> Some "production"
                     /\ k = "dev-key-only")))
  /\ (forall x, configure_secret_key environ_secret flask_env = Raise x ->
                x = ValueError
                /\ (environ_secret = None \/ environ_secret = Some "")
                /\ flask_env = Some "production")
  /\ (forall k, environ_secret = Some k -> k <> "" ->
                configure_secret_key environ_secret flask_env = Ok k)
  /\ (flask_env = Some "production" ->
      forall k, configure_secret_key environ_secret flask_env = Ok k ->
                environ_secret = Some k).
Proof.
  unfold configure_secret_key.
  destruct environ_secret as [s|];
    [destruct (String.eqb s "") eqn:E;
     [apply String.eqb_eq in E; subst s | apply String.eqb_neq in E]|];
    (destruct flask_env as [v|];
     [destruct (String.eqb v "production") eqn:V;
      [apply String.eqb_eq in V; subst v | apply String.eqb_neq in V]|]);
    (split; [|split; [|split]]); intros;
    repeat match goal with
           | H : Ok _ = Ok _ |- _ => inversion H; clear H; subst
           | H : Raise _ = Raise _ |- _ => inversion H; clear H; subst
           | H : Some _ = Some _ |- _ => inversion H; clear H; subst
           end;
    try discriminate; try contradiction; try reflexivity;
    repeat split; try discriminate; auto;
    try (right; repeat split; auto; congruence);
    try congruence.
Qed.

(* ================================================================== *)
(** ** Pages *)

(** X16. Consecutive pages tile the listing.  Let no two notes of the
    caller carry the same [updated_at], so that their order in a listing
    is settled.  For a page number of at least 1 and a page size between
    1 and 100, as the view passes it, such that the offset of the next
    page is one BSON can carry, the page and the next one are computed
    without error and the page holds at most [size] notes; what the listing holds from the start of this
    page on is this page followed by what it holds from the start of the
    next page on, so no note is skipped or shown twice between two
    consecutive pages; and a page that starts past the end is empty. *)
Theorem pages_tile_the_listing (owner : ObjectId) (page size : Z) (d : db) :
  NoDup (map n_updated_at (owned_by owner (db_notes d))) ->
  1 <= page ->
  1 <= size <= 100 ->
  page * size <= INT64_MAX ->
  exists this next,
    notes_page owner page size d = Ok this
    /\ notes_page owner (page + 1) size d = Ok next
    /\ Z.of_nat (List.length this) <= size
    /\ skipn (Z.to_nat ((page - 1) * size))
         (sort_desc (owned_by owner (db_notes d)))
       = (this ++ skipn (Z.to_nat (page * size))
                    (sort_desc (owned_by owner (db_notes d))))%list
    /\ next = firstn (Z.to_nat size)
                (skipn (Z.to_nat (page * size))
                   (sort_desc (owned_by owner (db_notes d))))
    /\ (Z.of_nat (List.length (sort_desc (owned_by owner (db_notes d))))
        <= (page - 1) * size -> this = []).
Proof.
  intros _ Hp Hs Hmax.
  set (sorted := sort_desc (owned_by owner (db_notes d))).
  unfold notes_page, cursor_skip, cursor_limit, bind. fold sorted.
  replace (page + 1 - 1) with page by lia.
  assert (K1 : ((page - 1) * size <? 0) = false) by (apply Z.ltb_ge; nia).
  assert (K2 : (page * size <? 0) = false) by (apply Z.ltb_ge; nia).
  assert (M1 : (INT64_MAX <? (page - 1) * size) = false)
    by (apply Z.ltb_ge; nia).
  assert (M2 : (INT64_MAX <? page * size) = false)
    by (apply Z.ltb_ge; exact Hmax).
  assert (Hz : (size =? 0) = false) by (apply Z.eqb_neq; lia).
  rewrite K1, K2, M1, M2, Hz, Z.abs_eq by lia.
  eexists _, _. split; [reflexivity|]. split; [reflexivity|].
  split; [|split; [|split]].
  - pose proof (firstn_le_length (Z.to_nat size)
                  (skipn (Z.to_nat ((page - 1) * size)) sorted)).
    lia.
  - rewrite <- (firstn_skipn (Z.to_nat size)
                  (skipn (Z.to_nat ((page - 1) * size)) sorted)) at 1.
    f_equal. rewrite skipn_skipn. f_equal.
    rewrite <- Z2Nat.inj_add by nia. f_equal. lia.
  - reflexivity.
  - intro Hend. rewrite skipn_all2 by lia. apply firstn_nil.
Qed.

Lemma pages_tile_the_listing_witness :
  exists this next,
    notes_page oid_a 1 1 sample_db = Ok this
    /\ notes_page oid_a 2 1 sample_db = Ok next
    /\ Z.of_nat (List.length this) <= 1.
Proof.
  destruct (pages_tile_the_listing oid_a 1 1 sample_db
              ltac:(repeat constructor; intros [])
              ltac:(lia) ltac:(lia) ltac:(vm_compute; discriminate))
    as (this & next & H1 & H2 & H3 & _).
  exists this, next. auto.
Defined.

(* ================================================================== *)
(** ** Owner and creation time are fixed *)

Section Fixed.

Context {P : Platform}.

(** X17. No request changes whose note a note is or when it was
    created: in a collection with distinct ids, a note found after a
    request under the id of a note stored before it has the same owner and
    the same [created_at]. *)
Theorem owner_and_creation_are_fixed (r : route) (req : request) (e : env)
  (d : db) (n n' : note) :
  wf_db d ->
  In n (db_notes d) ->
  In n' (db_notes (snd (serve r req e d))) ->
  n_id n' = n_id n ->
  n_user_id n' = n_user_id n /\ n_created_at n' = n_created_at n.
Proof.
  intros [Hnd Hall] Hn Hn' Hid.
  assert (Hsame : In n' (db_notes d) ->
                  n_user_id n' = n_user_id n
                  /\ n_created_at n' = n_created_at n).
  { intro H. rewrite (unique_by_id _ _ _ Hnd H Hn Hid). auto. }
  revert Hn'. unfold serve.
  destruct (allowed r (method req)); [|exact Hsame].
  destruct r; cbn [endpoint].
  - rewrite register_notes. exact Hsame.
  - rewrite login_db. exact Hsame.
  - destruct (token_required_cases dashboard req e d) as [->|[uid ->]];
      exact Hsame.
  - destruct (token_required_cases notes req e d) as [->|[uid ->]];
      [exact Hsame|].
    destruct (notes_effect uid req e d) as [->|(m & Hm & I)];
      [exact Hsame|].
    apply insert_note_ok in I as (Hfresh & _ & ->).
    intro H. apply in_app_or in H as [H|[<-|[]]]; [exact (Hsame H)|].
    exfalso. apply Hfresh. rewrite Hid. apply in_map. exact Hn.
  - destruct (token_required_cases
                (fun current_user_id => note_detail current_user_id note_id)
                req e d) as [->|[uid ->]]; [exact Hsame|].
    destruct (note_detail_effect uid note_id req e d)
      as [->|(i & o & m & _ & _ & _ & [(u & _ & _ & ->)|[_ ->]])];
      [exact Hsame| |]; cbn [snd update_one delete_one db_notes].
    + rewrite update_first_map by exact Hnd.
      intro H. apply in_map_iff in H as (k & Hk & Hin).
      destruct (String.eqb (n_id k) i).
      * subst n'. cbn [apply_set n_id n_user_id n_created_at] in *.
        rewrite (unique_by_id _ _ _ Hnd Hin Hn Hid). auto.
      * subst k. exact (Hsame Hin).
    + intro H. apply delete_first_subset in H. exact (Hsame H).
Qed.

End Fixed.

Lemma owner_and_creation_are_fixed_witness :
  n_user_id note_n_retitled = oid_a /\ n_created_at note_n_retitled = 2000.
Proof.
  refine (@owner_and_creation_are_fixed sample (ApiNote oid_n)
            (as_user alice 3000
               (with_json (JObj [("title", JStr "x")]) (plain PUT)))
            (at_time 9000) sample_db note_n note_n_retitled sample_db_wf
            (or_introl eq_refl) _ eq_refl).
  left. reflexivity.
Defined.

(* ================================================================== *)
(** ** Instances on the sample data *)

Lemma register_accepts_exactly_witness :
  exists body cks d',
    @register sample
      (with_json (creds "carol" (JStr "opensesame")) (plain POST))
      (at_time 6000) sample_db
    = (Ok (Response 201 body cks), d').
Proof.
  apply (proj2 (proj1 (@register_accepts_exactly sample
                         (with_json (creds "carol" (JStr "opensesame"))
                            (plain POST))
                         (at_time 6000) sample_db "carol" "opensesame"
                         (submits_creds _ _)))).
  repeat split; try (vm_compute; discriminate).
  vm_compute. intuition discriminate.
Defined.

Lemma register_rejects_taken_name_witness :
  fst (@register sample
         (with_json (creds " carol" (JStr "another-one")) (plain POST))
         (at_time 6001)
         (snd (@register sample
                 (with_json (creds "carol" (JStr "opensesame")) (plain POST))
                 (at_time 6000) sample_db)))
  = Ok (jsonify (error "Username already exists") 400).
Proof.
  destruct (@register_rejects_taken_name sample
              (with_json (creds "carol" (JStr "opensesame")) (plain POST))
              (at_time 6000) sample_db _ _ _ "carol" "opensesame"
              (submits_creds _ _) eq_refl []
              (with_json (creds " carol" (JStr "another-one")) (plain POST))
              (at_time 6001) " carol" "another-one"
              (submits_creds _ _) eq_refl) as [_ H].
  exact (f_equal fst (H ltac:(vm_compute; discriminate))).
Defined.

Lemma alice_session (m : http_method) (body : json) (now : Z) :
  now < 3000 + JWT_EXPIRATION_DELTA ->
  @authenticated_as sample (as_user alice 3000 (with_json body (plain m)))
    (at_time now) (JStr oid_a).
Proof.
  intro H. exists (@issue_token sample alice 3000).
  split; [reflexivity|]. split; [|reflexivity].
  apply (@issued_token_decodes sample). exact H.
Qed.

Lemma delete_removes_exactly_that_note_witness :
  exists d',
    @serve sample (ApiNote oid_n) (as_user alice 3000 (with_json JNull (plain DELETE)))
      (at_time 5000) sample_db
    = (Ok (jsonify (message "Note deleted") 200), d')
    /\ ~ In note_n (db_notes d')
    /\ @serve sample (ApiNote oid_n)
         (as_user alice 3000 (with_json JNull (plain DELETE)))
         (at_time 5001) d'
       = (Ok (jsonify (error "Note not found") 404), d').
Proof.
  destruct (@delete_removes_exactly_that_note sample
              (as_user alice 3000 (with_json JNull (plain DELETE)))
              (at_time 5000) (at_time 5001) sample_db note_n oid_a
              sample_db_wf (or_introl eq_refl)
              (alice_session DELETE JNull 5000 ltac:(vm_compute; reflexivity))
              (alice_session DELETE JNull 5001 ltac:(vm_compute; reflexivity))
              eq_refl eq_refl)
    as (d' & H1 & _ & _ & H2 & _ & H3).
  exists d'. auto.
Defined.

Lemma created_note_is_listed_first_witness :
  exists n rest,
    notes (JStr oid_a) (plain GET) (at_time 5001)
      (snd (notes (JStr oid_a)
              (with_json (JObj [("content", JStr "hi")]) (plain POST))
              (at_time 5000) sample_db))
    = (Ok (jsonify (JArr (note_json n :: rest)) 200),
       snd (notes (JStr oid_a)
              (with_json (JObj [("content", JStr "hi")]) (plain POST))
              (at_time 5000) sample_db))
    /\ n_id n = oid_free.
Proof.
  destruct (created_note_is_listed_first oid_a
              (with_json (JObj [("content", JStr "hi")]) (plain POST))
              (at_time 5000) sample_db _ _ _ (plain GET) (at_time 5001)
              eq_refl eq_refl)
    as (n & rest & H1 & H2 & _).
  - intros m [<-|[<-|[]]] Hown; simpl; lia.
  - reflexivity.
  - reflexivity.
  - simpl. lia.
  - exists n, rest. split; [exact H1 | exact H2].
Defined.

(* ================================================================== *)
(** ** Security headers *)

Lemma same_header_sym (a b : string) : same_header a b = same_header b a.
Proof. unfold same_header. apply String.eqb_sym. Qed.

Lemma same_header_trans (a b c : string) :
  same_header a b = true -> same_header b c = true -> same_header a c = true.
Proof.
  unfold same_header. intros H1 H2.
  apply String.eqb_eq in H1, H2. apply String.eqb_eq. congruence.
Qed.

Lemma same_header_other (a b c : string) :
  same_header a b = true -> same_header c b = false ->
  same_header a c = false.
Proof.
  intros H1 H2. destruct (same_header a c) eqn:E; [|reflexivity].
  rewrite same_header_sym in E.
  rewrite (same_header_trans c a b E H1) in H2. discriminate.
Qed.

Lemma header_get_remove (k k' : string) (h : headers) :
  same_header k' k = false ->
  header_get k' (remove_header k h) = header_get k' h.
Proof.
  intro Hne. unfold header_get, remove_header.
  induction h as [|[a v] rest IH]; simpl; [reflexivity|].
  destruct (same_header a k) eqn:E; simpl.
  - rewrite (same_header_other a k k' E Hne). exact IH.
  - destruct (same_header a k'); [reflexivity | exact IH].
Qed.

Lemma header_get_set_same (k k' v : string) (h : headers) :
  same_header k' k = true -> header_get k' (set_header k v h) = Some v.
Proof.
  intro Hs. assert (Hk : same_header k k' = true)
    by (rewrite same_header_sym; exact Hs).
  induction h as [|[a w] rest IH]; simpl.
  - unfold header_get. simpl. rewrite Hk. reflexivity.
  - destruct (same_header a k) eqn:E.
    + unfold header_get. simpl. rewrite Hk. reflexivity.
    + unfold header_get in *. simpl.
      assert (Ha : same_header a k' = false).
      { destruct (same_header a k') eqn:A; [|reflexivity].
        rewrite (same_header_trans a k' k A Hs) in E. discriminate. }
      rewrite Ha. exact IH.
Qed.

Lemma header_get_set_other (k k' v : string) (h : headers) :
  same_header k' k = false ->
  header_get k' (set_header k v h) = header_get k' h.
Proof.
  intro Hne. assert (Hk : same_header k k' = false)
    by (rewrite same_header_sym; exact Hne).
  induction h as [|[a w] rest IH]; simpl.
  - unfold header_get. simpl. rewrite Hk. reflexivity.
  - destruct (same_header a k) eqn:E.
    + pose proof (header_get_remove k k' rest Hne) as Hr.
      unfold header_get in *. simpl. rewrite Hk.
      rewrite (same_header_other a k k' E Hne). exact Hr.
    + unfold header_get in *. simpl.
      destruct (same_header a k'); [reflexivity | exact IH].
Qed.

Lemma header_count_remove (k : string) (h : headers) :
  header_count k (remove_header k h) = 0%nat.
Proof.
  unfold header_count, remove_header.
  induction h as [|[a v] rest IH]; simpl; [reflexivity|].
  destruct (same_header a k) eqn:E; simpl; [exact IH|].
  rewrite E. exact IH.
Qed.

Lemma header_count_set_same (k v : string) (h : headers) :
  header_count k (set_header k v h) = 1%nat.
Proof.
  assert (Hk : same_header k k = true)
    by (unfold same_header; apply String.eqb_refl).
  induction h as [|[a w] rest IH]; simpl.
  - unfold header_count. simpl. rewrite Hk. reflexivity.
  - destruct (same_header a k) eqn:E.
    + pose proof (header_count_remove k rest) as Hr.
      unfold header_count in *. simpl. rewrite Hk. simpl. rewrite Hr.
      reflexivity.
    + unfold header_count in *. simpl. rewrite E. exact IH.
Qed.

Lemma header_count_set_other (k k' v : string) (h : headers) :
  same_header k' k = false ->
  header_count k' (set_header k v h) = header_count k' h.
Proof.
  intro Hne. assert (Hk : same_header k k' = false)
    by (rewrite same_header_sym; exact Hne).
  unfold header_count.
  induction h as [|[a w] rest IH]; simpl.
  - rewrite Hk. reflexivity.
  - destruct (same_header a k) eqn:E; simpl.
    + rewrite Hk, (same_header_other a k k' E Hne).
      clear IH. unfold remove_header.
      induction rest as [|[b x] rest' IH']; simpl; [reflexivity|].
      destruct (same_header b k) eqn:B; simpl.
      * rewrite (same_header_other b k k' B Hne). exact IH'.
      * destruct (same_header b k'); simpl; rewrite IH'; reflexivity.
    + destruct (same_header a k'); simpl; rewrite IH; reflexivity.
Qed.

(** X18. Whatever headers a response carries when it leaves a view,
    after [after_request] it has exactly one [X-Content-Type-Options], one
    [X-Frame-Options] and one [X-XSS-Protection] entry, with the values
    [nosniff], [DENY] and [1; mode=block], under any spelling of the names
    by case; in production it has [Strict-Transport-Security] with a
    max-age of one year, outside production that header is as the view
    left it; and every header of another name reads as before. *)
Theorem after_request_fixes_security_headers {P : Platform} (h : headers) :
  (forall k, same_header k "X-Content-Type-Options" = true ->
             header_get k (after_request h) = Some "nosniff"
             /\ header_count k (after_request h) = 1%nat)
  /\ (forall k, same_header k "X-Frame-Options" = true ->
                header_get k (after_request h) = Some "DENY"
                /\ header_count k (after_request h) = 1%nat)
  /\ (forall k, same_header k "X-XSS-Protection" = true ->
                header_get k (after_request h) = Some "1; mode=block"
                /\ header_count k (after_request h) = 1%nat)
  /\ (forall k, same_header k "Strict-Transport-Security" = true ->
                header_get k (after_request h)
                = if production
                  then Some "max-age=31536000; includeSubDomains"
                  else header_get k h)
  /\ (forall k, same_header k "X-Content-Type-Options" = false ->
                same_header k "X-Frame-Options" = false ->
                same_header k "X-XSS-Protection" = false ->
                same_header k "Strict-Transport-Security" = false ->
                header_get k (after_request h) = header_get k h
                /\ header_count k (after_request h) = header_count k h).
Proof.
  assert (Hcount : forall k k' v g,
             same_header k' k = true ->
             header_count k' (set_header k v g) = 1%nat).
  { intros k k' v g Hs.
    assert (E : forall g0, header_count k' g0 = header_count k g0).
    { intro g0. unfold header_count. f_equal. apply filter_ext.
      intros [a w]. simpl.
      destruct (same_header a k) eqn:A.
      - rewrite same_header_sym in Hs.
        exact (same_header_trans a k k' A Hs).
      - destruct (same_header a k') eqn:B; [|reflexivity].
        rewrite (same_header_trans a k' k B Hs) in A. discriminate. }
    rewrite E. apply header_count_set_same. }
  assert (Hdiff : forall k a b, same_header k a = true ->
                                same_header a b = false ->
                                same_header k b = false).
  { intros k a b Ha Hab. destruct (same_header k b) eqn:E; [|reflexivity].
    rewrite same_header_sym in Ha.
    rewrite (same_header_trans a k b Ha E) in Hab. discriminate. }
  unfold after_request.
  split; [|split; [|split; [|split]]]; intros k; intros.
  - assert (same_header k "X-Frame-Options" = false)
      by (eapply Hdiff; eauto).
    assert (same_header k "X-XSS-Protection" = false)
      by (eapply Hdiff; eauto).
    assert (same_header k "Strict-Transport-Security" = false)
      by (eapply Hdiff; eauto).
    destruct production;
      rewrite ?header_get_set_other, ?header_count_set_other by assumption;
      (split; [apply header_get_set_same | apply Hcount]); assumption.
  - assert (same_header k "X-XSS-Protection" = false)
      by (eapply Hdiff; eauto).
    assert (same_header k "Strict-Transport-Security" = false)
      by (eapply Hdiff; eauto).
    destruct production;
      rewrite ?header_get_set_other, ?header_count_set_other by assumption;
      (split; [apply header_get_set_same | apply Hcount]); assumption.
  - assert (same_header k "Strict-Transport-Security" = false)
      by (eapply Hdiff; eauto).
    destruct production;
      rewrite ?header_get_set_other, ?header_count_set_other by assumption;
      (split; [apply header_get_set_same | apply Hcount]); assumption.
  - assert (same_header k "X-Content-Type-Options" = false)
      by (eapply Hdiff; eauto).
    assert (same_header k "X-Frame-Options" = false)
      by (eapply Hdiff; eauto).
    assert (same_header k "X-XSS-Protection" = false)
      by (eapply Hdiff; eauto).
    destruct production.
    + apply header_get_set_same. assumption.
    + rewrite !header_get_set_other by assumption. reflexivity.
  - destruct production;
      rewrite !header_get_set_other, !header_count_set_other by assumption;
      split; reflexivity.
Qed.

(* ================================================================== *)
(** ** Create, then address the note by the id that was returned *)

Lemma find_note_appended (l : list note) (us : list user) (n : note) :
  ~ In (n_id n) (map n_id l) ->
  find_note (n_id n) (n_user_id n)
    {| db_users := us; db_notes := l ++ [n] |} = Some n.
Proof.
  unfold find_note. cbn [db_notes].
  induction l as [|a rest IH]; simpl; intro H.
  - rewrite !String.eqb_refl. reflexivity.
  - destruct (String.eqb (n_id a) (n_id n)) eqn:E.
    + apply String.eqb_eq in E. exfalso. apply H. left. exact E.
    + simpl. apply IH. tauto.
Qed.

Lemma delete_first_appended (l : list note) (n : note) :
  ~ In (n_id n) (map n_id l) -> delete_first (n_id n) (l ++ [n]) = l.
Proof.
  induction l as [|a rest IH]; simpl; intro H.
  - rewrite String.eqb_refl. reflexivity.
  - destruct (String.eqb (n_id a) (n_id n)) eqn:E.
    + apply String.eqb_eq in E. exfalso. apply H. left. exact E.
    + rewrite IH by tauto. reflexivity.
Qed.

(** X19. The id a create returns addresses the note it stored.  When a
    create of a caller with a well-formed id is answered 201 and the [_id]
    drawn is an ObjectId, the [note_id] of the body is that [_id], the
    note is found under it for that caller, and a DELETE of the same
    caller on it is answered 200 and leaves the database exactly as it
    was before the create. *)
Theorem created_note_is_addressable (owner : ObjectId) (req : request)
  (e : env) (d d' : db) (body : json) (cks : list cookie) :
  is_oid owner = true ->
  is_oid (new_oid e) = true ->
  notes (JStr owner) req e d = (Ok (Response 201 body cks), d') ->
  body = JObj [("message", JStr "Note created");
               ("note_id", JStr (new_oid e))]
  /\ (exists n, find_note (new_oid e) owner d' = Some n
                 /\ n_id n = new_oid e /\ n_user_id n = owner)
  /\ (forall req' e',
        method req' = DELETE ->
        note_detail (JStr owner) (new_oid e) req' e' d'
        = (Ok (jsonify (message "Note deleted") 200), d)).
Proof.
  intros Hoid Hnew H.
  assert (Hpost : notes_post (JStr owner) req e d
                  = Ok (Response 201 body cks, d')).
  { unfold notes, try_except in H. destruct (method req).
    1, 3, 4: destruct (notes_get (JStr owner) req d) as [[r d1]|] eqn:G;
      [|discriminate]; unfold notes_get, bind in G;
      destruct (ObjectId_of (JStr owner)); [|discriminate];
      destruct (notes_page _ _ _ d); [|discriminate];
      inversion G; subst; discriminate.
    destruct (notes_post (JStr owner) req e d) as [[r d1]|]; [|discriminate].
    inversion H; subst. reflexivity. }
  pose proof Hpost as Hbody.
  apply notes_post_created in Hpost
    as (rt & rc & o & _ & _ & _ & _ & _ & Ho & I).
  rewrite (ObjectId_of_canonical owner Hoid) in Ho. inversion Ho; subst o.
  assert (Hb : body = JObj [("message", JStr "Note created");
                            ("note_id", JStr (new_oid e))]).
  { unfold notes_post, bind in Hbody. unfold jsonify in Hbody.
    repeat (break_match Hbody; try discriminate).
    inversion Hbody. reflexivity. }
  split; [exact Hb|].
  pose proof (insert_note_ok _ _ _ I) as (Hfresh & Husers & Hnotes).
  cbn [n_id] in Hfresh.
  set (n := {| n_id := new_oid e; n_user_id := owner;
               n_title := JStr (strip rt); n_content := JStr (strip rc);
               n_created_at := utcnow e;
               n_updated_at := utcnow_again e |}) in *.
  assert (Hd' : d' = {| db_users := db_users d;
                        db_notes := db_notes d ++ [n] |}).
  { destruct d' as [us ns]. cbn [db_users db_notes] in *. congruence. }
  assert (Hfind : find_note (new_oid e) owner d' = Some n).
  { rewrite Hd'. exact (find_note_appended (db_notes d) (db_users d) n Hfresh). }
  split.
  - exists n. repeat split. exact Hfind.
  - intros req' e' Hm. unfold note_detail.
    rewrite (ObjectId_of_str_canonical _ Hnew).
    rewrite (ObjectId_of_canonical owner Hoid), Hfind, Hm.
    f_equal. rewrite Hd'. unfold delete_one. cbn [db_users db_notes].
    pose proof (delete_first_appended (db_notes d) n Hfresh) as Hdel.
    change (n_id n) with (new_oid e) in Hdel. rewrite Hdel.
    destruct d. reflexivity.
Qed.

Lemma created_note_is_addressable_witness :
  note_detail (JStr oid_a) oid_free (plain DELETE) (at_time 5001)
    (snd (notes (JStr oid_a)
            (with_json (JObj [("content", JStr "hi")]) (plain POST))
            (at_time 5000) sample_db))
  = (Ok (jsonify (message "Note deleted") 200), sample_db).
Proof.
  destruct (created_note_is_addressable oid_a
              (with_json (JObj [("content", JStr "hi")]) (plain POST))
              (at_time 5000) sample_db _ _ _ eq_refl eq_refl eq_refl)
    as (_ & _ & H).
  exact (H (plain DELETE) (at_time 5001) eq_refl).
Defined.

(* ================================================================== *)
(** ** An update moves the note to the top *)

Lemma sort_desc_head (l : list note) (x : note) :
  In x l ->
  (forall m, In m l -> m = x \/ n_updated_at m < n_updated_at x) ->
  exists rest, sort_desc l = x :: rest.
Proof.
  induction l as [|a r IH]; simpl; [tauto|].
  intros Hin Hall.
  assert (Ha : a = x \/ n_updated_at a < n_updated_at x)
    by (apply Hall; left; reflexivity).
  assert (Hr : forall m, In m r -> m = x \/ n_updated_at m < n_updated_at x)
    by (intros m Hm; apply Hall; right; exact Hm).
  destruct Hin as [->|Hxr].
  - destruct (sort_desc r) as [|m S] eqn:E; simpl; [eexists; reflexivity|].
    assert (Hm : In m r).
    { apply (Permutation_in _ (sort_desc_perm r)). rewrite E. left.
      reflexivity. }
    destruct (Hr m Hm) as [->|Hlt].
    + rewrite Z.ltb_irrefl. eexists. reflexivity.
    + apply Z.ltb_lt in Hlt. rewrite Hlt. eexists. reflexivity.
  - destruct (IH Hxr Hr) as [rest ->]. simpl.
    assert (E : (n_updated_at x <? n_updated_at a) = false).
    { apply Z.ltb_ge. destruct Ha as [->|Ha]; lia. }
    rewrite E. eexists. reflexivity.
Qed.

(** X20. When a PUT is answered 200 at an instant later than the
    [updated_at] of every note the caller had, the first page of the
    caller's next listing, whatever its size from 1 up, opens with the
    note that was updated, carrying its id and the new stamp. *)
Theorem updated_note_is_listed_first (owner : ObjectId) (note_id : string)
  (req : request) (e : env) (d d' : db) (body : json) (cks : list cookie)
  (req' : request) (e' : env) :
  wf_db d ->
  is_oid owner = true ->
  method req = PUT ->
  note_detail (JStr owner) note_id req e d
  = (Ok (Response 200 body cks), d') ->
  (forall m, In m (db_notes d) -> n_user_id m = owner ->
             n_updated_at m < utcnow e) ->
  method req' = GET ->
  args_get (arg_page req') 1 = 1 ->
  1 <= args_get (arg_per_page req') 20 ->
  exists n rest,
    notes (JStr owner) req' e' d'
    = (Ok (jsonify (JArr (note_json n :: rest)) 200), d')
    /\ ObjectId_of_str note_id = Some (n_id n)
    /\ n_user_id n = owner
    /\ n_updated_at n = utcnow e.
Proof.
  intros [Hnd _] Hoid Hput H Hold Hget Hpage Hsize.
  destruct (note_detail_put_inv _ _ _ _ _ _ _ _ Hput H)
    as (i & o & m & u & Hi & Ho & Hf & Hb & ->).
  rewrite (ObjectId_of_canonical owner Hoid) in Ho. inversion Ho; subst o.
  apply find_note_some in Hf as (Hin & <- & Hown).
  destruct (build_update_inv _ _ _ Hb) as (Hnow & _).
  set (n := apply_set u m).
  assert (Hnotes : db_notes (update_one (n_id m) u d)
                   = map (fun k => if String.eqb (n_id k) (n_id m)
                                   then n else k) (db_notes d)).
  { unfold update_one. cbn [db_notes].
    rewrite update_first_map by exact Hnd. apply map_ext_in.
    intros k Hk. destruct (String.eqb (n_id k) (n_id m)) eqn:E;
      [|reflexivity].
    apply String.eqb_eq in E.
    rewrite (unique_by_id _ _ _ Hnd Hk Hin E). reflexivity. }
  assert (Hhead : exists rest,
             sort_desc (owned_by owner (db_notes (update_one (n_id m) u d)))
             = n :: rest).
  { apply sort_desc_head.
    - unfold owned_by. apply filter_In. split.
      + rewrite Hnotes. apply in_map_iff. exists m.
        rewrite String.eqb_refl. auto.
      + apply String.eqb_eq. exact Hown.
    - intros k Hk. unfold owned_by in Hk. apply filter_In in Hk as [Hk Hko].
      apply String.eqb_eq in Hko.
      rewrite Hnotes in Hk. apply in_map_iff in Hk as (k0 & Hk0 & Hin0).
      destruct (String.eqb (n_id k0) (n_id m)); [left; auto|].
      subst k0. right. unfold n. cbn [apply_set n_updated_at].
      rewrite Hnow. exact (Hold k Hin0 Hko). }
  destruct Hhead as [rest0 Hsorted].
  set (size := Z.min (args_get (arg_per_page req') 20) 100).
  assert (Hs1 : 1 <= size) by (unfold size; lia).
  exists n, (map note_json (firstn (Nat.pred (Z.to_nat size)) rest0)).
  split; [|repeat split; auto].
  unfold notes, notes_get, try_except. rewrite Hget.
  rewrite (ObjectId_of_canonical owner Hoid). cbn [bind].
  unfold notes_page, cursor_skip, cursor_limit, bind.
  rewrite Hpage, Hsorted. cbn [Z.sub Z.mul Z.ltb Z.compare Z.to_nat skipn].
  fold size.
  assert (Hz : (size =? 0) = false) by (apply Z.eqb_neq; lia).
  rewrite Hz, Z.abs_eq by lia.
  destruct (Z.to_nat size) as [|k] eqn:K; [lia|].
  cbn [Nat.pred firstn map]. reflexivity.
Qed.

Lemma updated_note_is_listed_first_witness :
  exists n rest,
    notes (JStr oid_b) (plain GET) (at_time 9001)
      (snd (note_detail (JStr oid_b) oid_m
              (with_json (JObj [("title", JStr "mum")]) (plain PUT))
              (at_time 9000) sample_db))
    = (Ok (jsonify (JArr (note_json n :: rest)) 200),
       snd (note_detail (JStr oid_b) oid_m
              (with_json (JObj [("title", JStr "mum")]) (plain PUT))
              (at_time 9000) sample_db))
    /\ n_updated_at n = 9000.
Proof.
  destruct (updated_note_is_listed_first oid_b oid_m
              (with_json (JObj [("title", JStr "mum")]) (plain PUT))
              (at_time 9000) sample_db _ _ _ (plain GET) (at_time 9001)
              sample_db_wf eq_refl eq_refl eq_refl)
    as (n & rest & H1 & _ & _ & H2).
  - intros m [<-|[<-|[]]] Hown; simpl; lia.
  - reflexivity.
  - reflexivity.
  - simpl. lia.
  - exists n, rest. split; [exact H1 | exact H2].
Defined.

(* ================================================================== *)
(** ** The id in the path *)

Lemma is_hex_lower (c : ascii) : is_hex (lower c) = is_hex c.
Proof.
  destruct c as [[] [] [] [] [] [] [] []]; reflexivity.
Qed.

Lemma lower_lower (c : ascii) : lower (lower c) = lower c.
Proof.
  destruct c as [[] [] [] [] [] [] [] []]; reflexivity.
Qed.

Lemma map_chars_length (f : ascii -> ascii) (s : string) :
  len (map_chars f s) = len s.
Proof.
  unfold len. f_equal. induction s as [|c rest IH]; simpl; congruence.
Qed.

Lemma all_hex_lower (s : string) :
  all_chars is_hex (map_chars lower s) = all_chars is_hex s.
Proof.
  induction s as [|c rest IH]; simpl; [reflexivity|].
  rewrite is_hex_lower, IH. reflexivity.
Qed.

Lemma map_lower_lower (s : string) :
  map_chars lower (map_chars lower s) = map_chars lower s.
Proof.
  induction s as [|c rest IH]; simpl; [reflexivity|].
  rewrite lower_lower, IH. reflexivity.
Qed.

Lemma lower_hex_of_hex (c : ascii) :
  is_hex c = true -> is_lower_hex (lower c) = true.
Proof.
  destruct c as [[] [] [] [] [] [] [] []]; vm_compute; intro; congruence.
Qed.

Lemma all_hex_canonical (s : string) :
  all_chars is_hex s = true ->
  all_chars is_lower_hex (map_chars lower s) = true.
Proof.
  induction s as [|c rest IH]; simpl; [reflexivity|].
  intro H. apply andb_true_iff in H as [Hc Hr].
  rewrite (lower_hex_of_hex c Hc), (IH Hr). reflexivity.
Qed.

Lemma ObjectId_of_str_lower (s : string) :
  ObjectId_of_str (map_chars lower s) = ObjectId_of_str s.
Proof.
  unfold ObjectId_of_str.
  rewrite map_chars_length, all_hex_lower, map_lower_lower. reflexivity.
Qed.

Lemma all_hex_or_blank (s : string) :
  all_chars (fun c => is_hex c || isspace c) s = false ->
  all_chars is_hex s = false.
Proof.
  induction s as [|c rest IH]; simpl; [trivial|].
  intro H. apply andb_false_iff in H as [H|H].
  - apply orb_false_iff in H as [H _]. rewrite H. reflexivity.
  - rewrite (IH H). apply andb_false_r.
Qed.

(** X21. The id in the path of /api/notes/<id> is read without regard to
    the case of its hexadecimal digits: a PUT or DELETE on an id and on
    its lower-case spelling act alike.  A path that has not 24
    characters, or holds a character that is neither a hexadecimal digit
    nor whitespace, is answered 400 "Invalid note ID" before the
    session's user or the body is looked at, and writes nothing.  A path
    of 24 hexadecimal digits is read as the ObjectId whose canonical
    rendering is its lower-case spelling. *)
Theorem note_id_is_read_without_case (uid : json) (note_id : string)
  (req : request) (e : env) (d : db) :
  note_detail uid (map_chars lower note_id) req e d
  = note_detail uid note_id req e d
  /\ (len note_id <> 24
      \/ all_chars (fun c => is_hex c || isspace c) note_id = false ->
      note_detail uid note_id req e d
      = (Ok (jsonify (error "Invalid note ID") 400), d))
  /\ (len note_id = 24 -> all_chars is_hex note_id = true ->
      ObjectId_of_str note_id = Some (map_chars lower note_id)
      /\ is_oid (map_chars lower note_id) = true).
Proof.
  split; [|split].
  - unfold note_detail. rewrite ObjectId_of_str_lower. reflexivity.
  - intro H. unfold note_detail, ObjectId_of_str.
    destruct H as [H|H].
    + apply Z.eqb_neq in H. rewrite H. reflexivity.
    + rewrite (all_hex_or_blank _ H), andb_false_r. reflexivity.
  - intros Hl Hh. unfold ObjectId_of_str, is_oid.
    rewrite map_chars_length, Hl, Hh, (all_hex_canonical _ Hh).
    split; reflexivity.
Qed.

(* ================================================================== *)
(** ** The guarded routes do not consult the accounts *)

(** X22. The three guarded routes never read the users collection: with
    the same notes, they give the same answer and leave the same notes
    whatever accounts the store holds, so a token that decodes is served
    whether or not a user of its [user_id] exists. *)
Theorem guarded_routes_ignore_accounts {P : Platform} (r : route)
  (h : json -> view) (req : request) (e : env) (us us' : list user)
  (ns : list note) :
  handler r = Some h ->
  fst (serve r req e {| db_users := us; db_notes := ns |})
  = fst (serve r req e {| db_users := us'; db_notes := ns |})
  /\ db_notes (snd (serve r req e {| db_users := us; db_notes := ns |}))
     = db_notes (snd (serve r req e {| db_users := us'; db_notes := ns |})).
Proof.
  intro Hh. unfold serve.
  destruct (allowed r (method req)); [|split; reflexivity].
  rewrite (handler_endpoint r h Hh).
  assert (Hview : forall uid,
             fst (h uid req e {| db_users := us; db_notes := ns |})
             = fst (h uid req e {| db_users := us'; db_notes := ns |})
             /\ db_notes (snd (h uid req e
                                 {| db_users := us; db_notes := ns |}))
                = db_notes (snd (h uid req e
                                   {| db_users := us'; db_notes := ns |}))).
  { intro uid. destruct r; simpl in Hh; inversion Hh; subst h; clear Hh.
    - split; reflexivity.
    - unfold notes, notes_post, notes_get, notes_page, insert_note,
        try_except, bind. cbn [db_notes db_users].
      split_all_cases; split; reflexivity.
    - unfold note_detail, find_note, update_one, delete_one.
      cbn [db_notes db_users].
      split_all_cases; split; reflexivity. }
  unfold token_required, redirect_login.
  destruct (cookie_token req) as [c|]; [|split; reflexivity].
  destruct (negb (cookie_truthy c)); [split; reflexivity|].
  destruct (jwt_decode c SECRET_KEY (utcnow e)); try (split; reflexivity).
  destruct (py_getitem (JObj data) "user_id") as [uid|];
    [apply Hview | split; reflexivity].
Qed.

Lemma guarded_routes_ignore_accounts_witness :
  fst (@serve sample ApiNotes (as_user alice 3000 (plain GET)) (at_time 5000)
         {| db_users := []; db_notes := [note_n; note_m] |})
  = fst (@serve sample ApiNotes (as_user alice 3000 (plain GET))
           (at_time 5000) sample_db).
Proof.
  exact (proj1 (@guarded_routes_ignore_accounts sample ApiNotes notes
                  (as_user alice 3000 (plain GET)) (at_time 5000)
                  [] [alice; bob] [note_n; note_m] eq_refl)).
Defined.
